(** * trainapi: a GTFS timetable query service

    A shallow embedding of [main.go]: the time normaliser [AdjustTime], the
    calendar evaluator [isValidTrip], the table loaders and the two request
    handlers [handleGetTrainInfo] and [handleGetTrainList], followed by the
    properties the specification states about them.

    Conventions.
    - Go's [int] is 64 bits wide; it is modelled by [Z], and every place
      where the source can leave the 64-bit range is written out.
    - Go strings are byte strings: [string] with one [ascii] per byte.
    - [log.Printf] only writes to the process log and is left out.
    - A Go run-time panic (an index out of range) is an explicit outcome.
    - A slice is a [list]; the nil slice and the empty slice are both [[]]. *)

From Stdlib Require Import ZArith Lia Bool Ascii String List.
From stdpp Require Import base option list strings gmap.

Local Open Scope string_scope.
Local Open Scope list_scope.
Local Open Scope Z_scope.

(** ** Bytes and strings *)

Module Bytes.

Definition code (c : ascii) : Z := Z.of_N (N_of_ascii c).

(** [c - k] on a Go [byte]: unsigned 8-bit subtraction. *)
Definition sub (c : ascii) (k : Z) : Z := (code c - k) mod 256.

(** [isDigit] of package [time]: ['0' <= c && c <= '9']. *)
Definition isDigit (c : ascii) : bool := (48 <=? code c) && (code c <=? 57).

Definition digitChar (d : Z) : ascii := ascii_of_N (Z.to_N (48 + d)).

Definition colon : ascii := ":"%char.

End Bytes.

(** [strings.Split(s, sep)] for a one-byte separator: the pieces of [s]
    between the occurrences of [sep]; there is always at least one piece. *)
Fixpoint Split (s : string) (sep : ascii) : list string :=
  match s with
  | EmptyString => [EmptyString]
  | String c r =>
      if Ascii.eqb c sep then EmptyString :: Split r sep
      else match Split r sep with
           | p :: ps => String c p :: ps
           | [] => [String c EmptyString]
           end
  end.

(** [strings.Count(s, sep)] for a one-byte separator. *)
Fixpoint Count (s : string) (sep : ascii) : nat :=
  match s with
  | EmptyString => 0%nat
  | String c r => ((if Ascii.eqb c sep then 1 else 0) + Count r sep)%nat
  end.

(** ** [strconv.Atoi] *)

Module strconv.

Definition IntSize : Z := 64.
Definition maxUint64 : Z := 2 ^ 64 - 1.

Inductive NumError := ErrSyntax | ErrRange.

(** The fast path of [Atoi]: at most 18 bytes after the sign, so the
    accumulator cannot leave the [int] range. *)
Fixpoint fastLoop (s : string) (n : Z) : option Z :=
  match s with
  | EmptyString => Some n
  | String ch r =>
      let d := Bytes.sub ch 48 in
      if 9 <? d then None else fastLoop r (n * 10 + d)
  end.

(** The digit loop of [ParseUint(s, 10, 64)]. A byte that is not a decimal
    digit is a syntax error (letters decode to a digit [>= 10], which base 10
    refuses); the overflow tests come before the next byte is looked at. *)
Fixpoint uintLoop (s : string) (n : Z) : Z * option NumError :=
  match s with
  | EmptyString => (n, None)
  | String c r =>
      if negb (Bytes.isDigit c) then (0, Some ErrSyntax)
      else
        let d := Bytes.sub c 48 in
        let cutoff := maxUint64 / 10 + 1 in
        if cutoff <=? n then (maxUint64, Some ErrRange)
        else
          let n10 := n * 10 in
          let n1 := (n10 + d) mod 2 ^ 64 in
          if (n1 <? n10) || (maxUint64 <? n1) then (maxUint64, Some ErrRange)
          else uintLoop r n1
  end.

Definition ParseUint (s : string) : Z * option NumError :=
  match s with
  | EmptyString => (0, Some ErrSyntax)
  | _ => uintLoop s 0
  end.

(** [ParseInt(s, 10, 0)]. On a range error the result is the nearest bound
    of the 64-bit range, not zero. *)
Definition ParseInt (s : string) : Z * option NumError :=
  match s with
  | EmptyString => (0, Some ErrSyntax)
  | String c r =>
      let '(neg, body) :=
        if Ascii.eqb c "+" then (false, r)
        else if Ascii.eqb c "-" then (true, r)
        else (false, s) in
      match ParseUint body with
      | (_, Some ErrSyntax) => (0, Some ErrSyntax)
      | (un, _) =>
          let cutoff := 2 ^ (IntSize - 1) in
          if negb neg && (cutoff <=? un) then (cutoff - 1, Some ErrRange)
          else if neg && (cutoff <? un) then (- cutoff, Some ErrRange)
          else (if neg then - un else un, None)
      end
  end.

Definition Atoi (s : string) : Z * option NumError :=
  let sLen := Z.of_nat (String.length s) in
  if (0 <? sLen) && (sLen <? 19) then
    match s with
    | EmptyString => (0, Some ErrSyntax)
    | String c0 r =>
        let signed := Ascii.eqb c0 "-" || Ascii.eqb c0 "+" in
        let body := if signed then r else s in
        if signed && (Z.of_nat (String.length body) <? 1) then (0, Some ErrSyntax)
        else
          match fastLoop body 0 with
          | None => (0, Some ErrSyntax)
          | Some n => (if Ascii.eqb c0 "-" then - n else n, None)
          end
    end
  else ParseInt s.

End strconv.

(** ** [fmt.Sprintf] with the verb [%02d] *)

Module fmt.

(** The digit loop of [fmtInteger], least significant digit first into the
    buffer; 20 digits are enough for any 64-bit magnitude. *)
Fixpoint digits (fuel : nat) (u : Z) (buf : string) : string :=
  match fuel with
  | O => buf
  | S f =>
      if 10 <=? u then
        let next := u / 10 in
        digits f next (String (Bytes.digitChar (u - next * 10)) buf)
      else String (Bytes.digitChar u) buf
  end.

Fixpoint zeros (k : nat) (buf : string) : string :=
  match k with
  | O => buf
  | S k' => zeros k' (String "0" buf)
  end.

(** [%0<wid>d]: the zero flag turns the width into a precision, one less
    when a sign is written; the digits are padded with zeros up to it. *)
Definition fmtInteger (wid : nat) (v : Z) : string :=
  let negative := v <? 0 in
  let u := if negative then - v else v in
  let prec := if negative then Nat.pred wid else wid in
  let body := digits 20 u EmptyString in
  let padded := zeros (prec - String.length body) body in
  if negative then String "-" padded else padded.

Definition d02 (v : Z) : string := fmtInteger 2 v.

End fmt.

(** ** The time normaliser *)

(** [AdjustTime]; the result of [Sprintf("%02d:%s:%s", hours, parts[1], parts[2])]
    is the padded hour followed by the other two pieces as they are. *)
Definition AdjustTime (t : string) : string :=
  match Split t Bytes.colon with
  | [p0; p1; p2] =>
      match strconv.Atoi p0 with
      | (_, Some _) => t
      | (hours, None) =>
          let hours := if 24 <=? hours then hours - 24 else hours in
          (fmt.d02 hours ++ ":" ++ p1 ++ ":" ++ p2)%string
      end
  | _ => t
  end.

(** A string of the shape [HH:MM:SS]: three pieces with a colon between them. *)
Definition clock (h m s : string) : string := (h ++ ":" ++ m ++ ":" ++ s)%string.

(** ** Package [time], as far as the program uses it

    Every [time.Time] of the program comes out of [time.Parse] with a layout
    that has a year, a month and a day only, or is the zero [Time] that
    [Parse] returns with an error. Such a value is midnight UTC of a civil
    date of the proleptic Gregorian calendar, and the model keeps that date. *)

Module time.

Record Time := mkTime { year : Z; month : Z; day : Z }.

(** [Time{}]: January 1 of year 1. *)
Definition zero : Time := mkTime 1 1 1.

Definition isLeap (y : Z) : bool :=
  (Z.rem y 4 =? 0) && (negb (Z.rem y 100 =? 0) || (Z.rem y 400 =? 0)).

Definition daysIn (m y : Z) : Z :=
  if m =? 2 then (if isLeap y then 29 else 28)
  else if (m =? 4) || (m =? 6) || (m =? 9) || (m =? 11) then 30
  else 31.

(** Days of a common year before the first of month [m]. *)
Definition daysBefore (m : Z) : Z :=
  match m with
  | 1 => 0 | 2 => 31 | 3 => 59 | 4 => 90 | 5 => 120 | 6 => 151
  | 7 => 181 | 8 => 212 | 9 => 243 | 10 => 273 | 11 => 304 | 12 => 334
  | _ => 365
  end.

(** Days between January 1 of year 1 and the date: the instant a [Time]
    stands for, in days. *)
Definition absDays (t : Time) : Z :=
  let y := year t - 1 in
  365 * y + y / 4 - y / 100 + y / 400
  + daysBefore (month t)
  + (if isLeap (year t) && (2 <? month t) then 1 else 0)
  + (day t - 1).

Definition Before (t u : Time) : bool := absDays t <? absDays u.
Definition After (t u : Time) : bool := absDays u <? absDays t.

(** [type Weekday int], with [Sunday = 0] up to [Saturday = 6]. *)
Definition Weekday := Z.
Definition Sunday : Weekday := 0.
Definition Monday : Weekday := 1.
Definition Tuesday : Weekday := 2.
Definition Wednesday : Weekday := 3.
Definition Thursday : Weekday := 4.
Definition Friday : Weekday := 5.
Definition Saturday : Weekday := 6.

(** [t.Weekday()]; January 1 of year 1 is a Monday. *)
Definition weekday (t : Time) : Weekday := (absDays t + Monday) mod 7.

(** The pieces [nextStdChunk] cuts the two layouts of the program into. *)
Inductive chunk := stdLongYear | stdZeroMonth | stdZeroDay | literal (c : ascii).

(** The layout ["20060102"]. *)
Definition layoutCompact : list chunk := [stdLongYear; stdZeroMonth; stdZeroDay].
(** The layout ["2006-01-02"]. *)
Definition layoutDashed : list chunk :=
  [stdLongYear; literal "-"; stdZeroMonth; literal "-"; stdZeroDay].

Inductive ParseError := errBad | errRange | errExtraText.

Definition digitVal (c : ascii) : Z := Bytes.code c - 48.

(** [getnum(s, true)]: exactly two digits. *)
Definition getnum (s : string) : option (Z * string) :=
  match s with
  | String a (String b r) =>
      if Bytes.isDigit a && Bytes.isDigit b
      then Some (digitVal a * 10 + digitVal b, r) else None
  | _ => None
  end.

(** The year: four bytes taken, all of which [atoi] wants to be digits. *)
Definition getyear (s : string) : option (Z * string) :=
  match s with
  | String a (String b (String c (String d r))) =>
      if Bytes.isDigit a && Bytes.isDigit b && Bytes.isDigit c && Bytes.isDigit d
      then Some (((digitVal a * 10 + digitVal b) * 10 + digitVal c) * 10 + digitVal d, r)
      else None
  | _ => None
  end.

(** The loop of [Parse] over the layout, filling in year, month and day. *)
Fixpoint parseChunks (layout : list chunk) (value : string) (acc : Time)
  : Time * string * option ParseError :=
  match layout with
  | [] => (acc, value, None)
  | stdLongYear :: rest =>
      match getyear value with
      | Some (y, v) => parseChunks rest v (mkTime y (month acc) (day acc))
      | None => (acc, value, Some errBad)
      end
  | stdZeroMonth :: rest =>
      match getnum value with
      | Some (m, v) =>
          if (m <=? 0) || (12 <? m) then (acc, value, Some errRange)
          else parseChunks rest v (mkTime (year acc) m (day acc))
      | None => (acc, value, Some errBad)
      end
  | stdZeroDay :: rest =>
      match getnum value with
      | Some (d, v) => parseChunks rest v (mkTime (year acc) (month acc) d)
      | None => (acc, value, Some errBad)
      end
  | literal c :: rest =>
      match value with
      | String c' v =>
          if Ascii.eqb c c' then parseChunks rest v acc else (acc, value, Some errBad)
      | EmptyString => (acc, value, Some errBad)
      end
  end.

(** [time.Parse(layout, value)]: on every error the [Time] returned is the
    zero one. *)
Definition Parse (layout : list chunk) (value : string) : Time * option ParseError :=
  match parseChunks layout value (mkTime 0 (-1) (-1)) with
  | (_, _, Some e) => (zero, Some e)
  | (t, rest, None) =>
      if negb (String.eqb rest EmptyString) then (zero, Some errExtraText)
      else if (day t <? 1) || (daysIn (month t) (year t) <? day t) then (zero, Some errRange)
      else (t, None)
  end.

(** [t.Format("2006-01-02")] for a year of at most four digits. *)
Definition Format (t : Time) : string :=
  (fmt.fmtInteger 4 (year t) ++ "-" ++ fmt.fmtInteger 2 (month t)
   ++ "-" ++ fmt.fmtInteger 2 (day t))%string.

End time.

(** ** The tables *)

Record Stop := mkStop {
  stop_StopID : string;
  stop_StopName : string;
  stop_Lat : string;
  stop_Lon : string }.

Record StopTime := mkStopTime {
  st_TripID : string;
  st_StopID : string;
  st_ArrivalTime : string;
  st_DepartureTime : string;
  st_StopSequence : Z }.

Record Trip := mkTrip {
  trip_TripID : string;
  trip_RouteID : string;
  trip_ServiceID : string }.

(** [[7]bool]: seven flags, read by index. The loader fills them Monday first. *)
Record Week := mkWeek {
  w0 : bool; w1 : bool; w2 : bool; w3 : bool; w4 : bool; w5 : bool; w6 : bool }.

Definition Week_flags (w : Week) : list bool :=
  [w0 w; w1 w; w2 w; w3 w; w4 w; w5 w; w6 w].

(** [w[i]] for an index within the array. *)
Definition Week_at (w : Week) (i : Z) : bool :=
  nth (Z.to_nat i) (Week_flags w) false.

Record Calendar := mkCalendar {
  cal_ServiceID : string;
  cal_StartDate : string;
  cal_EndDate : string;
  cal_Weekdays : Week }.

(** The zero value of [Stop], which a lookup of a missing key returns. *)
Definition Stop_zero : Stop := mkStop "" "" "" "".

(** ** The calendar evaluator *)

Fixpoint isValidTrip (trip : Trip) (date : time.Time) (calendars : list Calendar) : bool :=
  match calendars with
  | [] => false
  | cal :: rest =>
      if String.eqb (cal_ServiceID cal) (trip_ServiceID trip) then
        let startDate := fst (time.Parse time.layoutCompact (cal_StartDate cal)) in
        let endDate := fst (time.Parse time.layoutCompact (cal_EndDate cal)) in
        if time.Before date startDate || time.After date endDate then
          isValidTrip trip date rest
        else if Week_at (cal_Weekdays cal) (time.weekday date) then true
        else isValidTrip trip date rest
      else isValidTrip trip date rest
  end.

(** ** Outcomes of the loaders

    A loader returns its table, or a non-nil [error], or it panics on an
    index out of range. *)

Inductive outcome (A : Type) : Type :=
| Ok (a : A)
| Err
| Panic.
Arguments Ok {A} a.
Arguments Err {A}.
Arguments Panic {A}.

#[global] Instance outcome_ret : MRet outcome := fun A a => Ok a.
#[global] Instance outcome_bind : MBind outcome := fun A B f m =>
  match m with
  | Ok a => f a
  | Err => Err
  | Panic => Panic
  end.

(** What [os.Open] and [csv.Reader.ReadAll] deliver for one file: an error,
    or the records of the file, header first. The records that [ReadAll]
    delivers all have the number of fields of the first one; see [ReadAll]
    below for the check that refuses the other files. *)
Inductive source := Unreadable | Records (records : list (list string)).

(** The field count check of the reader, which [csv.NewReader] creates with
    [FieldsPerRecord = 0]: every record must have as many fields as the
    first record. *)
Definition sameWidth (records : list (list string)) : bool :=
  match records with
  | [] => true
  | first :: rest => forallb (fun r => (length r =? length first)%nat) rest
  end.

(** [reader.ReadAll()] on a file that opens and in which the reader finds
    the records [raw]: these records, or the error of the field count
    check. *)
Definition ReadAll (raw : list (list string)) : source :=
  if sameWidth raw then Records raw else Unreadable.

Record Files := mkFiles {
  stops_txt : source;
  stop_times_txt : source;
  trips_txt : source;
  calendar_txt : source }.

(** [record[i]] *)
Definition field (record : list string) (i : nat) : outcome string :=
  match record !! i with
  | Some x => Ok x
  | None => Panic
  end.

(** [records[1:]] *)
Definition dataRows (records : list (list string)) : outcome (list (list string)) :=
  match records with
  | [] => Panic
  | _ :: rows => Ok rows
  end.

(** The body of a [for _, record := range records[1:]] loop that appends one
    row to the table per record. *)
Fixpoint appendRows {A} (row : list string -> outcome A)
    (rows : list (list string)) (table : list A) : outcome (list A) :=
  match rows with
  | [] => Ok table
  | record :: rest => x ← row record; appendRows row rest (table ++ [x])
  end.

Definition readTable {A} (row : list string -> outcome A) (f : source) : outcome (list A) :=
  match f with
  | Unreadable => Err
  | Records records => rows ← dataRows records; appendRows row rows []
  end.

Fixpoint loadStops_loop (rows : list (list string)) (stops : gmap string Stop)
  : outcome (gmap string Stop) :=
  match rows with
  | [] => Ok stops
  | record :: rest =>
      if (length record <? 4)%nat then loadStops_loop rest stops
      else
        f0 ← field record 0; f1 ← field record 1;
        f2 ← field record 2; f3 ← field record 3;
        let stop := mkStop f0 f1 f2 f3 in
        loadStops_loop rest (<[stop_StopID stop := stop]> stops)
  end.

Definition loadStops (f : source) : outcome (gmap string Stop) :=
  match f with
  | Unreadable => Err
  | Records records => rows ← dataRows records; loadStops_loop rows ∅
  end.

(** One row of [stop_times.txt]; the error of [Atoi] is dropped and the
    number it returns with it is kept. *)
Definition stopTimeRow (record : list string) : outcome StopTime :=
  f4 ← field record 4;
  let stopSequence := fst (strconv.Atoi f4) in
  f0 ← field record 0; f3 ← field record 3;
  f1 ← field record 1; f2 ← field record 2;
  Ok (mkStopTime f0 f3 f1 f2 stopSequence).

Definition loadStopTimes : source -> outcome (list StopTime) := readTable stopTimeRow.

Definition tripRow (record : list string) : outcome Trip :=
  f2 ← field record 2; f0 ← field record 0; f1 ← field record 1;
  Ok (mkTrip f2 f0 f1).

Definition loadTrips : source -> outcome (list Trip) := readTable tripRow.

Definition calendarRow (record : list string) : outcome Calendar :=
  d1 ← field record 1; d2 ← field record 2; d3 ← field record 3;
  d4 ← field record 4; d5 ← field record 5; d6 ← field record 6;
  d7 ← field record 7;
  let on := fun d => String.eqb d "1" in
  let weekdays := mkWeek (on d1) (on d2) (on d3) (on d4) (on d5) (on d6) (on d7) in
  f0 ← field record 0; f8 ← field record 8; f9 ← field record 9;
  Ok (mkCalendar f0 f8 f9 weekdays).

Definition loadCalendar : source -> outcome (list Calendar) := readTable calendarRow.

(** ** The responses *)

Record TrainStop := mkTrainStop {
  ts_StopName : string;
  ts_ArrivalTime : string;
  ts_DepartureTime : string }.

Record TrainInfoResponse := mkTrainInfoResponse {
  tir_TrainNumber : string;
  tir_Date : string;
  tir_Stops : list TrainStop }.

Record TrainInfo := mkTrainInfo {
  ti_TripID : string;
  ti_DepartureTime : string;
  ti_ArrivalTime : string }.

Record TrainListBody := mkTrainListBody {
  tl_DepartureStation : string;
  tl_ArrivalStation : string;
  tl_Date : string;
  tl_Trains : list TrainInfo }.

Definition StatusBadRequest : Z := 400.
Definition StatusNotFound : Z := 404.
Definition StatusInternalServerError : Z := 500.

(** What a handler leaves on the wire: the encoded body with status 200, the
    text and status of [http.Error], or nothing when the handler panicked
    (the server recovers and drops the connection). *)
Inductive Response (A : Type) : Type :=
| Json (body : A)
| HttpError (msg : string) (code : Z)
| Aborted.
Arguments Json {A} body.
Arguments HttpError {A} msg code.
Arguments Aborted {A}.

#[global] Instance Response_ret : MRet Response := fun A a => Json a.
#[global] Instance Response_bind : MBind Response := fun A B f m =>
  match m with
  | Json a => f a
  | HttpError msg code => HttpError msg code
  | Aborted => Aborted
  end.

(** [x, err := load(); if err != nil { http.Error(w, msg, 500); return }] *)
Definition orServerError {A} (o : outcome A) (msg : string) : Response A :=
  match o with
  | Ok a => Json a
  | Err => HttpError msg StatusInternalServerError
  | Panic => Aborted
  end.

(** ** [handleGetTrainInfo] *)

(** The body of the inner loop for a stop time of the trip. *)
Definition trainStopOf (stops : gmap string Stop) (stopTime : StopTime) : TrainStop :=
  let stop := default Stop_zero (stops !! st_StopID stopTime) in
  let arrivalTime := AdjustTime (st_ArrivalTime stopTime) in
  let departureTime := AdjustTime (st_DepartureTime stopTime) in
  let arrivalTime := if String.eqb arrivalTime "" then "N/A" else arrivalTime in
  let departureTime := if String.eqb departureTime "" then "N/A" else departureTime in
  mkTrainStop (stop_StopName stop) arrivalTime departureTime.

Definition matchingTrips (trainNumber : string) (parsedDate : time.Time)
    (trips : list Trip) (calendars : list Calendar) : list Trip :=
  fold_left (fun matching trip =>
      if String.eqb (trip_TripID trip) trainNumber && isValidTrip trip parsedDate calendars
      then matching ++ [trip] else matching)
    trips [].

Definition stopsWithTimes (stops : gmap string Stop) (stopTimes : list StopTime)
    (matching : list Trip) : list TrainStop :=
  fold_left (fun acc trip =>
      fold_left (fun acc stopTime =>
          if String.eqb (st_TripID stopTime) (trip_TripID trip)
          then acc ++ [trainStopOf stops stopTime] else acc)
        stopTimes acc)
    matching [].

Definition handleGetTrainInfo (fs : Files) (trainNumber date : string)
  : Response TrainInfoResponse :=
  match time.Parse time.layoutDashed date with
  | (_, Some _) => HttpError "Invalid date format. Use YYYY-MM-DD" StatusBadRequest
  | (parsedDate, None) =>
      stops ← orServerError (loadStops (stops_txt fs)) "Error loading stops";
      stopTimes ← orServerError (loadStopTimes (stop_times_txt fs)) "Error loading stop times";
      trips ← orServerError (loadTrips (trips_txt fs)) "Error loading trips";
      calendars ← orServerError (loadCalendar (calendar_txt fs)) "Error loading calendar";
      let matching := matchingTrips trainNumber parsedDate trips calendars in
      if (length matching =? 0)%nat then
        HttpError "No trips found for this train number and date" StatusNotFound
      else
        Json (mkTrainInfoResponse trainNumber date (stopsWithTimes stops stopTimes matching))
  end.

(** ** [handleGetTrainList] *)

(** The state of the scan over the stop times of one trip. *)
Record scan := mkScan {
  departureTime : string;
  arrivalTime : string;
  hasDeparture : bool;
  hasArrival : bool }.

Definition scanStep (tripID departureID arrivalID : string) (s : scan) (stopTime : StopTime)
  : scan :=
  if String.eqb (st_TripID stopTime) tripID then
    let s1 :=
      if String.eqb (st_StopID stopTime) departureID
      then mkScan (AdjustTime (st_DepartureTime stopTime)) (arrivalTime s) true (hasArrival s)
      else s in
    if String.eqb (st_StopID stopTime) arrivalID
    then mkScan (departureTime s1) (AdjustTime (st_ArrivalTime stopTime)) (hasDeparture s1) true
    else s1
  else s.

(** The loop over the stop times with its [break]. *)
Fixpoint scanStopTimes (tripID departureID arrivalID : string)
    (stopTimes : list StopTime) (s : scan) : scan :=
  match stopTimes with
  | [] => s
  | stopTime :: rest =>
      let s' := scanStep tripID departureID arrivalID s stopTime in
      if hasDeparture s' && hasArrival s' then s'
      else scanStopTimes tripID departureID arrivalID rest s'
  end.

Fixpoint findStopIndex_from (i : Z) (tripID stopID : string) (stopTimes : list StopTime) : Z :=
  match stopTimes with
  | [] => -1
  | stopTime :: rest =>
      if String.eqb (st_TripID stopTime) tripID && String.eqb (st_StopID stopTime) stopID
      then i
      else findStopIndex_from (i + 1) tripID stopID rest
  end.

Definition findStopIndex (tripID stopID : string) (stopTimes : list StopTime) : Z :=
  findStopIndex_from 0 tripID stopID stopTimes.

(** The body of the loop over the trips. *)
Definition tripStep (parsedDate : time.Time) (calendars : list Calendar)
    (stopTimes : list StopTime) (departureID arrivalID : string)
    (trainsWithStops : list TrainInfo) (trip : Trip) : list TrainInfo :=
  if negb (isValidTrip trip parsedDate calendars) then trainsWithStops
  else
    let s := scanStopTimes (trip_TripID trip) departureID arrivalID stopTimes
               (mkScan "" "" false false) in
    if hasDeparture s && hasArrival s
       && negb (String.eqb (departureTime s) "") && negb (String.eqb (arrivalTime s) "")
    then
      let departureIndex := findStopIndex (trip_TripID trip) departureID stopTimes in
      let arrivalIndex := findStopIndex (trip_TripID trip) arrivalID stopTimes in
      if departureIndex <? arrivalIndex
      then trainsWithStops ++ [mkTrainInfo (trip_TripID trip) (departureTime s) (arrivalTime s)]
      else trainsWithStops
    else trainsWithStops.

Definition trainsWithStops (parsedDate : time.Time) (calendars : list Calendar)
    (stopTimes : list StopTime) (trips : list Trip) (departureID arrivalID : string)
  : list TrainInfo :=
  fold_left (tripStep parsedDate calendars stopTimes departureID arrivalID) trips [].

(** The loop that resolves the two station names, over the stops in the
    order in which the [range] visits them. *)
Definition resolveStations (visited : list Stop) (departureStation arrivalStation : string)
  : string * string :=
  fold_left (fun ids stop =>
      let departureID :=
        if String.eqb (stop_StopName stop) departureStation then stop_StopID stop else fst ids in
      let arrivalID :=
        if String.eqb (stop_StopName stop) arrivalStation then stop_StopID stop else snd ids in
      (departureID, arrivalID))
    visited ("", "").

Section GetTrainList.

(** A [range] over a Go map visits its entries in an order the language
    leaves open. [mapRange] is that order; all that is known of it is that
    each entry is visited once: [mapRange m] is a permutation of the values
    of [map_to_list m]. *)
Variable mapRange : gmap string Stop -> list Stop.

Definition handleGetTrainList (fs : Files) (departureStation arrivalStation date : string)
  : Response TrainListBody :=
  match time.Parse time.layoutDashed date with
  | (_, Some _) => HttpError "Invalid date format. Use YYYY-MM-DD" StatusBadRequest
  | (parsedDate, None) =>
      stops ← orServerError (loadStops (stops_txt fs)) "Error loading stops";
      stopTimes ← orServerError (loadStopTimes (stop_times_txt fs)) "Error loading stop times";
      trips ← orServerError (loadTrips (trips_txt fs)) "Error loading trips";
      calendars ← orServerError (loadCalendar (calendar_txt fs)) "Error loading calendar";
      let '(departureID, arrivalID) :=
        resolveStations (mapRange stops) departureStation arrivalStation in
      if String.eqb departureID "" || String.eqb arrivalID "" then
        HttpError "Departure or Arrival station not found" StatusNotFound
      else
        let trains := trainsWithStops parsedDate calendars stopTimes trips departureID arrivalID in
        if (length trains =? 0)%nat then
          HttpError "No trains found containing both specified stations" StatusNotFound
        else
          Json (mkTrainListBody departureStation arrivalStation
                  (time.Format parsedDate) trains)
  end.

End GetTrainList.


(** ** Notions used to state the properties *)

(** What the loop body of [isValidTrip] decides for one entry: the entry is
    of the trip's service, the date is neither before its start nor after
    its end, and the flag at the number of the date's weekday is set. *)
Definition authorizes (trip : Trip) (date : time.Time) (cal : Calendar) : bool :=
  String.eqb (cal_ServiceID cal) (trip_ServiceID trip)
  && negb (time.Before date (fst (time.Parse time.layoutCompact (cal_StartDate cal)))
           || time.After date (fst (time.Parse time.layoutCompact (cal_EndDate cal))))
  && Week_at (cal_Weekdays cal) (time.weekday date).

(** The position of a weekday in a vector that starts on Monday:
    Monday is 0 and Sunday is 6. *)
Definition mondayIndex (w : time.Weekday) : Z := (w + 6) mod 7.

(** The evaluator in the words of the specification: some entry of the
    trip's service has both bounds readable, [start_date <= D <= end_date],
    and its flag for D's weekday, counted from Monday, set. *)
Definition authorizes_spec (trip : Trip) (date : time.Time) (cal : Calendar) : bool :=
  String.eqb (cal_ServiceID cal) (trip_ServiceID trip)
  && match time.Parse time.layoutCompact (cal_StartDate cal),
           time.Parse time.layoutCompact (cal_EndDate cal) with
     | (startDate, None), (endDate, None) =>
         (time.absDays startDate <=? time.absDays date)
         && (time.absDays date <=? time.absDays endDate)
     | _, _ => false
     end
  && Week_at (cal_Weekdays cal) (mondayIndex (time.weekday date)).

Definition IsTripValid_spec (trip : Trip) (date : time.Time) (calendars : list Calendar)
  : bool :=
  existsb (authorizes_spec trip date) calendars.

(** An entry with another start date. *)
Definition withStartDate (cal : Calendar) (startDate : string) : Calendar :=
  mkCalendar (cal_ServiceID cal) startDate (cal_EndDate cal) (cal_Weekdays cal).

(** The calendar and the trip of the scenario in the specification: a service
    that runs from Monday to Friday through 2024. *)
Definition weekdaysOnly : Week := mkWeek true true true true true false false.
Definition everyDay : Week := mkWeek true true true true true true true.
Definition calWKDY : Calendar := mkCalendar "WKDY" "20240101" "20241231" weekdaysOnly.
Definition trip101 : Trip := mkTrip "101" "R1" "WKDY".

(** The stop time that a record of at least five fields stands for. *)
Definition stopTimeOf (record : list string) : StopTime :=
  mkStopTime (nth 0 record "") (nth 3 record "") (nth 1 record "") (nth 2 record "")
    (fst (strconv.Atoi (nth 4 record ""))).

Definition stopTimesHeader : list string :=
  ["trip_id"; "arrival_time"; "departure_time"; "stop_id"; "stop_sequence"].

(** The name under which a stop time's stop is shown: the name of the stop
    in the table, or the empty name of the zero [Stop]. *)
Definition stopName (stops : gmap string Stop) (stopID : string) : string :=
  match stops !! stopID with
  | Some stop => stop_StopName stop
  | None => ""
  end.

(** The itinerary in the words of the specification: the stop times of the
    trip in table order, each with the name of its stop and both times
    normalised. *)
Definition itinerary_spec (stops : gmap string Stop) (stopTimes : list StopTime)
    (tripID : string) : list TrainStop :=
  map (fun st => mkTrainStop (stopName stops (st_StopID st))
                   (AdjustTime (st_ArrivalTime st)) (AdjustTime (st_DepartureTime st)))
    (List.filter (fun st => String.eqb (st_TripID st) tripID) stopTimes).

(** The rows of the trips table that carry the requested id and run on the
    date. *)
Definition validRows (trainNumber : string) (parsedDate : time.Time)
    (trips : list Trip) (calendars : list Calendar) : list Trip :=
  List.filter (fun trip => String.eqb (trip_TripID trip) trainNumber
                           && isValidTrip trip parsedDate calendars) trips.

(** A small feed: trip 5 of a service that runs from Monday to Friday calls
    at Central and then at North; as usual for a first stop, the row of
    Central has no arrival time. *)
Definition stopsHeader : list string := ["stop_id"; "stop_name"; "stop_lat"; "stop_lon"].
Definition tripsHeader : list string := ["route_id"; "service_id"; "trip_id"].
Definition calendarHeader : list string :=
  ["service_id"; "monday"; "tuesday"; "wednesday"; "thursday"; "friday";
   "saturday"; "sunday"; "start_date"; "end_date"].

Definition stopsFile : source :=
  Records [stopsHeader; ["A"; "Central"; "50.1"; "8.6"]; ["B"; "North"; "50.2"; "8.7"]].
Definition calendarFile : source :=
  Records [calendarHeader; ["WKDY"; "1"; "1"; "1"; "1"; "1"; "0"; "0"; "20240101"; "20241231"]].

Definition feed : Files := mkFiles
  stopsFile
  (Records [stopTimesHeader; ["5"; ""; "08:00:00"; "A"; "1"];
                             ["5"; "08:30:00"; "08:31:00"; "B"; "2"]])
  (Records [tripsHeader; ["R"; "WKDY"; "5"]])
  calendarFile.

(** The same feed with no empty time and with the row of trip 5 twice in
    the trips table. *)
Definition feedTwice : Files := mkFiles
  stopsFile
  (Records [stopTimesHeader; ["5"; "07:59:00"; "08:00:00"; "A"; "1"];
                             ["5"; "08:30:00"; "08:31:00"; "B"; "2"]])
  (Records [tripsHeader; ["R"; "WKDY"; "5"]; ["R"; "WKDY"; "5"]])
  calendarFile.

Definition stopsTable : gmap string Stop :=
  <["B" := mkStop "B" "North" "50.2" "8.7"]>
    (<["A" := mkStop "A" "Central" "50.1" "8.6"]> ∅).

(** A stop time is a call of the trip at the stop: the test of
    [findStopIndex], and of the scan for either of its two stops. *)
Definition visits (tripID stopID : string) (st : StopTime) : bool :=
  String.eqb (st_TripID st) tripID && String.eqb (st_StopID st) stopID.

(** One order in which the range over a map may go: that of [map_to_list]. *)
Definition mapOrder (m : gmap string Stop) : list Stop := (map_to_list m).*2.

(** The feed of a loop route: trip 5 leaves Central at 08:00, is back at
    Central and leaves it again at 09:00, and arrives at North at 09:30. *)
Definition feedLoop : Files := mkFiles
  stopsFile
  (Records [stopTimesHeader; ["5"; "07:59:00"; "08:00:00"; "A"; "1"];
                             ["5"; "08:59:00"; "09:00:00"; "A"; "2"];
                             ["5"; "09:30:00"; "09:31:00"; "B"; "3"]])
  (Records [tripsHeader; ["R"; "WKDY"; "5"]])
  calendarFile.

Definition loopTable : list StopTime :=
  [mkStopTime "5" "A" "07:59:00" "08:00:00" 1;
   mkStopTime "5" "A" "08:59:00" "09:00:00" 2;
   mkStopTime "5" "B" "09:30:00" "09:31:00" 3].

(** ** Further notions: dates, records and joined strings *)

(** A civil date: a month of the year and a day of that month. *)
Definition validDate (t : time.Time) : Prop :=
  1 <= time.month t <= 12 /\ 1 <= time.day t <= time.daysIn (time.month t) (time.year t).

(** The order of the calendar: by year, then month, then day. *)
Definition dateBefore (t u : time.Time) : Prop :=
  time.year t < time.year u
  \/ (time.year t = time.year u
      /\ (time.month t < time.month u
          \/ (time.month t = time.month u /\ time.day t < time.day u))).

(** [t] is [u] or earlier. *)
Definition dateUpTo (t u : time.Time) : Prop := ~ dateBefore u t.

(** [strings.Join(parts, sep)] for a one-byte separator. *)
Fixpoint Join (parts : list string) (sep : ascii) : string :=
  match parts with
  | [] => EmptyString
  | [p] => p
  | p :: rest => (p ++ String sep (Join rest sep))%string
  end.

(** The stop, the trip and the calendar entry that a record with enough
    fields stands for. *)
Definition stopOf (record : list string) : Stop :=
  mkStop (nth 0 record "") (nth 1 record "") (nth 2 record "") (nth 3 record "").

Definition tripOf (record : list string) : Trip :=
  mkTrip (nth 2 record "") (nth 0 record "") (nth 1 record "").

Definition calendarOf (record : list string) : Calendar :=
  let on := fun i => String.eqb (nth i record "") "1" in
  mkCalendar (nth 0 record "") (nth 8 record "") (nth 9 record "")
    (mkWeek (on 1%nat) (on 2%nat) (on 3%nat) (on 4%nat) (on 5%nat) (on 6%nat) (on 7%nat)).

(** The number a string of decimal digits stands for, read from the left
    with [n] as the number read so far. *)
Fixpoint decimalFrom (s : string) (n : Z) : Z :=
  match s with
  | EmptyString => n
  | String c r => decimalFrom r (n * 10 + (Bytes.code c - 48))
  end.

Definition decimal (s : string) : Z := decimalFrom s 0.

Fixpoint allDigits (s : string) : bool :=
  match s with
  | EmptyString => true
  | String c r => Bytes.isDigit c && allDigits r
  end.

(** * Properties *)

(** ** The calendar of package [time] on known dates *)

Example weekday_of_a_monday : time.weekday (time.mkTime 2024 6 10) = time.Monday.
Proof. reflexivity. Qed.

Example weekday_of_a_leap_day : time.weekday (time.mkTime 2000 2 29) = time.Tuesday.
Proof. reflexivity. Qed.

Example absDays_of_the_unix_epoch : time.absDays (time.mkTime 1970 1 1) = 719162.
Proof. reflexivity. Qed.

Example Parse_leap_day :
  time.Parse time.layoutCompact "20240229" = (time.mkTime 2024 2 29, None)
  /\ time.Parse time.layoutCompact "20230229" = (time.zero, Some time.errRange).
Proof. split; reflexivity. Qed.

Example Parse_then_Format :
  time.Format (fst (time.Parse time.layoutDashed "2024-06-10")) = "2024-06-10".
Proof. reflexivity. Qed.

(** ** Splitting at a separator *)

Lemma Split_length s sep : length (Split s sep) = S (Count s sep).
Proof.
  induction s as [|c r IH]; simpl; [reflexivity|].
  destruct (Ascii.eqb c sep); simpl; [now rewrite IH|].
  destruct (Split r sep) as [|p ps]; simpl in *; congruence.
Qed.

Lemma Split_no_sep p sep : Count p sep = 0%nat -> Split p sep = [p].
Proof.
  induction p as [|c r IH]; simpl; [reflexivity|].
  destruct (Ascii.eqb c sep); simpl; [discriminate|].
  intros H. now rewrite IH.
Qed.

Lemma Split_piece p sep r :
  Count p sep = 0%nat -> Split (p ++ String sep r)%string sep = p :: Split r sep.
Proof.
  induction p as [|c q IH]; simpl.
  - intros _. now rewrite Ascii.eqb_refl.
  - destruct (Ascii.eqb c sep); simpl; [discriminate|].
    intros H. now rewrite IH.
Qed.

Lemma Split_three p0 p1 p2 sep :
  Count p0 sep = 0%nat -> Count p1 sep = 0%nat -> Count p2 sep = 0%nat ->
  Split (p0 ++ String sep (p1 ++ String sep p2))%string sep = [p0; p1; p2].
Proof.
  intros H0 H1 H2.
  rewrite (Split_piece p0), (Split_piece p1), (Split_no_sep p2); auto.
Qed.

Lemma AdjustTime_other_shape t : Count t Bytes.colon <> 2%nat -> AdjustTime t = t.
Proof.
  intros H. unfold AdjustTime.
  pose proof (Split_length t Bytes.colon) as L.
  destruct (Split t Bytes.colon) as [|a [|b [|c [|d l]]]]; simpl in L; try reflexivity.
  exfalso. apply H. lia.
Qed.

Lemma AdjustTime_three p0 p1 p2 :
  Count p0 Bytes.colon = 0%nat -> Count p1 Bytes.colon = 0%nat ->
  Count p2 Bytes.colon = 0%nat ->
  AdjustTime (p0 ++ ":" ++ p1 ++ ":" ++ p2)%string =
    match strconv.Atoi p0 with
    | (_, Some _) => (p0 ++ ":" ++ p1 ++ ":" ++ p2)%string
    | (hours, None) =>
        (fmt.d02 (if (24 <=? hours)%Z then (hours - 24)%Z else hours) ++ ":" ++ p1 ++ ":" ++ p2)%string
    end.
Proof.
  intros H0 H1 H2. unfold AdjustTime.
  change (p0 ++ ":" ++ p1 ++ ":" ++ p2)%string
    with (p0 ++ String Bytes.colon (p1 ++ String Bytes.colon p2))%string.
  rewrite Split_three by assumption.
  reflexivity.
Qed.

(** ** Decimal digits: what [%02d] writes, [Atoi] reads back *)

Ltac digit_cases d :=
  let H := fresh in
  assert (H : d = 0 \/ d = 1 \/ d = 2 \/ d = 3 \/ d = 4 \/ d = 5 \/ d = 6
              \/ d = 7 \/ d = 8 \/ d = 9) by lia;
  repeat (destruct H as [H | H]; [subst d | ]); [.. | subst d].

Lemma sub_digitChar d : 0 <= d <= 9 -> Bytes.sub (Bytes.digitChar d) 48 = d.
Proof. intros H. digit_cases d; reflexivity. Qed.

Lemma isDigit_digitChar d : 0 <= d <= 9 -> Bytes.isDigit (Bytes.digitChar d) = true.
Proof. intros H. digit_cases d; reflexivity. Qed.

Lemma digitChar_not_sign d :
  0 <= d <= 9 ->
  Ascii.eqb (Bytes.digitChar d) "-" = false /\ Ascii.eqb (Bytes.digitChar d) "+" = false
  /\ Ascii.eqb (Bytes.digitChar d) Bytes.colon = false.
Proof. intros H. digit_cases d; repeat split; reflexivity. Qed.

Lemma last_digit u : 0 <= u -> 0 <= u - u / 10 * 10 <= 9.
Proof. intros H. pose proof (Z.div_mod u 10). pose proof (Z.mod_pos_bound u 10). lia. Qed.

Lemma digits_head f u buf :
  0 <= u -> exists d r, 0 <= d <= 9 /\ fmt.digits (S f) u buf = String (Bytes.digitChar d) r.
Proof.
  revert u buf. induction f as [|f IH]; intros u buf Hu.
  - simpl. destruct (10 <=? u) eqn:E.
    + exists (u - u / 10 * 10), buf. split; [now apply last_digit | reflexivity].
    + exists u, buf. apply Z.leb_gt in E. split; [lia | reflexivity].
  - change (fmt.digits (S (S f)) u buf)
      with (if 10 <=? u
            then fmt.digits (S f) (u / 10) (String (Bytes.digitChar (u - u / 10 * 10)) buf)
            else String (Bytes.digitChar u) buf).
    destruct (10 <=? u) eqn:E.
    + apply IH. apply Z.div_pos; lia.
    + exists u, buf. apply Z.leb_gt in E. split; [lia | reflexivity].
Qed.

Lemma digits_length f u buf :
  (String.length buf <= String.length (fmt.digits f u buf))%nat
  /\ (10 <= u -> (2 + String.length buf <= String.length (fmt.digits (S (S f)) u buf))%nat)
  /\ (S (String.length buf) <= String.length (fmt.digits (S f) u buf))%nat.
Proof.
  assert (G : forall f u buf,
             (String.length buf <= String.length (fmt.digits f u buf))%nat).
  { clear. induction f as [|f IH]; intros u buf; simpl; [lia|].
    destruct (10 <=? u); [|simpl; lia].
    etransitivity; [|apply IH]. simpl. lia. }
  assert (G1 : forall f u buf,
             (S (String.length buf) <= String.length (fmt.digits (S f) u buf))%nat).
  { clear - G. intros f u buf. simpl. destruct (10 <=? u); [|simpl; lia].
    etransitivity; [|apply G]. simpl. lia. }
  split; [apply G|]. split; [|apply G1].
  intros Hu.
  change (fmt.digits (S (S f)) u buf)
    with (if 10 <=? u
          then fmt.digits (S f) (u / 10) (String (Bytes.digitChar (u - u / 10 * 10)) buf)
          else String (Bytes.digitChar u) buf).
  apply Z.leb_le in Hu. rewrite Hu.
  etransitivity; [|apply G1]. simpl. lia.
Qed.

Lemma digits_no_colon f u buf :
  0 <= u -> Count (fmt.digits f u buf) Bytes.colon = Count buf Bytes.colon.
Proof.
  revert u buf. induction f as [|f IH]; intros u buf Hu; simpl; [reflexivity|].
  destruct (10 <=? u) eqn:E.
  - rewrite IH by (apply Z.div_pos; lia). simpl.
    destruct (digitChar_not_sign (u - u / 10 * 10) (last_digit u Hu)) as (_ & _ & ->).
    reflexivity.
  - apply Z.leb_gt in E. simpl.
    destruct (digitChar_not_sign u) as (_ & _ & ->); [lia | reflexivity].
Qed.

Lemma digits_fastLoop f u buf :
  0 <= u < 10 ^ Z.of_nat f ->
  strconv.fastLoop (fmt.digits f u buf) 0 = strconv.fastLoop buf u.
Proof.
  revert u buf. induction f as [|f IH]; intros u buf Hu.
  - simpl in *. replace u with 0 by lia. reflexivity.
  - rewrite Nat2Z.inj_succ, Z.pow_succ_r in Hu by lia.
    simpl. destruct (10 <=? u) eqn:E.
    + rewrite IH.
      * cbn [strconv.fastLoop]. rewrite sub_digitChar by (apply last_digit; lia).
        pose proof (last_digit u) as L.
        destruct (9 <? u - u / 10 * 10) eqn:E9; [apply Z.ltb_lt in E9; lia|].
        f_equal. lia.
      * split; [apply Z.div_pos; lia|]. apply Z.div_lt_upper_bound; lia.
    + apply Z.leb_gt in E. cbn [strconv.fastLoop].
      rewrite sub_digitChar by lia.
      destruct (9 <? u) eqn:E9; [apply Z.ltb_lt in E9; lia|].
      f_equal.
Qed.

Lemma digits_uintLoop f u buf :
  0 <= u < 10 ^ Z.of_nat f -> u <= strconv.maxUint64 ->
  strconv.uintLoop (fmt.digits f u buf) 0 = strconv.uintLoop buf u.
Proof.
  revert u buf. induction f as [|f IH]; intros u buf Hu Hmax.
  - simpl in *. replace u with 0 by lia. reflexivity.
  - rewrite Nat2Z.inj_succ, Z.pow_succ_r in Hu by lia.
    assert (Hstep : forall d n, 0 <= d <= 9 -> 0 <= n -> n * 10 + d <= strconv.maxUint64 ->
              strconv.uintLoop (String (Bytes.digitChar d) buf) n
              = strconv.uintLoop buf (n * 10 + d)).
    { clear. intros d n Hd Hn Hle. cbn [strconv.uintLoop].
      rewrite isDigit_digitChar, sub_digitChar by assumption. cbn [negb].
      unfold strconv.maxUint64 in *.
      change (2 ^ 64 - 1) with 18446744073709551615 in *.
      change (18446744073709551615 / 10 + 1) with 1844674407370955162.
      change (2 ^ 64) with 18446744073709551616.
      destruct (1844674407370955162 <=? n) eqn:E1; [apply Z.leb_le in E1; lia|].
      rewrite Z.mod_small by lia.
      destruct (n * 10 + d <? n * 10) eqn:E2; [apply Z.ltb_lt in E2; lia|].
      destruct (18446744073709551615 <? n * 10 + d) eqn:E3; [apply Z.ltb_lt in E3; lia|].
      reflexivity. }
    simpl. destruct (10 <=? u) eqn:E.
    + pose proof (last_digit u) as L.
      assert (u / 10 <= u) by (apply Z.div_le_upper_bound; lia).
      rewrite IH.
      * rewrite Hstep; [f_equal; lia | lia | apply Z.div_pos; lia | lia].
      * split; [apply Z.div_pos; lia|]. apply Z.div_lt_upper_bound; lia.
      * lia.
    + apply Z.leb_gt in E. rewrite Hstep by lia. f_equal.
Qed.

Lemma Atoi_digits u :
  0 <= u < 2 ^ 63 -> strconv.Atoi (fmt.digits 20 u EmptyString) = (u, None).
Proof.
  intros Hu.
  assert (H20 : 0 <= u < 10 ^ Z.of_nat 20) by (change (10 ^ Z.of_nat 20) with (10 ^ 20); lia).
  assert (Hmax : u <= strconv.maxUint64) by (unfold strconv.maxUint64; lia).
  pose proof (digits_fastLoop 20 u EmptyString H20) as Hfast.
  pose proof (digits_uintLoop 20 u EmptyString H20 Hmax) as Hslow.
  destruct (digits_head 19 u EmptyString) as (d & r & Hd & Hs); [lia|].
  destruct (digitChar_not_sign d Hd) as (Hminus & Hplus & _).
  rewrite Hs in *.
  change (strconv.fastLoop EmptyString u) with (Some u) in Hfast.
  change (strconv.uintLoop EmptyString u) with (u, @None strconv.NumError) in Hslow.
  unfold strconv.Atoi.
  destruct ((0 <? Z.of_nat (String.length (String (Bytes.digitChar d) r)))
            && (Z.of_nat (String.length (String (Bytes.digitChar d) r)) <? 19)).
  - rewrite Hminus, Hplus. cbn [orb andb]. now rewrite Hfast.
  - unfold strconv.ParseInt. rewrite Hminus, Hplus.
    unfold strconv.ParseUint. rewrite Hslow. cbn [negb andb].
    unfold strconv.IntSize. change (64 - 1) with 63.
    destruct (2 ^ 63 <=? u) eqn:E; [apply Z.leb_le in E; lia|]. reflexivity.
Qed.

Lemma fastLoop_bound s n v :
  0 <= n -> strconv.fastLoop s n = Some v ->
  0 <= v < (n + 1) * 10 ^ Z.of_nat (String.length s).
Proof.
  revert n. induction s as [|c r IH]; intros n Hn; cbn [strconv.fastLoop String.length].
  - intros [= <-]. change (10 ^ Z.of_nat 0) with 1. lia.
  - pose proof (Z.mod_pos_bound (Bytes.code c - 48) 256) as Hd.
    fold (Bytes.sub c 48) in Hd.
    destruct (9 <? Bytes.sub c 48) eqn:E; [discriminate|]. apply Z.ltb_ge in E.
    intros Hv. apply IH in Hv; [|lia].
    rewrite Nat2Z.inj_succ, Z.pow_succ_r by lia.
    pose proof (Z.pow_pos_nonneg 10 (Z.of_nat (String.length r))). nia.
Qed.

Lemma uintLoop_nonneg s n : 0 <= n -> 0 <= fst (strconv.uintLoop s n).
Proof.
  revert n. induction s as [|c r IH]; intros n Hn; cbn [strconv.uintLoop]; [assumption|].
  destruct (negb (Bytes.isDigit c)); [simpl; lia|].
  destruct (strconv.maxUint64 / 10 + 1 <=? n); [now cbn|].
  destruct (_ || _); [now cbn|].
  apply IH. apply Z.mod_pos_bound. lia.
Qed.

(** A number [Atoi] returns without an error is a 64-bit [int]. *)
Lemma Atoi_range s v : strconv.Atoi s = (v, None) -> - 2 ^ 63 <= v < 2 ^ 63.
Proof.
  unfold strconv.Atoi.
  destruct ((0 <? Z.of_nat (String.length s)) && (Z.of_nat (String.length s) <? 19)) eqn:Elen.
  - apply andb_true_iff in Elen as [_ Elen]. apply Z.ltb_lt in Elen.
    destruct s as [|c0 r]; [discriminate|].
    set (body := if Ascii.eqb c0 "-" || Ascii.eqb c0 "+" then r else String c0 r).
    assert (Hb : (String.length body <= 18)%nat).
    { subst body. destruct (_ || _); simpl in *; lia. }
    destruct (_ && _); [discriminate|].
    destruct (strconv.fastLoop body 0) as [n|] eqn:Ef; [|discriminate].
    apply fastLoop_bound in Ef; [|lia].
    assert (10 ^ Z.of_nat (String.length body) <= 10 ^ 18)
      by (apply Z.pow_le_mono_r; lia).
    change (10 ^ 18) with 1000000000000000000 in *.
    change (2 ^ 63) with 9223372036854775808.
    destruct (Ascii.eqb c0 "-"); intros [= <-]; lia.
  - clear Elen. unfold strconv.ParseInt.
    destruct s as [|c r]; [discriminate|].
    destruct (if Ascii.eqb c "+" then (false, r)
              else if Ascii.eqb c "-" then (true, r) else (false, String c r))
      as [neg body].
    assert (Hun : 0 <= fst (strconv.ParseUint body)).
    { unfold strconv.ParseUint. destruct body; [simpl; lia|].
      apply uintLoop_nonneg. lia. }
    destruct (strconv.ParseUint body) as [un e]. simpl in Hun.
    unfold strconv.IntSize. change (64 - 1) with 63.
    change (2 ^ 63) with 9223372036854775808.
    assert (G : (if negb neg && (9223372036854775808 <=? un)
                 then (9223372036854775808 - 1, Some strconv.ErrRange)
                 else if neg && (9223372036854775808 <? un)
                      then (- 9223372036854775808, Some strconv.ErrRange)
                      else (if neg then - un else un, None)) = (v, None) ->
                - 9223372036854775808 <= v < 9223372036854775808).
    { destruct neg; cbn [negb andb].
      - destruct (9223372036854775808 <? un) eqn:E; [discriminate|].
        apply Z.ltb_ge in E. intros [= <-]. lia.
      - destruct (9223372036854775808 <=? un) eqn:E; [discriminate|].
        apply Z.leb_gt in E. intros [= <-]. lia. }
    destruct e as [[]|]; [discriminate | exact G | exact G].
Qed.

Lemma d02_one_digit h :
  0 <= h < 10 -> fmt.d02 h = String "0" (String (Bytes.digitChar h) EmptyString).
Proof.
  intros H. unfold fmt.d02, fmt.fmtInteger.
  destruct (h <? 0) eqn:E; [apply Z.ltb_lt in E; lia|].
  cbn [fmt.digits]. destruct (10 <=? h) eqn:E10; [apply Z.leb_le in E10; lia|].
  reflexivity.
Qed.

Lemma d02_unpadded h : 10 <= h -> fmt.d02 h = fmt.digits 20 h EmptyString.
Proof.
  intros H. unfold fmt.d02, fmt.fmtInteger.
  destruct (h <? 0) eqn:E; [apply Z.ltb_lt in E; lia|].
  destruct (digits_length 18 h EmptyString) as (_ & L & _). specialize (L H).
  simpl String.length in L at 1.
  replace (2 - String.length (fmt.digits 20 h EmptyString))%nat with 0%nat by lia.
  reflexivity.
Qed.

Lemma d02_two_digits h :
  10 <= h < 100 ->
  fmt.d02 h = String (Bytes.digitChar (h / 10))
                (String (Bytes.digitChar (h - h / 10 * 10)) EmptyString).
Proof.
  intros H. rewrite d02_unpadded by lia.
  cbn [fmt.digits]. destruct (10 <=? h) eqn:E10; [|apply Z.leb_gt in E10; lia].
  assert (h / 10 < 10) by (apply Z.div_lt_upper_bound; lia).
  destruct (10 <=? h / 10) eqn:E; [apply Z.leb_le in E; lia|].
  reflexivity.
Qed.

Lemma Atoi_d02_one_digit h :
  0 <= h < 10 ->
  strconv.Atoi (String "0" (String (Bytes.digitChar h) EmptyString)) = (h, None).
Proof. intros H. digit_cases h; reflexivity. Qed.

Lemma Atoi_d02 h : 0 <= h < 2 ^ 63 -> strconv.Atoi (fmt.d02 h) = (h, None).
Proof.
  intros H. destruct (Z.lt_ge_cases h 10).
  - rewrite d02_one_digit by lia. apply Atoi_d02_one_digit. lia.
  - rewrite d02_unpadded by lia. now apply Atoi_digits.
Qed.

Lemma d02_length h : 0 <= h -> (2 <= String.length (fmt.d02 h))%nat.
Proof.
  intros H. destruct (Z.lt_ge_cases h 10).
  - rewrite d02_one_digit by lia. simpl. lia.
  - rewrite d02_unpadded by lia.
    destruct (digits_length 18 h EmptyString) as (_ & L & _). now apply L.
Qed.

(** ** The time normaliser *)

(** C9. When the input has the shape [H:MM:SS] and [Atoi] reads the hour as a
    number [H] of 48 or more, [AdjustTime] takes 24 away once: the first
    piece of the result is [H - 24] written in decimal, [Atoi] reads it back
    as [H - 24], and [H - 24] is 24 or more, so it is no hour of a 24-hour
    clock. ["48:10:00"] becomes ["24:10:00"] and ["49:10:00"] becomes
    ["25:10:00"]. *)
Theorem AdjustTime_subtracts_once (p0 p1 p2 : string) (H : Z) :
  Count p0 Bytes.colon = 0%nat -> Count p1 Bytes.colon = 0%nat ->
  Count p2 Bytes.colon = 0%nat ->
  strconv.Atoi p0 = (H, None) -> 48 <= H ->
  AdjustTime (clock p0 p1 p2) = clock (fmt.d02 (H - 24)) p1 p2
  /\ Split (AdjustTime (clock p0 p1 p2)) Bytes.colon = [fmt.d02 (H - 24); p1; p2]
  /\ strconv.Atoi (fmt.d02 (H - 24)) = (H - 24, None)
  /\ 24 <= H - 24
  /\ AdjustTime "48:10:00" = "24:10:00"
  /\ AdjustTime "49:10:00" = "25:10:00".
Proof.
  intros H0 H1 H2 HA H48.
  assert (E : AdjustTime (clock p0 p1 p2) = clock (fmt.d02 (H - 24)) p1 p2).
  { unfold clock. rewrite AdjustTime_three, HA by assumption.
    destruct (24 <=? H) eqn:E24; [reflexivity | apply Z.leb_gt in E24; lia]. }
  pose proof (Atoi_range _ _ HA) as R.
  split; [exact E|]. split.
  { rewrite E. unfold clock. apply Split_three; try assumption.
    rewrite d02_unpadded by lia. apply digits_no_colon. lia. }
  split; [apply Atoi_d02; lia|].
  split; [lia|].
  split; reflexivity.
Qed.

Lemma AdjustTime_subtracts_once_witness :
  AdjustTime (clock "50" "10" "00") = clock (fmt.d02 (50 - 24)) "10" "00"
  /\ Split (AdjustTime (clock "50" "10" "00")) Bytes.colon = [fmt.d02 (50 - 24); "10"; "00"]
  /\ strconv.Atoi (fmt.d02 (50 - 24)) = (50 - 24, None)
  /\ 24 <= 50 - 24
  /\ AdjustTime "48:10:00" = "24:10:00"
  /\ AdjustTime "49:10:00" = "25:10:00".
Proof.
  apply (AdjustTime_subtracts_once "50" "10" "00" 50); try reflexivity. lia.
Defined.

(** ** The calendar evaluator *)

Lemma isValidTrip_existsb trip date calendars :
  isValidTrip trip date calendars = existsb (authorizes trip date) calendars.
Proof.
  induction calendars as [|cal rest IH]; simpl; [reflexivity|].
  unfold authorizes at 1.
  destruct (String.eqb (cal_ServiceID cal) (trip_ServiceID trip)); simpl; [|exact IH].
  destruct (_ || _); simpl; [exact IH|].
  destruct (Week_at _ _); simpl; [reflexivity | exact IH].
Qed.

Lemma isValidTrip_true_iff trip date calendars :
  isValidTrip trip date calendars = true <->
  exists cal, In cal calendars /\ authorizes trip date cal = true.
Proof. rewrite isValidTrip_existsb. apply existsb_exists. Qed.

(** [Parse] hands back the zero [Time] with every error. *)
Lemma Parse_error_zero layout value :
  snd (time.Parse layout value) <> None -> fst (time.Parse layout value) = time.zero.
Proof.
  unfold time.Parse.
  destruct (time.parseChunks layout value _) as [[t rest] [e|]]; [reflexivity|].
  destruct (negb _); [reflexivity|].
  destruct (_ || _); [reflexivity|].
  simpl. congruence.
Qed.

(** C1. On Sunday 16 June 2024 the service that runs from Monday to Friday
    is reported as running: the evaluator reads the flag at Go's weekday
    number, which is 0 on a Sunday, and finds the flag of Monday there. On
    Saturday 15 June 2024 a service that runs on Saturdays only is reported
    as not running. The evaluator of the specification, which counts the
    weekday from Monday, says the opposite in both cases. *)
Theorem isValidTrip_reads_shifted_weekday :
  time.weekday (time.mkTime 2024 6 16) = time.Sunday
  /\ Week_at weekdaysOnly (mondayIndex time.Sunday) = false
  /\ isValidTrip trip101 (time.mkTime 2024 6 16) [calWKDY] = true
  /\ IsTripValid_spec trip101 (time.mkTime 2024 6 16) [calWKDY] = false
  /\ time.weekday (time.mkTime 2024 6 15) = time.Saturday
  /\ isValidTrip trip101 (time.mkTime 2024 6 15)
       [mkCalendar "WKDY" "20240101" "20241231"
          (mkWeek false false false false false true false)] = false
  /\ IsTripValid_spec trip101 (time.mkTime 2024 6 15)
       [mkCalendar "WKDY" "20240101" "20241231"
          (mkWeek false false false false false true false)] = true.
Proof. repeat split; reflexivity. Qed.

(** C2, as the specification states it, fails: an entry whose start date is
    written with dashes, which the layout refuses, still lets the trip run. *)
Lemma unreadable_start_date_authorizes :
  snd (time.Parse time.layoutCompact "2024-01-01") = Some time.errBad
  /\ isValidTrip trip101 (time.mkTime 2024 6 10)
       [mkCalendar "WKDY" "2024-01-01" "20241231" everyDay] = true
  /\ isValidTrip trip101 (time.mkTime 2024 6 10) [] = false.
Proof. repeat split; reflexivity. Qed.

(** C2, amended. An entry whose end date is refused by [Parse] never lets a
    trip run on a date after 1 January of year 1: with or without the entry
    the answer is the same. An entry whose start date is refused is not
    passed over: it counts as it would with the start date 1 January of
    year 1. The answer is a boolean in each case; no error comes out. *)
Theorem unreadable_calendar_dates
    (trip : Trip) (date : time.Time) (cal : Calendar) (before after : list Calendar) :
  (snd (time.Parse time.layoutCompact (cal_EndDate cal)) <> None ->
   time.After date time.zero = true ->
   isValidTrip trip date (before ++ cal :: after) = isValidTrip trip date (before ++ after))
  /\ (snd (time.Parse time.layoutCompact (cal_StartDate cal)) <> None ->
      isValidTrip trip date (before ++ cal :: after)
      = isValidTrip trip date (before ++ withStartDate cal "00010101" :: after)).
Proof.
  rewrite !isValidTrip_existsb, !existsb_app. cbn [existsb]. split.
  - intros Hend Hafter. apply Parse_error_zero in Hend.
    assert (E : authorizes trip date cal = false).
    { unfold authorizes. rewrite Hend, Hafter.
      rewrite orb_true_r. cbn [negb]. now rewrite andb_false_r. }
    now rewrite E.
  - intros Hstart. apply Parse_error_zero in Hstart.
    assert (E : authorizes trip date (withStartDate cal "00010101")
                = authorizes trip date cal).
    { unfold authorizes, withStartDate. cbn [cal_ServiceID cal_StartDate cal_EndDate cal_Weekdays].
      rewrite Hstart. reflexivity. }
    now rewrite E.
Qed.

Lemma unreadable_calendar_dates_witness :
  isValidTrip trip101 (time.mkTime 2024 6 10)
    ([] ++ mkCalendar "WKDY" "20240101" "2024-12-31" everyDay :: [])
  = isValidTrip trip101 (time.mkTime 2024 6 10) ([] ++ [])
  /\ isValidTrip trip101 (time.mkTime 2024 6 10)
       ([] ++ mkCalendar "WKDY" "2024-01-01" "20241231" everyDay :: [])
     = isValidTrip trip101 (time.mkTime 2024 6 10)
         ([] ++ withStartDate (mkCalendar "WKDY" "2024-01-01" "20241231" everyDay) "00010101"
             :: []).
Proof.
  split.
  - refine (proj1 (unreadable_calendar_dates trip101 (time.mkTime 2024 6 10)
                     (mkCalendar "WKDY" "20240101" "2024-12-31" everyDay) [] []) _ _).
    + vm_compute. discriminate.
    + reflexivity.
  - refine (proj2 (unreadable_calendar_dates trip101 (time.mkTime 2024 6 10)
                     (mkCalendar "WKDY" "2024-01-01" "20241231" everyDay) [] []) _).
    vm_compute. discriminate.
Defined.

(** ** Loading the stop times *)

Lemma Atoi_syntax_zero s :
  snd (strconv.Atoi s) = Some strconv.ErrSyntax -> fst (strconv.Atoi s) = 0.
Proof.
  unfold strconv.Atoi.
  destruct (_ && _).
  - destruct s as [|c0 r]; [reflexivity|].
    destruct (_ && _); [reflexivity|].
    destruct (strconv.fastLoop _ 0); [discriminate | reflexivity].
  - unfold strconv.ParseInt. destruct s as [|c r]; [reflexivity|].
    destruct (if Ascii.eqb c "+" then (false, r)
              else if Ascii.eqb c "-" then (true, r) else (false, String c r))
      as [neg body].
    destruct (strconv.ParseUint body) as [un [[]|]]; [reflexivity | |];
      destruct (negb neg && _); try discriminate;
      destruct (neg && _); discriminate.
Qed.

Lemma Atoi_range_clamped s :
  snd (strconv.Atoi s) = Some strconv.ErrRange ->
  fst (strconv.Atoi s) = 2 ^ 63 - 1 \/ fst (strconv.Atoi s) = - 2 ^ 63.
Proof.
  unfold strconv.Atoi.
  destruct (_ && _).
  - destruct s as [|c0 r]; [discriminate|].
    destruct (_ && _); [discriminate|].
    destruct (strconv.fastLoop _ 0); discriminate.
  - unfold strconv.ParseInt. destruct s as [|c r]; [discriminate|].
    destruct (if Ascii.eqb c "+" then (false, r)
              else if Ascii.eqb c "-" then (true, r) else (false, String c r))
      as [neg body].
    unfold strconv.IntSize. change (64 - 1) with 63.
    destruct (strconv.ParseUint body) as [un [[]|]]; [discriminate | |];
      (destruct (negb neg && _); [left; reflexivity|]);
      (destruct (neg && _); [right; reflexivity | discriminate]).
Qed.

Lemma stopTimeRow_ok record :
  (5 <= length record)%nat -> stopTimeRow record = Ok (stopTimeOf record).
Proof.
  intros H. destruct record as [|a [|b [|c [|d [|e r]]]]]; simpl in H; try lia.
  reflexivity.
Qed.

Lemma appendRows_stopTimes rows table :
  Forall (fun record => (5 <= length record)%nat) rows ->
  appendRows stopTimeRow rows table = Ok (table ++ map stopTimeOf rows).
Proof.
  intros H. revert table. induction H as [|record rows Hr _ IH]; intros table; simpl.
  - now rewrite app_nil_r.
  - rewrite stopTimeRow_ok by assumption. simpl.
    rewrite IH, <- app_assoc. reflexivity.
Qed.

(** C8, as the specification states it, fails: a sequence number of twenty
    nines is refused by [Atoi], and the row is loaded with the largest
    64-bit number in the field, not with 0. *)
Lemma loadStopTimes_huge_sequence :
  strconv.Atoi "99999999999999999999" = (9223372036854775807, Some strconv.ErrRange)
  /\ loadStopTimes
       (Records [stopTimesHeader; ["5"; "08:00:00"; "08:01:00"; "A"; "99999999999999999999"]])
     = Ok [mkStopTime "5" "A" "08:00:00" "08:01:00" 9223372036854775807].
Proof. split; reflexivity. Qed.

(** C8, amended. When every data row has its five fields, the table is
    loaded and holds one stop time per data row, in the order of the file:
    no row is dropped and the load does not fail. The trip, the stop and the
    two times of a row are the fields as read. When [Atoi] refuses the
    sequence field for its syntax, the sequence number of the row is 0; when
    it refuses it for its size, the sequence number is the nearest end of
    the 64-bit range. *)
Theorem loadStopTimes_keeps_rows (header : list string) (rows : list (list string)) :
  Forall (fun record => (5 <= length record)%nat) rows ->
  loadStopTimes (Records (header :: rows)) = Ok (map stopTimeOf rows)
  /\ (forall record, In record rows ->
        st_TripID (stopTimeOf record) = nth 0 record ""
        /\ st_ArrivalTime (stopTimeOf record) = nth 1 record ""
        /\ st_DepartureTime (stopTimeOf record) = nth 2 record ""
        /\ st_StopID (stopTimeOf record) = nth 3 record ""
        /\ (snd (strconv.Atoi (nth 4 record "")) = Some strconv.ErrSyntax ->
            st_StopSequence (stopTimeOf record) = 0)
        /\ (snd (strconv.Atoi (nth 4 record "")) = Some strconv.ErrRange ->
            st_StopSequence (stopTimeOf record) = 2 ^ 63 - 1
            \/ st_StopSequence (stopTimeOf record) = - 2 ^ 63)).
Proof.
  intros H. split.
  - unfold loadStopTimes, readTable. simpl. now rewrite appendRows_stopTimes.
  - intros record _. repeat split; try reflexivity.
    + apply Atoi_syntax_zero.
    + apply Atoi_range_clamped.
Qed.

Lemma loadStopTimes_keeps_rows_witness :
  loadStopTimes
    (Records (stopTimesHeader :: [["5"; "08:00:00"; "08:01:00"; "A"; "first"];
                                  ["5"; "08:30:00"; "08:31:00"; "B"; "2"]]))
  = Ok [mkStopTime "5" "A" "08:00:00" "08:01:00" 0;
        mkStopTime "5" "B" "08:30:00" "08:31:00" 2]
  /\ st_StopSequence (stopTimeOf ["5"; "08:00:00"; "08:01:00"; "A"; "first"]) = 0.
Proof.
  destruct (loadStopTimes_keeps_rows stopTimesHeader
              [["5"; "08:00:00"; "08:01:00"; "A"; "first"];
               ["5"; "08:30:00"; "08:31:00"; "B"; "2"]]) as [Hload Hrows].
  - repeat constructor.
  - split; [exact Hload|].
    destruct (Hrows ["5"; "08:00:00"; "08:01:00"; "A"; "first"]) as (_ & _ & _ & _ & H0 & _).
    + left. reflexivity.
    + apply H0. reflexivity.
Defined.

(** ** The itinerary of a trip *)

Lemma fold_left_append {A B} (p : A -> bool) (f : A -> B) (l : list A) (acc : list B) :
  fold_left (fun acc x => if p x then acc ++ [f x] else acc) l acc
  = acc ++ map f (List.filter p l).
Proof.
  revert acc. induction l as [|x l IH]; intros acc; simpl.
  - now rewrite app_nil_r.
  - rewrite IH. destruct (p x); simpl; [now rewrite <- app_assoc | reflexivity].
Qed.

Lemma matchingTrips_validRows trainNumber parsedDate trips calendars :
  matchingTrips trainNumber parsedDate trips calendars
  = validRows trainNumber parsedDate trips calendars.
Proof.
  unfold matchingTrips, validRows.
  rewrite (fold_left_append _ (fun trip => trip)). simpl. now rewrite map_id.
Qed.

Lemma stopsWithTimes_from stops stopTimes matching acc :
  fold_left (fun acc trip =>
      fold_left (fun acc stopTime =>
          if String.eqb (st_TripID stopTime) (trip_TripID trip)
          then acc ++ [trainStopOf stops stopTime] else acc)
        stopTimes acc)
    matching acc
  = acc ++ flat_map (fun trip =>
             map (trainStopOf stops)
               (List.filter (fun st => String.eqb (st_TripID st) (trip_TripID trip)) stopTimes))
           matching.
Proof.
  revert acc. induction matching as [|trip matching IH]; intros acc; simpl.
  - now rewrite app_nil_r.
  - rewrite IH, (fold_left_append _ (trainStopOf stops)), <- app_assoc. reflexivity.
Qed.

Lemma stopsWithTimes_repeat stops stopTimes trainNumber matching :
  Forall (fun trip => trip_TripID trip = trainNumber) matching ->
  stopsWithTimes stops stopTimes matching
  = concat (repeat (map (trainStopOf stops)
                      (List.filter (fun st => String.eqb (st_TripID st) trainNumber) stopTimes))
              (length matching)).
Proof.
  intros H. unfold stopsWithTimes. rewrite stopsWithTimes_from. simpl.
  induction H as [|trip matching Hid _ IH]; simpl; [reflexivity|].
  now rewrite IH, Hid.
Qed.

Lemma validRows_id trainNumber parsedDate trips calendars :
  Forall (fun trip => trip_TripID trip = trainNumber)
    (validRows trainNumber parsedDate trips calendars).
Proof.
  apply List.Forall_forall. intros trip Hin. apply filter_In in Hin as [_ Hin].
  apply andb_true_iff in Hin as [Hin _]. now apply String.eqb_eq.
Qed.

Lemma validRows_nil_iff trainNumber parsedDate trips calendars :
  validRows trainNumber parsedDate trips calendars = [] <->
  (forall trip, In trip trips -> trip_TripID trip = trainNumber ->
                isValidTrip trip parsedDate calendars = false).
Proof.
  unfold validRows. split.
  - intros Hnil trip Hin Hid.
    destruct (isValidTrip trip parsedDate calendars) eqn:E; [|reflexivity].
    assert (Hf : In trip (List.filter
              (fun trip => String.eqb (trip_TripID trip) trainNumber
                           && isValidTrip trip parsedDate calendars) trips)).
    { apply filter_In. split; [assumption|].
      apply andb_true_iff. split; [now apply String.eqb_eq | assumption]. }
    rewrite Hnil in Hf. destruct Hf.
  - intros H. induction trips as [|trip trips IH]; simpl; [reflexivity|].
    destruct (String.eqb (trip_TripID trip) trainNumber) eqn:E; simpl.
    + rewrite (H trip); [|now left | now apply String.eqb_eq].
      apply IH. intros t Hin. apply H. now right.
    + apply IH. intros t Hin. apply H. now right.
Qed.

(** The handler once the date is read and the four tables are loaded. *)
Lemma handleGetTrainInfo_loaded fs trainNumber date parsedDate stops stopTimes trips calendars :
  time.Parse time.layoutDashed date = (parsedDate, None) ->
  loadStops (stops_txt fs) = Ok stops ->
  loadStopTimes (stop_times_txt fs) = Ok stopTimes ->
  loadTrips (trips_txt fs) = Ok trips ->
  loadCalendar (calendar_txt fs) = Ok calendars ->
  handleGetTrainInfo fs trainNumber date
  = if (length (validRows trainNumber parsedDate trips calendars) =? 0)%nat
    then HttpError "No trips found for this train number and date" StatusNotFound
    else Json (mkTrainInfoResponse trainNumber date
                 (stopsWithTimes stops stopTimes
                    (validRows trainNumber parsedDate trips calendars))).
Proof.
  intros Hd Hs Hst Ht Hc. unfold handleGetTrainInfo.
  rewrite Hd, Hs, Hst, Ht, Hc. cbn [orServerError mbind Response_bind].
  rewrite matchingTrips_validRows. reflexivity.
Qed.

Lemma string_app_empty (a b : string) : (a ++ b)%string = EmptyString -> a = EmptyString.
Proof. destruct a; [reflexivity | discriminate]. Qed.

Lemma AdjustTime_empty t : String.eqb (AdjustTime t) "" = String.eqb t "".
Proof.
  destruct (String.eqb t "") eqn:Et.
  - apply String.eqb_eq in Et. subst t. reflexivity.
  - apply String.eqb_neq. apply String.eqb_neq in Et. intros H. apply Et.
    unfold AdjustTime in H.
    destruct (Split t Bytes.colon) as [|p0 [|p1 [|p2 [|p3 l]]]]; try assumption.
    destruct (strconv.Atoi p0) as [hours [e|]]; [assumption|].
    exfalso. unfold fmt.d02, fmt.fmtInteger in H.
    destruct (_ <? 0) eqn:E in H; [discriminate|].
    apply string_app_empty in H.
    set (h := if 24 <=? hours then hours - 24 else hours) in *.
    pose proof (digits_length 19 h EmptyString) as (_ & _ & L).
    pose proof (digits_length 0 h EmptyString) as _.
    assert (Z0 : forall k buf, fmt.zeros k buf = EmptyString -> buf = EmptyString).
    { clear. induction k as [|k IH]; intros buf Hk; [assumption|].
      simpl in Hk. apply IH in Hk. discriminate. }
    apply Z0 in H. rewrite H in L. simpl in L. lia.
Qed.

Lemma trainStopOf_fields stops st :
  ts_StopName (trainStopOf stops st) = stopName stops (st_StopID st)
  /\ ts_ArrivalTime (trainStopOf stops st)
     = (if String.eqb (st_ArrivalTime st) "" then "N/A" else AdjustTime (st_ArrivalTime st))
  /\ ts_DepartureTime (trainStopOf stops st)
     = (if String.eqb (st_DepartureTime st) "" then "N/A"
        else AdjustTime (st_DepartureTime st)).
Proof.
  unfold trainStopOf, stopName. cbn [ts_StopName ts_ArrivalTime ts_DepartureTime].
  rewrite !AdjustTime_empty.
  split; [|split; reflexivity].
  destruct (stops !! st_StopID st); reflexivity.
Qed.

Lemma feed_loads :
  time.Parse time.layoutDashed "2024-06-10" = (time.mkTime 2024 6 10, None)
  /\ loadStops (stops_txt feed) = Ok stopsTable
  /\ loadStopTimes (stop_times_txt feed)
     = Ok [mkStopTime "5" "A" "" "08:00:00" 1; mkStopTime "5" "B" "08:30:00" "08:31:00" 2]
  /\ loadTrips (trips_txt feed) = Ok [mkTrip "5" "R" "WKDY"]
  /\ loadCalendar (calendar_txt feed) = Ok [calWKDY].
Proof. repeat split; vm_compute; reflexivity. Qed.

(** C5, as the specification states it, fails twice. A stop time with an
    empty arrival time is shown with ["N/A"], not with the normalised time,
    which is empty. And when the trips table has the row of the trip twice,
    every stop time of the trip is in the list twice. *)
Lemma itinerary_differs_from_spec :
  handleGetTrainInfo feed "5" "2024-06-10"
  = Json (mkTrainInfoResponse "5" "2024-06-10"
            [mkTrainStop "Central" "N/A" "08:00:00"; mkTrainStop "North" "08:30:00" "08:31:00"])
  /\ itinerary_spec stopsTable
       [mkStopTime "5" "A" "" "08:00:00" 1; mkStopTime "5" "B" "08:30:00" "08:31:00" 2] "5"
     = [mkTrainStop "Central" "" "08:00:00"; mkTrainStop "North" "08:30:00" "08:31:00"]
  /\ handleGetTrainInfo feedTwice "5" "2024-06-10"
     = Json (mkTrainInfoResponse "5" "2024-06-10"
               [mkTrainStop "Central" "07:59:00" "08:00:00";
                mkTrainStop "North" "08:30:00" "08:31:00";
                mkTrainStop "Central" "07:59:00" "08:00:00";
                mkTrainStop "North" "08:30:00" "08:31:00"])
  /\ loadStopTimes (stop_times_txt feedTwice)
     = Ok [mkStopTime "5" "A" "07:59:00" "08:00:00" 1;
           mkStopTime "5" "B" "08:30:00" "08:31:00" 2]
  /\ itinerary_spec stopsTable
       [mkStopTime "5" "A" "07:59:00" "08:00:00" 1;
        mkStopTime "5" "B" "08:30:00" "08:31:00" 2] "5"
     = [mkTrainStop "Central" "07:59:00" "08:00:00"; mkTrainStop "North" "08:30:00" "08:31:00"].
Proof. repeat split; vm_compute; reflexivity. Qed.

(** C5, amended. When some row of the trips table carries the requested id
    and runs on the date, the handler answers with the train number, the
    date and a stop list that holds, once for each such row of the trips
    table, the stop times of the table whose trip id is the requested one, in
    the order of the table. Each is shown with the name of its stop (empty
    when the stop is not in the stops table), and with its two times
    normalised, ["N/A"] standing for a time that is empty. With one such row
    and no empty time among the stop times of the trip, the list is the one
    the specification describes. *)
Theorem handleGetTrainInfo_stops
    (fs : Files) (trainNumber date : string) (parsedDate : time.Time)
    (stops : gmap string Stop) (stopTimes : list StopTime)
    (trips : list Trip) (calendars : list Calendar) :
  time.Parse time.layoutDashed date = (parsedDate, None) ->
  loadStops (stops_txt fs) = Ok stops ->
  loadStopTimes (stop_times_txt fs) = Ok stopTimes ->
  loadTrips (trips_txt fs) = Ok trips ->
  loadCalendar (calendar_txt fs) = Ok calendars ->
  (exists trip, In trip trips /\ trip_TripID trip = trainNumber
                /\ isValidTrip trip parsedDate calendars = true) ->
  let rows := length (validRows trainNumber parsedDate trips calendars) in
  let once := map (trainStopOf stops)
                (List.filter (fun st => String.eqb (st_TripID st) trainNumber) stopTimes) in
  handleGetTrainInfo fs trainNumber date
  = Json (mkTrainInfoResponse trainNumber date (concat (repeat once rows)))
  /\ (1 <= rows)%nat
  /\ (forall st,
        ts_StopName (trainStopOf stops st) = stopName stops (st_StopID st)
        /\ ts_ArrivalTime (trainStopOf stops st)
           = (if String.eqb (st_ArrivalTime st) "" then "N/A"
              else AdjustTime (st_ArrivalTime st))
        /\ ts_DepartureTime (trainStopOf stops st)
           = (if String.eqb (st_DepartureTime st) "" then "N/A"
              else AdjustTime (st_DepartureTime st)))
  /\ (rows = 1%nat ->
      (forall st, In st stopTimes -> st_TripID st = trainNumber ->
                  st_ArrivalTime st <> "" /\ st_DepartureTime st <> "") ->
      concat (repeat once rows) = itinerary_spec stops stopTimes trainNumber).
Proof.
  intros Hd Hs Hst Ht Hc (trip & Hin & Hid & Hvalid) rows once.
  assert (Hrows : (1 <= rows)%nat).
  { subst rows. destruct (validRows trainNumber parsedDate trips calendars) eqn:E;
      [|simpl; lia].
    rewrite (proj1 (validRows_nil_iff _ _ _ _) E trip Hin Hid) in Hvalid. discriminate. }
  split; [|split; [exact Hrows|split; [apply trainStopOf_fields|]]].
  - rewrite (handleGetTrainInfo_loaded _ _ _ _ _ _ _ _ Hd Hs Hst Ht Hc).
    fold rows. destruct (rows =? 0)%nat eqn:E; [apply Nat.eqb_eq in E; lia|].
    rewrite (stopsWithTimes_repeat _ _ trainNumber) by apply validRows_id.
    reflexivity.
  - intros -> Hfull. simpl. rewrite app_nil_r. subst once. unfold itinerary_spec.
    apply map_ext_in. intros st Hst'. apply filter_In in Hst' as [Hst' Hid'].
    apply String.eqb_eq in Hid'. destruct (Hfull st Hst' Hid') as [Ha Hdep].
    destruct (trainStopOf_fields stops st) as (E1 & E2 & E3).
    apply String.eqb_neq in Ha, Hdep. rewrite Ha in E2. rewrite Hdep in E3.
    destruct (trainStopOf stops st) as [n a d]. simpl in *. now subst.
Qed.

Lemma handleGetTrainInfo_stops_witness :
  handleGetTrainInfo feedTwice "5" "2024-06-10"
  = Json (mkTrainInfoResponse "5" "2024-06-10"
            (concat (repeat
               (map (trainStopOf stopsTable)
                  (List.filter (fun st => String.eqb (st_TripID st) "5")
                     [mkStopTime "5" "A" "07:59:00" "08:00:00" 1;
                      mkStopTime "5" "B" "08:30:00" "08:31:00" 2]))
               (length (validRows "5" (time.mkTime 2024 6 10)
                          [mkTrip "5" "R" "WKDY"; mkTrip "5" "R" "WKDY"] [calWKDY]))))).
Proof.
  refine (proj1 (handleGetTrainInfo_stops feedTwice "5" "2024-06-10" (time.mkTime 2024 6 10)
                   stopsTable
                   [mkStopTime "5" "A" "07:59:00" "08:00:00" 1;
                    mkStopTime "5" "B" "08:30:00" "08:31:00" 2]
                   [mkTrip "5" "R" "WKDY"; mkTrip "5" "R" "WKDY"] [calWKDY]
                   _ _ _ _ _ _)); try (vm_compute; reflexivity).
  exists (mkTrip "5" "R" "WKDY"). split; [left; reflexivity|]. split; reflexivity.
Defined.

(** C7. When no row of the trips table carries the requested id, or every
    row that carries it does not run on the date, the handler answers with
    the status [404] and no body. *)
Theorem handleGetTrainInfo_not_found
    (fs : Files) (trainNumber date : string) (parsedDate : time.Time)
    (stops : gmap string Stop) (stopTimes : list StopTime)
    (trips : list Trip) (calendars : list Calendar) :
  time.Parse time.layoutDashed date = (parsedDate, None) ->
  loadStops (stops_txt fs) = Ok stops ->
  loadStopTimes (stop_times_txt fs) = Ok stopTimes ->
  loadTrips (trips_txt fs) = Ok trips ->
  loadCalendar (calendar_txt fs) = Ok calendars ->
  (forall trip, In trip trips -> trip_TripID trip = trainNumber ->
                isValidTrip trip parsedDate calendars = false) ->
  handleGetTrainInfo fs trainNumber date
  = HttpError "No trips found for this train number and date" StatusNotFound.
Proof.
  intros Hd Hs Hst Ht Hc Hnone.
  rewrite (handleGetTrainInfo_loaded _ _ _ _ _ _ _ _ Hd Hs Hst Ht Hc).
  now rewrite (proj2 (validRows_nil_iff _ _ _ _) Hnone).
Qed.

Lemma handleGetTrainInfo_not_found_witness :
  handleGetTrainInfo feed "999" "2024-06-10"
  = HttpError "No trips found for this train number and date" StatusNotFound.
Proof.
  apply (handleGetTrainInfo_not_found feed "999" "2024-06-10" (time.mkTime 2024 6 10)
           stopsTable
           [mkStopTime "5" "A" "" "08:00:00" 1; mkStopTime "5" "B" "08:30:00" "08:31:00" 2]
           [mkTrip "5" "R" "WKDY"] [calWKDY]); try (vm_compute; reflexivity).
  intros trip [<- | []] Hid. discriminate Hid.
Defined.

(** C10. Whether the handler answers [404] is decided by the trips table
    and the calendar alone: it does so exactly when no row with the requested
    id runs on the date. When such a row exists and no stop time carries the
    id, the handler answers with the train number, the date and an empty stop
    list. *)
Theorem handleGetTrainInfo_without_stop_times
    (fs : Files) (trainNumber date : string) (parsedDate : time.Time)
    (stops : gmap string Stop) (stopTimes : list StopTime)
    (trips : list Trip) (calendars : list Calendar) :
  time.Parse time.layoutDashed date = (parsedDate, None) ->
  loadStops (stops_txt fs) = Ok stops ->
  loadStopTimes (stop_times_txt fs) = Ok stopTimes ->
  loadTrips (trips_txt fs) = Ok trips ->
  loadCalendar (calendar_txt fs) = Ok calendars ->
  (handleGetTrainInfo fs trainNumber date
   = HttpError "No trips found for this train number and date" StatusNotFound
   <-> forall trip, In trip trips -> trip_TripID trip = trainNumber ->
                    isValidTrip trip parsedDate calendars = false)
  /\ ((exists trip, In trip trips /\ trip_TripID trip = trainNumber
                    /\ isValidTrip trip parsedDate calendars = true) ->
      (forall st, In st stopTimes -> st_TripID st <> trainNumber) ->
      handleGetTrainInfo fs trainNumber date
      = Json (mkTrainInfoResponse trainNumber date [])).
Proof.
  intros Hd Hs Hst Ht Hc.
  rewrite (handleGetTrainInfo_loaded _ _ _ _ _ _ _ _ Hd Hs Hst Ht Hc).
  rewrite <- validRows_nil_iff.
  destruct (validRows trainNumber parsedDate trips calendars) as [|row rows] eqn:E.
  - split; [split; reflexivity|].
    intros (trip & Hin & Hid & Hvalid) _. exfalso.
    rewrite (proj1 (validRows_nil_iff _ _ _ _) E trip Hin Hid) in Hvalid. discriminate.
  - split; [split; discriminate|].
    intros _ Hnone. cbn [length Nat.eqb]. do 2 f_equal.
    rewrite <- E.
    rewrite (stopsWithTimes_repeat _ _ trainNumber) by apply validRows_id.
    assert (F : List.filter (fun st => String.eqb (st_TripID st) trainNumber) stopTimes = []).
    { clear - Hnone. induction stopTimes as [|st l IH]; simpl; [reflexivity|].
      destruct (String.eqb (st_TripID st) trainNumber) eqn:Eid.
      - apply String.eqb_eq in Eid. exfalso. apply (Hnone st); [now left | assumption].
      - apply IH. intros x Hx. apply Hnone. now right. }
    rewrite F. simpl. clear. induction (length _) as [|n IH]; simpl; [reflexivity | exact IH].
Qed.

Lemma handleGetTrainInfo_without_stop_times_witness :
  handleGetTrainInfo
    (mkFiles stopsFile (Records [stopTimesHeader; ["6"; ""; "08:00:00"; "A"; "1"]])
       (Records [tripsHeader; ["R"; "WKDY"; "5"]]) calendarFile)
    "5" "2024-06-10"
  = Json (mkTrainInfoResponse "5" "2024-06-10" []).
Proof.
  refine (proj2 (handleGetTrainInfo_without_stop_times
                   (mkFiles stopsFile (Records [stopTimesHeader; ["6"; ""; "08:00:00"; "A"; "1"]])
                      (Records [tripsHeader; ["R"; "WKDY"; "5"]]) calendarFile)
                   "5" "2024-06-10" (time.mkTime 2024 6 10) stopsTable
                   [mkStopTime "6" "A" "" "08:00:00" 1]
                   [mkTrip "5" "R" "WKDY"] [calWKDY] _ _ _ _ _) _ _);
    try (vm_compute; reflexivity).
  - exists (mkTrip "5" "R" "WKDY"). split; [left; reflexivity|]. split; reflexivity.
  - intros st [<- | []]. discriminate.
Defined.

(** ** The search between two stations *)

Lemma findStopIndex_from_split i tripID stopID l :
  (exists l1 st l2,
      l = l1 ++ st :: l2 /\ visits tripID stopID st = true
      /\ (forall x, In x l1 -> visits tripID stopID x = false)
      /\ findStopIndex_from i tripID stopID l = i + Z.of_nat (length l1))
  \/ ((forall x, In x l -> visits tripID stopID x = false)
      /\ findStopIndex_from i tripID stopID l = -1).
Proof.
  revert i. induction l as [|st l IH]; intros i.
  - right. split; [intros x []|reflexivity].
  - cbn [findStopIndex_from]. fold (visits tripID stopID st).
    destruct (visits tripID stopID st) eqn:E.
    + left. exists [], st, l.
      split; [reflexivity|]. split; [assumption|]. split; [intros x []|simpl; lia].
    + destruct (IH (i + 1)) as [(l1 & x & l2 & -> & Hx & Hl1 & Hi) | [Hnone Hi]].
      * left. exists (st :: l1), x, l2.
        split; [reflexivity|]. split; [assumption|]. split.
        -- intros y [<- | Hy]; [assumption | now apply Hl1].
        -- rewrite Hi. cbn [length]. lia.
      * right. split; [|assumption].
        intros y [<- | Hy]; [assumption | now apply Hnone].
Qed.

Lemma findStopIndex_split tripID stopID l :
  (exists l1 st l2,
      l = l1 ++ st :: l2 /\ visits tripID stopID st = true
      /\ (forall x, In x l1 -> visits tripID stopID x = false)
      /\ findStopIndex tripID stopID l = Z.of_nat (length l1))
  \/ ((forall x, In x l -> visits tripID stopID x = false)
      /\ findStopIndex tripID stopID l = -1).
Proof. exact (findStopIndex_from_split 0 tripID stopID l). Qed.

(** The step of the scan, by the calls the stop time makes. *)
Lemma scanStep_visits tripID departureID arrivalID s st :
  scanStep tripID departureID arrivalID s st
  = let s1 := if visits tripID departureID st
              then mkScan (AdjustTime (st_DepartureTime st)) (arrivalTime s) true (hasArrival s)
              else s in
    if visits tripID arrivalID st
    then mkScan (departureTime s1) (AdjustTime (st_ArrivalTime st)) (hasDeparture s1) true
    else s1.
Proof.
  unfold scanStep, visits.
  destruct (String.eqb (st_TripID st) tripID); simpl; reflexivity.
Qed.

Section Scan.

Variables tripID departureID arrivalID : string.

Local Abbreviation step := (scanStep tripID departureID arrivalID).
Local Abbreviation run := (scanStopTimes tripID departureID arrivalID).

Lemma scan_idle l s :
  (forall x, In x l -> visits tripID departureID x = false) ->
  (forall x, In x l -> visits tripID arrivalID x = false) ->
  fold_left step l s = s.
Proof.
  revert s. induction l as [|st l IH]; intros s Hd Ha; simpl; [reflexivity|].
  rewrite scanStep_visits, (Hd st), (Ha st) by now left.
  apply IH; intros x Hx; [apply Hd | apply Ha]; now right.
Qed.

(** Before the first call at the arrival stop the loop does not break. *)
Lemma scan_before_arrival l rest s :
  hasArrival s = false ->
  (forall x, In x l -> visits tripID arrivalID x = false) ->
  run (l ++ rest) s = run rest (fold_left step l s)
  /\ hasArrival (fold_left step l s) = false
  /\ arrivalTime (fold_left step l s) = arrivalTime s.
Proof.
  revert s. induction l as [|st l IH]; intros s Hs Ha; simpl; [auto|].
  assert (E : step s st
              = if visits tripID departureID st
                then mkScan (AdjustTime (st_DepartureTime st)) (arrivalTime s) true (hasArrival s)
                else s).
  { rewrite scanStep_visits, (Ha st) by now left. reflexivity. }
  assert (Hs' : hasArrival (step s st) = false /\ arrivalTime (step s st) = arrivalTime s).
  { rewrite E. destruct (visits tripID departureID st); simpl; auto. }
  destruct Hs' as [Hs1 Hs2]. rewrite Hs1, andb_false_r.
  destruct (IH (step s st) Hs1) as (R1 & R2 & R3); [intros x Hx; apply Ha; now right|].
  rewrite R1, R2, R3, Hs2. auto.
Qed.

Lemma scan_no_departure l s :
  (forall x, In x l -> visits tripID departureID x = false) ->
  hasDeparture (run l s) = hasDeparture s.
Proof.
  revert s. induction l as [|st l IH]; intros s Hd; simpl; [reflexivity|].
  assert (E : hasDeparture (scanStep tripID departureID arrivalID s st) = hasDeparture s).
  { rewrite scanStep_visits, (Hd st) by now left. simpl.
    destruct (visits tripID arrivalID st); reflexivity. }
  destruct (_ && _); [exact E|].
  rewrite IH; [exact E|]. intros x Hx. apply Hd. now right.
Qed.

Lemma scan_no_arrival l s :
  (forall x, In x l -> visits tripID arrivalID x = false) ->
  hasArrival (run l s) = hasArrival s.
Proof.
  revert s. induction l as [|st l IH]; intros s Ha; simpl; [reflexivity|].
  assert (E : hasArrival (scanStep tripID departureID arrivalID s st) = hasArrival s).
  { rewrite scanStep_visits, (Ha st) by now left. simpl.
    destruct (visits tripID departureID st); reflexivity. }
  destruct (_ && _); [exact E|].
  rewrite IH; [exact E|]. intros x Hx. apply Ha. now right.
Qed.

(** The scan of a table in which the trip calls at the departure stop, for
    the last time at [stD], before it first calls at the arrival stop, at
    [stA]. *)
Lemma scan_result la stD lb stA l2 :
  visits tripID departureID stD = true ->
  visits tripID arrivalID stA = true ->
  visits tripID departureID stA = false ->
  (forall x, In x (la ++ stD :: lb) -> visits tripID arrivalID x = false) ->
  (forall x, In x lb -> visits tripID departureID x = false) ->
  run (la ++ stD :: lb ++ stA :: l2) (mkScan "" "" false false)
  = mkScan (AdjustTime (st_DepartureTime stD)) (AdjustTime (st_ArrivalTime stA)) true true.
Proof.
  intros HD HA HDA Hnoarr Hnodep.
  change (la ++ stD :: lb ++ stA :: l2) with (la ++ (stD :: lb) ++ stA :: l2).
  rewrite app_assoc.
  destruct (scan_before_arrival (la ++ stD :: lb) (stA :: l2) (mkScan "" "" false false))
    as (R1 & R2 & R3); [reflexivity | assumption |].
  rewrite R1. clear R1.
  rewrite fold_left_app in *. cbn [fold_left] in *.
  destruct (scan_before_arrival la [] (mkScan "" "" false false)) as (_ & A2 & A3);
    [reflexivity | intros x Hx; apply Hnoarr, in_or_app; now left |].
  set (sa := fold_left step la (mkScan "" "" false false)) in *.
  assert (E : step sa stD = mkScan (AdjustTime (st_DepartureTime stD)) "" true false).
  { rewrite scanStep_visits, HD.
    rewrite (Hnoarr stD) by (apply in_or_app; right; now left).
    simpl. rewrite A2. simpl in A3. now rewrite A3. }
  rewrite E in *.
  rewrite scan_idle in *; try assumption;
    try (intros x Hx; apply Hnoarr, in_or_app; right; now right).
  cbn [scanStopTimes]. rewrite scanStep_visits, HDA, HA. reflexivity.
Qed.

End Scan.

Lemma last_visit {A} (p : A -> bool) (l : list A) :
  (exists x, In x l /\ p x = true) ->
  exists la x lb, l = la ++ x :: lb /\ p x = true /\ (forall y, In y lb -> p y = false).
Proof.
  induction l as [|a l IH]; intros (x & Hin & Hp); [destruct Hin|].
  destruct (existsb p l) eqn:E.
  - apply existsb_exists in E. destruct (IH E) as (la & y & lb & -> & Hy & Hlb).
    exists (a :: la), y, lb. auto.
  - assert (Hl : forall y, In y l -> p y = false).
    { intros y Hy. destruct (p y) eqn:Ey; [|reflexivity].
      rewrite <- E. symmetry. apply existsb_exists. eauto. }
    destruct Hin as [<- | Hin]; [|rewrite (Hl x Hin) in Hp; discriminate].
    exists [], a, l. auto.
Qed.

(** What puts a train on the list: a trip that runs on the date, whose scan
    saw both stops and brought back two times that are not empty, and whose
    two positions are in order. *)
Lemma trainsWithStops_from parsedDate calendars stopTimes departureID arrivalID trips acc e :
  In e (fold_left (tripStep parsedDate calendars stopTimes departureID arrivalID) trips acc) ->
  In e acc
  \/ exists trip,
       In trip trips /\ isValidTrip trip parsedDate calendars = true
       /\ let s := scanStopTimes (trip_TripID trip) departureID arrivalID stopTimes
                     (mkScan "" "" false false) in
          hasDeparture s = true /\ hasArrival s = true
          /\ departureTime s <> "" /\ arrivalTime s <> ""
          /\ findStopIndex (trip_TripID trip) departureID stopTimes
             < findStopIndex (trip_TripID trip) arrivalID stopTimes
          /\ e = mkTrainInfo (trip_TripID trip) (departureTime s) (arrivalTime s).
Proof.
  revert acc. induction trips as [|trip trips IH]; intros acc; simpl; [now left|].
  intros Hin. apply IH in Hin. destruct Hin as [Hin | (t & Ht & Hrest)].
  - unfold tripStep in Hin.
    destruct (isValidTrip trip parsedDate calendars) eqn:Ev; cbn [negb] in Hin; [|now left].
    set (s := scanStopTimes (trip_TripID trip) departureID arrivalID stopTimes
                (mkScan "" "" false false)) in *.
    destruct (hasDeparture s) eqn:E1; cbn [andb] in Hin; [|now left].
    destruct (hasArrival s) eqn:E2; cbn [andb] in Hin; [|now left].
    destruct (String.eqb (departureTime s) "") eqn:E3; cbn [andb negb] in Hin; [now left|].
    destruct (String.eqb (arrivalTime s) "") eqn:E4; cbn [andb negb] in Hin; [now left|].
    destruct (_ <? _) eqn:E5 in Hin; [|now left].
    apply in_app_or in Hin. destruct Hin as [Hin | [<- | []]]; [now left|].
    right. exists trip. split; [now left|]. split; [assumption|].
    fold s. rewrite E1, E2. apply String.eqb_neq in E3, E4. apply Z.ltb_lt in E5.
    auto 7.
  - right. exists t. split; [now right | assumption].
Qed.

Lemma handleGetTrainList_loaded mapRange fs departureStation arrivalStation date
    parsedDate stops stopTimes trips calendars body :
  time.Parse time.layoutDashed date = (parsedDate, None) ->
  loadStops (stops_txt fs) = Ok stops ->
  loadStopTimes (stop_times_txt fs) = Ok stopTimes ->
  loadTrips (trips_txt fs) = Ok trips ->
  loadCalendar (calendar_txt fs) = Ok calendars ->
  handleGetTrainList mapRange fs departureStation arrivalStation date = Json body ->
  tl_Trains body
  = trainsWithStops parsedDate calendars stopTimes trips
      (fst (resolveStations (mapRange stops) departureStation arrivalStation))
      (snd (resolveStations (mapRange stops) departureStation arrivalStation)).
Proof.
  intros Hd Hs Hst Ht Hc. unfold handleGetTrainList.
  rewrite Hd, Hs, Hst, Ht, Hc. cbn [orServerError mbind Response_bind].
  destruct (resolveStations (mapRange stops) departureStation arrivalStation)
    as [departureID arrivalID].
  destruct (_ || _); [discriminate|].
  destruct (_ =? _)%nat; [discriminate|].
  intros [= <-]. reflexivity.
Qed.

(** The calls behind a train on the list: the table, cut at the last call
    of the trip at the departure stop before its first call at the arrival
    stop, and at that first call. *)
Lemma qualifying_trip_calls tripID departureID arrivalID stopTimes :
  let s := scanStopTimes tripID departureID arrivalID stopTimes (mkScan "" "" false false) in
  hasDeparture s = true ->
  findStopIndex tripID departureID stopTimes < findStopIndex tripID arrivalID stopTimes ->
  exists la stD lb stA l2,
    stopTimes = la ++ stD :: lb ++ stA :: l2
    /\ visits tripID departureID stD = true
    /\ visits tripID arrivalID stA = true
    /\ (forall x, In x (la ++ stD :: lb) -> visits tripID arrivalID x = false)
    /\ (forall x, In x lb -> visits tripID departureID x = false)
    /\ findStopIndex tripID arrivalID stopTimes = Z.of_nat (length (la ++ stD :: lb))
    /\ 0 <= findStopIndex tripID departureID stopTimes
    /\ s = mkScan (AdjustTime (st_DepartureTime stD)) (AdjustTime (st_ArrivalTime stA))
             true true.
Proof.
  intros s Hhas Hlt.
  destruct (findStopIndex_split tripID departureID stopTimes)
    as [(m1 & d0 & m2 & Em & Hd0 & Hm1 & Hi) | [Hnone _]].
  2:{ subst s. rewrite scan_no_departure in Hhas by assumption. discriminate. }
  destruct (findStopIndex_split tripID arrivalID stopTimes)
    as [(l1 & stA & l2 & El & HA & Hl1 & Hj) | [_ Hj]]; [|lia].
  rewrite Hi, Hj in Hlt.
  assert (Hd0in : In d0 l1).
  { assert (L : stopTimes !! length m1 = Some d0)
      by (rewrite Em; apply list_lookup_middle; reflexivity).
    rewrite El, lookup_app_l in L by lia.
    apply list_elem_of_In. eapply list_elem_of_lookup_2. exact L. }
  destruct (last_visit (visits tripID departureID) l1) as (la & stD & lb & -> & HD & Hlb);
    [now exists d0|].
  assert (HDA : visits tripID departureID stA = false).
  { destruct (visits tripID departureID stA) eqn:E; [|reflexivity].
    unfold visits in E, HA, HD.
    apply andb_true_iff in E as [_ E], HA as [_ HA], HD as [HD1 HD2].
    apply String.eqb_eq in E, HA. assert (departureID = arrivalID) by congruence. subst.
    rewrite <- (Hl1 stD) by (apply in_or_app; right; now left).
    unfold visits. now rewrite HD1, HD2. }
  exists la, stD, lb, stA, l2.
  split; [now rewrite El, <- app_assoc|].
  do 4 (split; [assumption|]).
  split; [assumption|]. split; [lia|].
  subst s. rewrite El, <- app_assoc. cbn [app].
  now apply scan_result.
Qed.

Lemma findStopIndex_lookup tripID stopID l :
  0 <= findStopIndex tripID stopID l ->
  exists st,
    l !! Z.to_nat (findStopIndex tripID stopID l) = Some st
    /\ visits tripID stopID st = true
    /\ (forall k x, (k < Z.to_nat (findStopIndex tripID stopID l))%nat ->
                    l !! k = Some x -> visits tripID stopID x = false).
Proof.
  intros H0.
  destruct (findStopIndex_split tripID stopID l)
    as [(l1 & st & l2 & -> & Hst & Hl1 & Hi) | [_ Hi]]; [|lia].
  rewrite Hi, Nat2Z.id. exists st.
  split; [apply list_lookup_middle; reflexivity|]. split; [assumption|].
  intros k x Hk Hx. rewrite lookup_app_l in Hx by assumption.
  apply Hl1, list_elem_of_In. eapply list_elem_of_lookup_2. exact Hx.
Qed.

Lemma find_first {A} (p : A -> bool) (l1 : list A) (x : A) (l2 : list A) :
  (forall y, In y l1 -> p y = false) -> p x = true ->
  List.find p (l1 ++ x :: l2) = Some x.
Proof.
  intros Hl1 Hx. induction l1 as [|a l1 IH]; simpl.
  - now rewrite Hx.
  - rewrite (Hl1 a) by now left. apply IH. intros y Hy. apply Hl1. now right.
Qed.

Lemma listed_train mapRange fs departureStation arrivalStation date
    parsedDate stops stopTimes trips calendars body departureID arrivalID e :
  time.Parse time.layoutDashed date = (parsedDate, None) ->
  loadStops (stops_txt fs) = Ok stops ->
  loadStopTimes (stop_times_txt fs) = Ok stopTimes ->
  loadTrips (trips_txt fs) = Ok trips ->
  loadCalendar (calendar_txt fs) = Ok calendars ->
  resolveStations (mapRange stops) departureStation arrivalStation = (departureID, arrivalID) ->
  handleGetTrainList mapRange fs departureStation arrivalStation date = Json body ->
  In e (tl_Trains body) ->
  findStopIndex (ti_TripID e) departureID stopTimes
  < findStopIndex (ti_TripID e) arrivalID stopTimes
  /\ exists la stD lb stA l2,
       stopTimes = la ++ stD :: lb ++ stA :: l2
       /\ visits (ti_TripID e) departureID stD = true
       /\ visits (ti_TripID e) arrivalID stA = true
       /\ (forall x, In x (la ++ stD :: lb) -> visits (ti_TripID e) arrivalID x = false)
       /\ (forall x, In x lb -> visits (ti_TripID e) departureID x = false)
       /\ 0 <= findStopIndex (ti_TripID e) departureID stopTimes
       /\ ti_DepartureTime e = AdjustTime (st_DepartureTime stD)
       /\ ti_ArrivalTime e = AdjustTime (st_ArrivalTime stA).
Proof.
  intros Hd Hs Hst Ht Hc Hres Hjson Hin.
  rewrite (handleGetTrainList_loaded _ _ _ _ _ _ _ _ _ _ _ Hd Hs Hst Ht Hc Hjson) in Hin.
  rewrite Hres in Hin. cbn [fst snd] in Hin.
  apply trainsWithStops_from in Hin.
  destruct Hin as [[] | (trip & _ & _ & Hhas & _ & _ & _ & Hlt & ->)].
  cbn [ti_TripID ti_DepartureTime ti_ArrivalTime].
  split; [exact Hlt|].
  destruct (qualifying_trip_calls _ _ _ _ Hhas Hlt)
    as (la & stD & lb & stA & l2 & E & HD & HA & Hnoarr & Hnodep & _ & H0 & Es).
  exists la, stD, lb, stA, l2. rewrite Es. cbn [departureTime arrivalTime]. auto 10.
Qed.

(** C3. Every train on the list of the answer has its position at the
    departure stop before its position at the arrival stop, never the same
    or after; each position is the index of the first row of the stop-times
    table with the trip id of the train and the id of the stop. *)
Theorem handleGetTrainList_order
    (mapRange : gmap string Stop -> list Stop) (fs : Files)
    (departureStation arrivalStation date : string) (parsedDate : time.Time)
    (stops : gmap string Stop) (stopTimes : list StopTime)
    (trips : list Trip) (calendars : list Calendar)
    (body : TrainListBody) (departureID arrivalID : string) (e : TrainInfo) :
  time.Parse time.layoutDashed date = (parsedDate, None) ->
  loadStops (stops_txt fs) = Ok stops ->
  loadStopTimes (stop_times_txt fs) = Ok stopTimes ->
  loadTrips (trips_txt fs) = Ok trips ->
  loadCalendar (calendar_txt fs) = Ok calendars ->
  resolveStations (mapRange stops) departureStation arrivalStation = (departureID, arrivalID) ->
  handleGetTrainList mapRange fs departureStation arrivalStation date = Json body ->
  In e (tl_Trains body) ->
  (0 <= findStopIndex (ti_TripID e) departureID stopTimes
        < findStopIndex (ti_TripID e) arrivalID stopTimes)
  /\ ~ (findStopIndex (ti_TripID e) arrivalID stopTimes
        <= findStopIndex (ti_TripID e) departureID stopTimes)
  /\ (exists stD,
        stopTimes !! Z.to_nat (findStopIndex (ti_TripID e) departureID stopTimes) = Some stD
        /\ visits (ti_TripID e) departureID stD = true
        /\ forall k x,
             (k < Z.to_nat (findStopIndex (ti_TripID e) departureID stopTimes))%nat ->
             stopTimes !! k = Some x -> visits (ti_TripID e) departureID x = false)
  /\ (exists stA,
        stopTimes !! Z.to_nat (findStopIndex (ti_TripID e) arrivalID stopTimes) = Some stA
        /\ visits (ti_TripID e) arrivalID stA = true
        /\ forall k x,
             (k < Z.to_nat (findStopIndex (ti_TripID e) arrivalID stopTimes))%nat ->
             stopTimes !! k = Some x -> visits (ti_TripID e) arrivalID x = false).
Proof.
  intros Hd Hs Hst Ht Hc Hres Hjson Hin.
  destruct (listed_train _ _ _ _ _ _ _ _ _ _ _ _ _ _ Hd Hs Hst Ht Hc Hres Hjson Hin)
    as (Hlt & la & stD & lb & stA & l2 & _ & _ & _ & _ & _ & H0 & _).
  split; [lia|]. split; [lia|].
  split; apply findStopIndex_lookup; lia.
Qed.

Lemma handleGetTrainList_order_witness :
  0 <= findStopIndex "5" "A" loopTable < findStopIndex "5" "B" loopTable.
Proof.
  refine (proj1 (handleGetTrainList_order mapOrder feedLoop "Central" "North" "2024-06-10"
                   (time.mkTime 2024 6 10) stopsTable loopTable
                   [mkTrip "5" "R" "WKDY"] [calWKDY]
                   (mkTrainListBody "Central" "North" "2024-06-10"
                      [mkTrainInfo "5" "09:00:00" "09:30:00"])
                   "A" "B" (mkTrainInfo "5" "09:00:00" "09:30:00") _ _ _ _ _ _ _ _));
    try (vm_compute; reflexivity).
  left. reflexivity.
Defined.

(** C4, as the specification states it, fails: on the loop route the trip
    calls at Central twice before North, and the departure time on the list
    is the one of the second call, 09:00, while the first stop time of the
    trip at Central leaves at 08:00. *)
Lemma departure_time_is_not_the_first :
  handleGetTrainList mapOrder feedLoop "Central" "North" "2024-06-10"
  = Json (mkTrainListBody "Central" "North" "2024-06-10"
            [mkTrainInfo "5" "09:00:00" "09:30:00"])
  /\ loadStopTimes (stop_times_txt feedLoop) = Ok loopTable
  /\ resolveStations (mapOrder stopsTable) "Central" "North" = ("A", "B")
  /\ List.find (visits "5" "A") loopTable = Some (mkStopTime "5" "A" "07:59:00" "08:00:00" 1)
  /\ AdjustTime "08:00:00" = "08:00:00".
Proof. repeat split; vm_compute; reflexivity. Qed.

(** C4, amended. For every train on the list, the table is cut at two
    rows of the trip: [stA], its first call at the arrival stop (no row
    before it is a call at the arrival stop), and [stD], its last call at
    the departure stop before that row (no row between the two is a call at
    the departure stop). The arrival time is the normalised arrival time of
    [stA] and the departure time is the normalised departure time of [stD].
    When the trip calls at the departure stop once before [stA], [stD] is
    the first stop time of the trip at the departure stop. *)
Theorem handleGetTrainList_times
    (mapRange : gmap string Stop -> list Stop) (fs : Files)
    (departureStation arrivalStation date : string) (parsedDate : time.Time)
    (stops : gmap string Stop) (stopTimes : list StopTime)
    (trips : list Trip) (calendars : list Calendar)
    (body : TrainListBody) (departureID arrivalID : string) (e : TrainInfo) :
  time.Parse time.layoutDashed date = (parsedDate, None) ->
  loadStops (stops_txt fs) = Ok stops ->
  loadStopTimes (stop_times_txt fs) = Ok stopTimes ->
  loadTrips (trips_txt fs) = Ok trips ->
  loadCalendar (calendar_txt fs) = Ok calendars ->
  resolveStations (mapRange stops) departureStation arrivalStation = (departureID, arrivalID) ->
  handleGetTrainList mapRange fs departureStation arrivalStation date = Json body ->
  In e (tl_Trains body) ->
  exists la stD lb stA l2,
    stopTimes = la ++ stD :: lb ++ stA :: l2
    /\ visits (ti_TripID e) departureID stD = true
    /\ (forall x, In x lb -> visits (ti_TripID e) departureID x = false)
    /\ visits (ti_TripID e) arrivalID stA = true
    /\ (forall x, In x (la ++ stD :: lb) -> visits (ti_TripID e) arrivalID x = false)
    /\ List.find (visits (ti_TripID e) arrivalID) stopTimes = Some stA
    /\ ti_DepartureTime e = AdjustTime (st_DepartureTime stD)
    /\ ti_ArrivalTime e = AdjustTime (st_ArrivalTime stA)
    /\ ((forall x, In x la -> visits (ti_TripID e) departureID x = false) ->
        List.find (visits (ti_TripID e) departureID) stopTimes = Some stD).
Proof.
  intros Hd Hs Hst Ht Hc Hres Hjson Hin.
  destruct (listed_train _ _ _ _ _ _ _ _ _ _ _ _ _ _ Hd Hs Hst Ht Hc Hres Hjson Hin)
    as (_ & la & stD & lb & stA & l2 & E & HD & HA & Hnoarr & Hnodep & _ & Edep & Earr).
  exists la, stD, lb, stA, l2.
  split; [assumption|]. split; [assumption|]. split; [assumption|].
  split; [assumption|]. split; [assumption|].
  split.
  { rewrite E.
    change (la ++ stD :: lb ++ stA :: l2) with (la ++ (stD :: lb) ++ stA :: l2).
    rewrite app_assoc. now apply find_first. }
  split; [assumption|]. split; [assumption|].
  intros Hla. rewrite E. now apply find_first.
Qed.

Lemma handleGetTrainList_times_witness :
  exists la stD lb stA l2,
    loopTable = la ++ stD :: lb ++ stA :: l2
    /\ visits "5" "A" stD = true
    /\ (forall x, In x lb -> visits "5" "A" x = false)
    /\ visits "5" "B" stA = true
    /\ (forall x, In x (la ++ stD :: lb) -> visits "5" "B" x = false)
    /\ List.find (visits "5" "B") loopTable = Some stA
    /\ "09:00:00" = AdjustTime (st_DepartureTime stD)
    /\ "09:30:00" = AdjustTime (st_ArrivalTime stA)
    /\ ((forall x, In x la -> visits "5" "A" x = false) ->
        List.find (visits "5" "A") loopTable = Some stD).
Proof.
  refine (handleGetTrainList_times mapOrder feedLoop "Central" "North" "2024-06-10"
            (time.mkTime 2024 6 10) stopsTable loopTable
            [mkTrip "5" "R" "WKDY"] [calWKDY]
            (mkTrainListBody "Central" "North" "2024-06-10"
               [mkTrainInfo "5" "09:00:00" "09:30:00"])
            "A" "B" (mkTrainInfo "5" "09:00:00" "09:30:00") _ _ _ _ _ _ _ _);
    try (vm_compute; reflexivity).
  left. reflexivity.
Defined.

(** ** Resolving the station names *)

Lemma resolveStations_from visited departureStation arrivalStation ids :
  let r := fold_left (fun ids stop =>
      let departureID :=
        if String.eqb (stop_StopName stop) departureStation then stop_StopID stop else fst ids in
      let arrivalID :=
        if String.eqb (stop_StopName stop) arrivalStation then stop_StopID stop else snd ids in
      (departureID, arrivalID)) visited ids in
  (fst r = fst ids
   \/ exists stop, In stop visited /\ stop_StopName stop = departureStation
                   /\ stop_StopID stop = fst r)
  /\ (snd r = snd ids
      \/ exists stop, In stop visited /\ stop_StopName stop = arrivalStation
                      /\ stop_StopID stop = snd r).
Proof.
  revert ids. induction visited as [|stop visited IH]; intros ids; cbn [fold_left].
  - split; now left.
  - match goal with |- context [fold_left ?f visited ?i] => specialize (IH i) end.
    cbv zeta in IH. cbn [fst snd] in IH. destruct IH as [IHd IHa]. split.
    + destruct IHd as [-> | (x & Hx & Hn & Hi)]; [|right; exists x; auto using in_cons].
      destruct (String.eqb (stop_StopName stop) departureStation) eqn:E; [|now left].
      apply String.eqb_eq in E. right. exists stop. auto using in_eq.
    + destruct IHa as [-> | (x & Hx & Hn & Hi)]; [|right; exists x; auto using in_cons].
      destruct (String.eqb (stop_StopName stop) arrivalStation) eqn:E; [|now left].
      apply String.eqb_eq in E. right. exists stop. auto using in_eq.
Qed.

Section Resolve.

Variable mapRange : gmap string Stop -> list Stop.
Hypothesis mapRange_perm : forall m, mapRange m ≡ₚ (map_to_list m).*2.

(** Whatever the order of the range, an id that comes out of the
    resolution is the id of a stop of the table that has the name asked
    for. *)
Lemma resolveStations_in_table (m : gmap string Stop) departureStation arrivalStation :
  let ids := resolveStations (mapRange m) departureStation arrivalStation in
  (fst ids <> "" ->
   exists k stop, m !! k = Some stop /\ stop_StopName stop = departureStation
                  /\ stop_StopID stop = fst ids)
  /\ (snd ids <> "" ->
      exists k stop, m !! k = Some stop /\ stop_StopName stop = arrivalStation
                     /\ stop_StopID stop = snd ids).
Proof.
  assert (Hin : forall stop, In stop (mapRange m) -> exists k, m !! k = Some stop).
  { intros stop H. apply list_elem_of_In in H. rewrite mapRange_perm in H.
    apply list_elem_of_fmap in H as ([k v] & -> & H).
    exists k. now apply elem_of_map_to_list. }
  pose proof (resolveStations_from (mapRange m) departureStation arrivalStation ("", ""))
    as [Hd Ha].
  cbn [fst snd] in Hd, Ha. cbv zeta. unfold resolveStations. split; intros Hne.
  - destruct Hd as [E | (stop & Hs & Hn & Hi)]; [congruence|].
    destruct (Hin stop Hs) as [k Hk]. eauto.
  - destruct Ha as [E | (stop & Hs & Hn & Hi)]; [congruence|].
    destruct (Hin stop Hs) as [k Hk]. eauto.
Qed.

End Resolve.

(** ** The scenarios of the specification *)

Example scenario_weekday_service :
  isValidTrip trip101 (time.mkTime 2024 6 10) [calWKDY] = true
  /\ isValidTrip trip101 (time.mkTime 2024 6 15) [calWKDY] = false.
Proof. split; reflexivity. Qed.

Example scenario_central_to_north :
  handleGetTrainList mapOrder feed "Central" "North" "2024-06-10"
  = Json (mkTrainListBody "Central" "North" "2024-06-10"
            [mkTrainInfo "5" "08:00:00" "08:30:00"]).
Proof. vm_compute. reflexivity. Qed.

Example scenario_north_to_central :
  handleGetTrainList mapOrder feed "North" "Central" "2024-06-10"
  = HttpError "No trains found containing both specified stations" StatusNotFound.
Proof. vm_compute. reflexivity. Qed.

(** * More on the evaluator, the loaders and the handlers *)

(** ** The calendar evaluator and the order of its entries *)

(** X1. A trip whose service has no entry in the calendar runs on no
    date. *)
Theorem isValidTrip_unknown_service (trip : Trip) (date : time.Time)
    (calendars : list Calendar) :
  (forall cal, In cal calendars -> cal_ServiceID cal <> trip_ServiceID trip) ->
  isValidTrip trip date calendars = false.
Proof.
  intros H. rewrite isValidTrip_existsb.
  destruct (existsb (authorizes trip date) calendars) eqn:E; [|reflexivity].
  apply existsb_exists in E as (cal & Hin & Hcal).
  unfold authorizes in Hcal. apply andb_true_iff in Hcal as [Hcal _].
  apply andb_true_iff in Hcal as [Hid _]. apply String.eqb_eq in Hid.
  destruct (H cal Hin Hid).
Qed.

Lemma isValidTrip_unknown_service_witness :
  isValidTrip (mkTrip "7" "R2" "SUN") (time.mkTime 2024 6 10) [calWKDY] = false.
Proof.
  apply isValidTrip_unknown_service.
  intros cal [<- | []]. discriminate.
Defined.

(** X2. The answer of the evaluator over two calendars put end to end is
    the disjunction of its answers over each, and the answer is the same
    for any two calendars that hold the same entries in another order. *)
Theorem isValidTrip_order_free (trip : Trip) (date : time.Time)
    (calendars others : list Calendar) :
  isValidTrip trip date (calendars ++ others)
  = isValidTrip trip date calendars || isValidTrip trip date others
  /\ (Permutation calendars others ->
      isValidTrip trip date calendars = isValidTrip trip date others).
Proof.
  split; [now rewrite !isValidTrip_existsb, existsb_app|].
  intros HP. rewrite !isValidTrip_existsb.
  induction HP as [|x l l' _ IH|x y l|l l' l'' _ IH1 _ IH2]; simpl.
  - reflexivity.
  - now rewrite IH.
  - now rewrite !orb_assoc, (orb_comm (authorizes trip date y)).
  - now rewrite IH1.
Qed.

Lemma isValidTrip_order_free_witness :
  isValidTrip trip101 (time.mkTime 2024 6 10)
    [mkCalendar "WKDY" "20230101" "20231231" everyDay; calWKDY]
  = isValidTrip trip101 (time.mkTime 2024 6 10)
      [calWKDY; mkCalendar "WKDY" "20230101" "20231231" everyDay].
Proof.
  refine (proj2 (isValidTrip_order_free trip101 (time.mkTime 2024 6 10)
                   [mkCalendar "WKDY" "20230101" "20231231" everyDay; calWKDY]
                   [calWKDY; mkCalendar "WKDY" "20230101" "20231231" everyDay]) _).
  apply perm_swap.
Defined.

(** X3. An entry whose end date the evaluator finds before its start date
    lets no trip run on any date: the calendar gives the same answer with
    and without it. *)
Theorem isValidTrip_inverted_range (trip : Trip) (date : time.Time) (cal : Calendar)
    (before after : list Calendar) :
  time.Before (fst (time.Parse time.layoutCompact (cal_EndDate cal)))
    (fst (time.Parse time.layoutCompact (cal_StartDate cal))) = true ->
  isValidTrip trip date (before ++ cal :: after) = isValidTrip trip date (before ++ after).
Proof.
  intros H. rewrite !isValidTrip_existsb, !existsb_app. cbn [existsb].
  assert (E : authorizes trip date cal = false).
  { unfold authorizes, time.Before, time.After in *. apply Z.ltb_lt in H.
    destruct (time.absDays date <? _) eqn:E1; cbn [orb negb];
      [now rewrite andb_false_r|].
    destruct (_ <? time.absDays date) eqn:E2; cbn [negb];
      [now rewrite andb_false_r|].
    apply Z.ltb_ge in E1, E2. lia. }
  now rewrite E.
Qed.

Lemma isValidTrip_inverted_range_witness :
  isValidTrip trip101 (time.mkTime 2024 6 10)
    ([] ++ mkCalendar "WKDY" "20241231" "20240101" everyDay :: [])
  = isValidTrip trip101 (time.mkTime 2024 6 10) ([] ++ []).
Proof.
  apply (isValidTrip_inverted_range trip101 (time.mkTime 2024 6 10)
           (mkCalendar "WKDY" "20241231" "20240101" everyDay) [] []).
  reflexivity.
Defined.

(** X4. The number of the weekday of any date is from 0 to 6, so the
    evaluator reads one of the seven flags of the entry and never a place
    outside the array. *)
Theorem weekday_within_week (w : Week) (t : time.Time) :
  0 <= time.weekday t <= 6
  /\ Week_flags w !! Z.to_nat (time.weekday t) = Some (Week_at w (time.weekday t)).
Proof.
  assert (H : 0 <= time.weekday t < 7) by (apply Z.mod_pos_bound; lia).
  split; [lia|]. unfold Week_at.
  assert (L : (Z.to_nat (time.weekday t) < length (Week_flags w))%nat) by (simpl; lia).
  destruct (lookup_lt_is_Some_2 _ _ L) as [b Hb].
  rewrite Hb. f_equal. symmetry. now apply nth_lookup_Some.
Qed.

(** ** Positions in the stop-times table *)

(** X5. [findStopIndex] returns -1 exactly when no row of the table is a
    call of the trip at the stop; otherwise it returns an index within the
    table: the row at that index is a call of the trip at the stop, and no
    row at a smaller index is one. *)
Theorem findStopIndex_first_or_none (tripID stopID : string) (stopTimes : list StopTime) :
  (findStopIndex tripID stopID stopTimes = -1
   <-> forall st, In st stopTimes -> visits tripID stopID st = false)
  /\ -1 <= findStopIndex tripID stopID stopTimes < Z.of_nat (length stopTimes)
  /\ (0 <= findStopIndex tripID stopID stopTimes ->
      exists st,
        stopTimes !! Z.to_nat (findStopIndex tripID stopID stopTimes) = Some st
        /\ visits tripID stopID st = true
        /\ (forall k x,
              (k < Z.to_nat (findStopIndex tripID stopID stopTimes))%nat ->
              stopTimes !! k = Some x -> visits tripID stopID x = false)
        /\ List.find (visits tripID stopID) stopTimes = Some st).
Proof.
  split; [|split].
  - destruct (findStopIndex_split tripID stopID stopTimes)
      as [(l1 & st & l2 & -> & Hst & Hl1 & ->) | [Hnone ->]]; [|tauto].
    split; [lia|]. intros H. rewrite H in Hst; [discriminate|].
    apply in_or_app. right. now left.
  - destruct (findStopIndex_split tripID stopID stopTimes)
      as [(l1 & st & l2 & -> & Hst & Hl1 & ->) | [Hnone ->]]; [|lia].
    rewrite length_app. cbn [length]. lia.
  - intros H0. destruct (findStopIndex_lookup tripID stopID stopTimes H0)
      as (st & Hat & Hst & Hfirst).
    exists st. split; [exact Hat|]. split; [exact Hst|]. split; [exact Hfirst|].
    destruct (findStopIndex_split tripID stopID stopTimes)
      as [(l1 & st' & l2 & E & Hst' & Hl1 & Hi) | [_ Hi]]; [|lia].
    rewrite Hi, Nat2Z.id, E, list_lookup_middle in Hat by reflexivity.
    injection Hat as <-. rewrite E. now apply find_first.
Qed.

Lemma findStopIndex_first_or_none_witness :
  exists st,
    loopTable !! Z.to_nat (findStopIndex "5" "B" loopTable) = Some st
    /\ visits "5" "B" st = true
    /\ (forall k x,
          (k < Z.to_nat (findStopIndex "5" "B" loopTable))%nat ->
          loopTable !! k = Some x -> visits "5" "B" x = false)
    /\ List.find (visits "5" "B") loopTable = Some st.
Proof.
  destruct (findStopIndex_first_or_none "5" "B" loopTable) as (_ & _ & H).
  apply H. vm_compute. discriminate.
Defined.

(** ** Dates in the order of the calendar *)

Ltac month_cases m :=
  let H := fresh in
  assert (H : m = 1 \/ m = 2 \/ m = 3 \/ m = 4 \/ m = 5 \/ m = 6 \/ m = 7
              \/ m = 8 \/ m = 9 \/ m = 10 \/ m = 11 \/ m = 12) by lia;
  repeat (destruct H as [H | H]; [subst m | ]); [.. | subst m].

Lemma isLeap_mod y :
  time.isLeap y = true <-> y mod 4 = 0 /\ (y mod 100 <> 0 \/ y mod 400 = 0).
Proof.
  unfold time.isLeap.
  rewrite andb_true_iff, orb_true_iff, negb_true_iff, !Z.eqb_eq, Z.eqb_neq.
  rewrite !Z.rem_mod_eq_0 by lia. reflexivity.
Qed.

(** The days of the years before [y + 1] are those before [y] and the
    days of [y]. *)
Lemma year_length y :
  365 * y + y / 4 - y / 100 + y / 400
  = 365 * (y - 1) + (y - 1) / 4 - (y - 1) / 100 + (y - 1) / 400
    + 365 + (if time.isLeap y then 1 else 0).
Proof.
  destruct (time.isLeap y) eqn:E.
  - apply isLeap_mod in E. Z.div_mod_to_equations. lia.
  - assert (H : ~ (y mod 4 = 0 /\ (y mod 100 <> 0 \/ y mod 400 = 0))).
    { intros H. apply isLeap_mod in H. congruence. }
    Z.div_mod_to_equations. lia.
Qed.

Lemma day_of_year y m d :
  1 <= m <= 12 -> 1 <= d <= time.daysIn m y ->
  0 <= time.daysBefore m + (if time.isLeap y && (2 <? m) then 1 else 0) + (d - 1)
     < 365 + (if time.isLeap y then 1 else 0).
Proof.
  intros Hm Hd. unfold time.daysIn in Hd.
  month_cases m; cbn in *; destruct (time.isLeap y); cbn in *; lia.
Qed.

Lemma absDays_before t u :
  validDate t -> validDate u -> dateBefore t u -> time.absDays t < time.absDays u.
Proof.
  destruct t as [y m d], u as [y' m' d']. unfold validDate, dateBefore, time.absDays.
  cbn [time.year time.month time.day].
  intros [Hm Hd] [Hm' Hd'] [Hy | [<- [Hlt | [<- Hlt]]]].
  - pose proof (day_of_year y m d Hm Hd) as B.
    pose proof (day_of_year y' m' d' Hm' Hd') as B'.
    pose proof (year_length y) as L.
    assert (365 * y + y / 4 - y / 100 + y / 400
            <= 365 * (y' - 1) + (y' - 1) / 4 - (y' - 1) / 100 + (y' - 1) / 400)
      by (Z.div_mod_to_equations; lia).
    lia.
  - unfold time.daysIn in *.
    month_cases m; month_cases m'; try lia;
      cbn in *; destruct (time.isLeap y); cbn in *; lia.
  - lia.
Qed.

Lemma absDays_order t u :
  validDate t -> validDate u ->
  (time.absDays t < time.absDays u <-> dateBefore t u).
Proof.
  intros Ht Hu. split; [|now apply absDays_before].
  intros Hlt.
  destruct (Z.lt_trichotomy (time.year t) (time.year u)) as [H | [Hy | H]];
    [now left | | pose proof (absDays_before u t Hu Ht (or_introl H)); lia].
  destruct (Z.lt_trichotomy (time.month t) (time.month u)) as [H | [Hm | H]];
    [right; auto | |
     pose proof (absDays_before u t Hu Ht (or_intror (conj (eq_sym Hy) (or_introl H)))); lia].
  destruct (Z.lt_trichotomy (time.day t) (time.day u)) as [H | [Hd | H]];
    [right; auto | |
     pose proof (absDays_before u t Hu Ht
                   (or_intror (conj (eq_sym Hy) (or_intror (conj (eq_sym Hm) H))))); lia].
  destruct t, u. cbn in *. subst. lia.
Qed.

Lemma zero_valid : validDate time.zero.
Proof. unfold validDate. cbn. lia. Qed.

Lemma parseChunks_month_kept layout :
  forall value acc t rest,
    1 <= time.month acc <= 12 ->
    time.parseChunks layout value acc = (t, rest, None) ->
    1 <= time.month t <= 12.
Proof.
  induction layout as [|ch layout IH]; intros value acc t rest Hacc; cbn [time.parseChunks].
  - intros [= <- _]. exact Hacc.
  - destruct ch as [| | |c].
    + destruct (time.getyear value) as [[y v]|]; [|discriminate]. now apply IH.
    + destruct (time.getnum value) as [[m v]|]; [|discriminate].
      destruct ((m <=? 0) || (12 <? m)) eqn:Em; [discriminate|].
      apply orb_false_iff in Em as [Em1 Em2]. apply Z.leb_gt in Em1. apply Z.ltb_ge in Em2.
      apply IH. cbn. lia.
    + destruct (time.getnum value) as [[d v]|]; [|discriminate]. now apply IH.
    + destruct value as [|c' v]; [discriminate|].
      destruct (Ascii.eqb c c'); [|discriminate]. now apply IH.
Qed.

Lemma parseChunks_month_read layout :
  In time.stdZeroMonth layout ->
  forall value acc t rest,
    time.parseChunks layout value acc = (t, rest, None) ->
    1 <= time.month t <= 12.
Proof.
  induction layout as [|ch layout IH]; intros Hin value acc t rest; [destruct Hin|].
  cbn [time.parseChunks]. destruct ch as [| | |c].
  - destruct Hin as [Hin | Hin]; [discriminate|].
    destruct (time.getyear value) as [[y v]|]; [|discriminate]. now apply IH.
  - destruct (time.getnum value) as [[m v]|]; [|discriminate].
    destruct ((m <=? 0) || (12 <? m)) eqn:Em; [discriminate|].
    apply orb_false_iff in Em as [Em1 Em2]. apply Z.leb_gt in Em1. apply Z.ltb_ge in Em2.
    apply parseChunks_month_kept. cbn. lia.
  - destruct Hin as [Hin | Hin]; [discriminate|].
    destruct (time.getnum value) as [[d v]|]; [|discriminate]. now apply IH.
  - destruct Hin as [Hin | Hin]; [discriminate|].
    destruct value as [|c' v]; [discriminate|].
    destruct (Ascii.eqb c c'); [|discriminate]. now apply IH.
Qed.

(** What [Parse] returns for a layout with a month is a civil date: the
    date read, or the zero [Time]. *)
Lemma Parse_valid layout value :
  In time.stdZeroMonth layout -> validDate (fst (time.Parse layout value)).
Proof.
  intros Hin. unfold time.Parse.
  destruct (time.parseChunks layout value _) as [[t rest] [e|]] eqn:E; [apply zero_valid|].
  destruct (negb _); [apply zero_valid|].
  destruct ((time.day t <? 1) || (time.daysIn (time.month t) (time.year t) <? time.day t))
    eqn:Ed; [apply zero_valid|].
  apply orb_false_iff in Ed as [Ed1 Ed2]. apply Z.ltb_ge in Ed1, Ed2.
  pose proof (parseChunks_month_read layout Hin _ _ _ _ E).
  unfold validDate. cbn [fst]. lia.
Qed.

Lemma Parse_compact_valid value : validDate (fst (time.Parse time.layoutCompact value)).
Proof. apply Parse_valid. right. now left. Qed.

(** X6. For a civil date, the evaluator says that the trip runs exactly
    when some entry of the calendar has the service id of the trip, a start
    date that is the date or earlier in the order of the calendar, an end
    date that is the date or later, and the flag set that stands at the
    number of the weekday of the date (Sunday is 0). Both ends of the range
    count. A bound that [Parse] refuses stands for 1 January of year 1. *)
Theorem isValidTrip_calendar_range (trip : Trip) (date : time.Time)
    (calendars : list Calendar) :
  validDate date ->
  (isValidTrip trip date calendars = true <->
   exists cal,
     In cal calendars
     /\ cal_ServiceID cal = trip_ServiceID trip
     /\ dateUpTo (fst (time.Parse time.layoutCompact (cal_StartDate cal))) date
     /\ dateUpTo date (fst (time.Parse time.layoutCompact (cal_EndDate cal)))
     /\ Week_at (cal_Weekdays cal) (time.weekday date) = true).
Proof.
  intros Hdate. rewrite isValidTrip_true_iff.
  assert (G : forall cal,
             authorizes trip date cal = true <->
             cal_ServiceID cal = trip_ServiceID trip
             /\ dateUpTo (fst (time.Parse time.layoutCompact (cal_StartDate cal))) date
             /\ dateUpTo date (fst (time.Parse time.layoutCompact (cal_EndDate cal)))
             /\ Week_at (cal_Weekdays cal) (time.weekday date) = true).
  { intros cal. unfold authorizes, dateUpTo, time.Before, time.After.
    rewrite !andb_true_iff, negb_true_iff, orb_false_iff, String.eqb_eq, !Z.ltb_ge.
    rewrite <- !absDays_order by (assumption || apply Parse_compact_valid).
    intuition lia. }
  split; intros (cal & Hin & H); exists cal; (split; [assumption|]); now apply G.
Qed.

Lemma isValidTrip_calendar_range_witness :
  isValidTrip trip101 (time.mkTime 2024 12 31) [calWKDY] = true <->
  exists cal,
    In cal [calWKDY]
    /\ cal_ServiceID cal = trip_ServiceID trip101
    /\ dateUpTo (fst (time.Parse time.layoutCompact (cal_StartDate cal))) (time.mkTime 2024 12 31)
    /\ dateUpTo (time.mkTime 2024 12 31) (fst (time.Parse time.layoutCompact (cal_EndDate cal)))
    /\ Week_at (cal_Weekdays cal) (time.weekday (time.mkTime 2024 12 31)) = true.
Proof.
  apply isValidTrip_calendar_range. unfold validDate. cbn. lia.
Defined.

(** ** Reading a date and writing it back *)

Lemma isDigit_inv c :
  Bytes.isDigit c = true ->
  0 <= time.digitVal c <= 9 /\ c = Bytes.digitChar (time.digitVal c).
Proof.
  destruct c as [[] [] [] [] [] [] [] []]; intros H;
    try (vm_compute in H; discriminate H);
    (split; [vm_compute; split; discriminate | reflexivity]).
Qed.

Lemma digitVal_digitChar d : 0 <= d <= 9 -> time.digitVal (Bytes.digitChar d) = d.
Proof. intros H. digit_cases d; reflexivity. Qed.

Lemma fmtInteger_four_digits a b c d :
  0 <= a <= 9 -> 0 <= b <= 9 -> 0 <= c <= 9 -> 0 <= d <= 9 ->
  fmt.fmtInteger 4 (((a * 10 + b) * 10 + c) * 10 + d)
  = String (Bytes.digitChar a) (String (Bytes.digitChar b)
      (String (Bytes.digitChar c) (String (Bytes.digitChar d) EmptyString))).
Proof.
  intros Ha Hb Hc Hd.
  set (ds := [0; 1; 2; 3; 4; 5; 6; 7; 8; 9]).
  assert (T : forallb (fun a => forallb (fun b => forallb (fun c => forallb (fun d =>
                String.eqb (fmt.fmtInteger 4 (((a * 10 + b) * 10 + c) * 10 + d))
                  (String (Bytes.digitChar a) (String (Bytes.digitChar b)
                     (String (Bytes.digitChar c) (String (Bytes.digitChar d) EmptyString)))))
              ds) ds) ds) ds = true) by (vm_compute; reflexivity).
  assert (I : forall k, 0 <= k <= 9 -> In k ds).
  { intros k Hk. digit_cases k; simpl; tauto. }
  rewrite forallb_forall in T. specialize (T a (I a Ha)).
  rewrite forallb_forall in T. specialize (T b (I b Hb)).
  rewrite forallb_forall in T. specialize (T c (I c Hc)).
  rewrite forallb_forall in T. specialize (T d (I d Hd)).
  now apply String.eqb_eq.
Qed.

Lemma fmtInteger_two_digits a b :
  0 <= a <= 9 -> 0 <= b <= 9 ->
  fmt.fmtInteger 2 (a * 10 + b)
  = String (Bytes.digitChar a) (String (Bytes.digitChar b) EmptyString).
Proof. intros Ha Hb. digit_cases a; digit_cases b; reflexivity. Qed.

Lemma getyear_inv s y v :
  time.getyear s = Some (y, v) ->
  exists a b c d,
    (0 <= a <= 9 /\ 0 <= b <= 9 /\ 0 <= c <= 9 /\ 0 <= d <= 9)
    /\ s = String (Bytes.digitChar a) (String (Bytes.digitChar b)
             (String (Bytes.digitChar c) (String (Bytes.digitChar d) v)))
    /\ y = ((a * 10 + b) * 10 + c) * 10 + d.
Proof.
  unfold time.getyear. destruct s as [|a [|b [|c [|d r]]]]; try discriminate.
  destruct (Bytes.isDigit a) eqn:Ea; [|discriminate].
  destruct (Bytes.isDigit b) eqn:Eb; [|discriminate].
  destruct (Bytes.isDigit c) eqn:Ec; [|discriminate].
  destruct (Bytes.isDigit d) eqn:Ed; [|discriminate].
  cbn [andb]. intros [= <- <-].
  apply isDigit_inv in Ea as [Ha Ea], Eb as [Hb Eb], Ec as [Hc Ec], Ed as [Hd Ed].
  exists (time.digitVal a), (time.digitVal b), (time.digitVal c), (time.digitVal d).
  split; [auto|]. split; [congruence | reflexivity].
Qed.

Lemma getnum_inv s n v :
  time.getnum s = Some (n, v) ->
  exists a b,
    (0 <= a <= 9 /\ 0 <= b <= 9)
    /\ s = String (Bytes.digitChar a) (String (Bytes.digitChar b) v)
    /\ n = a * 10 + b.
Proof.
  unfold time.getnum. destruct s as [|a [|b r]]; try discriminate.
  destruct (Bytes.isDigit a) eqn:Ea; [|discriminate].
  destruct (Bytes.isDigit b) eqn:Eb; [|discriminate].
  cbn [andb]. intros [= <- <-].
  apply isDigit_inv in Ea as [Ha Ea], Eb as [Hb Eb].
  exists (time.digitVal a), (time.digitVal b).
  split; [auto|]. split; [congruence | reflexivity].
Qed.

Lemma getyear_digits a b c d v :
  0 <= a <= 9 -> 0 <= b <= 9 -> 0 <= c <= 9 -> 0 <= d <= 9 ->
  time.getyear (String (Bytes.digitChar a) (String (Bytes.digitChar b)
                  (String (Bytes.digitChar c) (String (Bytes.digitChar d) v))))
  = Some (((a * 10 + b) * 10 + c) * 10 + d, v).
Proof.
  intros Ha Hb Hc Hd. unfold time.getyear.
  rewrite !isDigit_digitChar, !digitVal_digitChar by assumption. reflexivity.
Qed.

Lemma getnum_digits a b v :
  0 <= a <= 9 -> 0 <= b <= 9 ->
  time.getnum (String (Bytes.digitChar a) (String (Bytes.digitChar b) v))
  = Some (a * 10 + b, v).
Proof.
  intros Ha Hb. unfold time.getnum.
  rewrite !isDigit_digitChar, !digitVal_digitChar by assumption. reflexivity.
Qed.

Lemma Parse_dashed_Format value t :
  time.Parse time.layoutDashed value = (t, None) -> time.Format t = value.
Proof.
  unfold time.Parse, time.layoutDashed. cbn [time.parseChunks].
  destruct (time.getyear value) as [[y v]|] eqn:Ey; [|discriminate].
  apply getyear_inv in Ey as (a & b & c & d & (Ha & Hb & Hc & Hd) & -> & ->).
  destruct v as [|c1 v]; [discriminate|].
  destruct (Ascii.eqb "-" c1) eqn:E1; [|discriminate].
  apply Ascii.eqb_eq in E1. subst c1.
  destruct (time.getnum v) as [[m v1]|] eqn:Em; [|discriminate].
  apply getnum_inv in Em as (e & f & (He & Hf) & -> & ->).
  destruct ((e * 10 + f <=? 0) || (12 <? e * 10 + f)); [discriminate|].
  destruct v1 as [|c2 v1]; [discriminate|].
  destruct (Ascii.eqb "-" c2) eqn:E2; [|discriminate].
  apply Ascii.eqb_eq in E2. subst c2.
  destruct (time.getnum v1) as [[n v2]|] eqn:En; [|discriminate].
  apply getnum_inv in En as (g & h & (Hg & Hh) & -> & ->).
  cbn [time.year time.month time.day].
  destruct (String.eqb v2 EmptyString) eqn:Ev; [|discriminate].
  apply String.eqb_eq in Ev. subst v2. cbn [negb].
  destruct (_ || _); [discriminate|].
  intros [= <-]. unfold time.Format. cbn [time.year time.month time.day].
  rewrite fmtInteger_four_digits, !fmtInteger_two_digits by assumption.
  reflexivity.
Qed.

(** X7. A string that [Parse] accepts with the layout ["2006-01-02"] is
    written back unchanged by [Format]; and a civil date of the years 0 to
    9999 that [Format] has written is read back by [Parse] as the same
    date. *)
Theorem Parse_Format_round_trip (value : string) (t : time.Time) :
  (time.Parse time.layoutDashed value = (t, None) -> time.Format t = value)
  /\ (validDate t -> 0 <= time.year t <= 9999 ->
      time.Parse time.layoutDashed (time.Format t) = (t, None)).
Proof.
  split; [apply Parse_dashed_Format|].
  destruct t as [y m d]. unfold validDate. cbn [time.year time.month time.day].
  intros [Hm Hd] Hy.
  assert (Hd31 : d <= 31).
  { unfold time.daysIn in Hd.
    destruct (m =? 2); [destruct (time.isLeap y)|destruct (_ || _)]; lia. }
  assert (Ey : y = (((y / 1000) * 10 + (y / 100) mod 10) * 10 + (y / 10) mod 10) * 10
                   + y mod 10) by (Z.div_mod_to_equations; lia).
  assert (Em : m = (m / 10) * 10 + m mod 10) by (Z.div_mod_to_equations; lia).
  assert (Ed : d = (d / 10) * 10 + d mod 10) by (Z.div_mod_to_equations; lia).
  assert (R : (0 <= y / 1000 <= 9 /\ 0 <= (y / 100) mod 10 <= 9
               /\ 0 <= (y / 10) mod 10 <= 9 /\ 0 <= y mod 10 <= 9)
              /\ (0 <= m / 10 <= 9 /\ 0 <= m mod 10 <= 9)
              /\ (0 <= d / 10 <= 9 /\ 0 <= d mod 10 <= 9))
    by (Z.div_mod_to_equations; lia).
  destruct R as ((Y1 & Y2 & Y3 & Y4) & (M1 & M2) & (D1 & D2)).
  unfold time.Format. cbn [time.year time.month time.day].
  rewrite Ey at 1. rewrite Em at 1. rewrite Ed at 1.
  rewrite fmtInteger_four_digits, !fmtInteger_two_digits by assumption.
  cbv [String.append].
  unfold time.Parse, time.layoutDashed. cbn [time.parseChunks].
  rewrite getyear_digits by assumption. rewrite Ascii.eqb_refl.
  rewrite getnum_digits by assumption. rewrite <- Em.
  destruct ((m <=? 0) || (12 <? m)) eqn:E1.
  { apply orb_true_iff in E1 as [E1 | E1]; [apply Z.leb_le in E1 | apply Z.ltb_lt in E1]; lia. }
  rewrite Ascii.eqb_refl. rewrite getnum_digits by assumption.
  rewrite <- Ed, <- Ey. cbn [time.year time.month time.day String.eqb negb].
  destruct ((d <? 1) || (time.daysIn m y <? d)) eqn:E2; [|reflexivity].
  apply orb_true_iff in E2 as [E2 | E2]; apply Z.ltb_lt in E2; lia.
Qed.

Lemma Parse_Format_round_trip_witness :
  time.Format (time.mkTime 2024 2 29) = "2024-02-29"
  /\ time.Parse time.layoutDashed (time.Format (time.mkTime 2024 2 29))
     = (time.mkTime 2024 2 29, None).
Proof.
  split.
  - refine (proj1 (Parse_Format_round_trip "2024-02-29" (time.mkTime 2024 2 29)) _).
    reflexivity.
  - refine (proj2 (Parse_Format_round_trip "2024-02-29" (time.mkTime 2024 2 29)) _ _).
    + unfold validDate. vm_compute. repeat split; discriminate.
    + cbn. lia.
Defined.

(** ** Splitting and joining *)

Lemma Split_nonempty s sep : Split s sep <> [].
Proof. intros H. pose proof (Split_length s sep) as L. rewrite H in L. discriminate. Qed.

Lemma Join_cons p q rest sep :
  Join (p :: q :: rest) sep = (p ++ String sep (Join (q :: rest) sep))%string.
Proof. reflexivity. Qed.

Lemma Join_Split s sep : Join (Split s sep) sep = s.
Proof.
  induction s as [|c r IH]; [reflexivity|].
  cbn [Split]. destruct (Ascii.eqb c sep) eqn:E.
  - apply Ascii.eqb_eq in E. subst c.
    pose proof (Split_nonempty r sep) as N.
    destruct (Split r sep) as [|p ps]; [congruence|].
    rewrite Join_cons, IH. reflexivity.
  - pose proof (Split_nonempty r sep) as N.
    destruct (Split r sep) as [|p [|q ps]]; [congruence | |].
    + simpl in *. now rewrite IH.
    + rewrite <- IH, !Join_cons. reflexivity.
Qed.

Lemma Split_pieces_free s sep : Forall (fun p => Count p sep = 0%nat) (Split s sep).
Proof.
  induction s as [|c r IH]; [repeat constructor|].
  cbn [Split]. destruct (Ascii.eqb c sep) eqn:E.
  - constructor; [reflexivity | assumption].
  - pose proof (Split_nonempty r sep) as N.
    destruct (Split r sep) as [|p ps]; [congruence|].
    inversion IH as [|? ? Hp Hps]; subst.
    constructor; [|assumption]. simpl. now rewrite E.
Qed.

(** X8. The pieces of [Split] hold no separator, there is one more of
    them than there are separators in the string, and joined with the
    separator they give the string back; and a list of such pieces, joined
    and split again, is the same list. *)
Theorem Split_Join_round_trip (s : string) (sep : ascii) (parts : list string) :
  Join (Split s sep) sep = s
  /\ Forall (fun p => Count p sep = 0%nat) (Split s sep)
  /\ length (Split s sep) = S (Count s sep)
  /\ (parts <> [] -> Forall (fun p => Count p sep = 0%nat) parts ->
      Split (Join parts sep) sep = parts).
Proof.
  split; [apply Join_Split|].
  split; [apply Split_pieces_free|].
  split; [apply Split_length|].
  intros Hne H. induction H as [|p rest Hp Hrest IH]; [congruence|].
  destruct rest as [|q rest].
  - simpl. now apply Split_no_sep.
  - rewrite Join_cons, Split_piece by assumption.
    rewrite IH by discriminate. reflexivity.
Qed.

Lemma Split_Join_round_trip_witness :
  Split (Join ["25"; "10"; "00"] Bytes.colon) Bytes.colon = ["25"; "10"; "00"].
Proof.
  refine (proj2 (proj2 (proj2
            (Split_Join_round_trip "25:10:00" Bytes.colon ["25"; "10"; "00"]))) _ _).
  - discriminate.
  - repeat constructor.
Defined.

(** ** What the loaders return *)

Lemma loadStops_loop_lookup rows :
  forall stops,
  exists loaded,
    loadStops_loop rows stops = Ok loaded
    /\ forall k,
         loaded !! k
         = match last (List.filter (fun s => String.eqb (stop_StopID s) k)
                         (map stopOf
                            (List.filter (fun r => negb (length r <? 4)%nat) rows))) with
           | Some s => Some s
           | None => stops !! k
           end.
Proof.
  induction rows as [|record rows IH]; intros stops.
  - exists stops. split; reflexivity.
  - cbn [loadStops_loop List.filter].
    destruct (length record <? 4)%nat eqn:E; cbn [negb]; [apply IH|].
    apply Nat.ltb_ge in E.
    assert (F : forall i, (i < 4)%nat -> field record i = Ok (nth i record "")).
    { intros i Hi. unfold field.
      destruct (lookup_lt_is_Some_2 record i) as [x Hx]; [lia|].
      rewrite Hx. f_equal. symmetry. now apply nth_lookup_Some. }
    rewrite !F by lia. cbn [mbind outcome_bind stop_StopID].
    destruct (IH (<[nth 0 record "" := mkStop (nth 0 record "") (nth 1 record "")
                                          (nth 2 record "") (nth 3 record "")]> stops))
      as (loaded & Hl & Hk).
    exists loaded. split; [exact Hl|].
    intros k. rewrite Hk. cbn [map List.filter]. fold (stopOf record).
    destruct (String.eqb (stop_StopID (stopOf record)) k) eqn:Ek.
    + rewrite last_cons. apply String.eqb_eq in Ek. cbn in Ek. subst k.
      destruct (last _); [reflexivity|]. apply lookup_insert_eq.
    + apply String.eqb_neq in Ek. cbn in Ek.
      destruct (last _); [reflexivity|]. now apply lookup_insert_ne.
Qed.

Lemma loadStops_loop_short rows stops :
  Forall (fun r => (length r < 4)%nat) rows -> loadStops_loop rows stops = Ok stops.
Proof.
  induction 1 as [|r rows Hr _ IH]; cbn [loadStops_loop]; [reflexivity|].
  apply Nat.ltb_lt in Hr. now rewrite Hr.
Qed.

Lemma sameWidth_rows header rows :
  sameWidth (header :: rows) = true <->
  Forall (fun r => length r = length header) rows.
Proof.
  cbn [sameWidth]. rewrite forallb_forall, List.Forall_forall.
  split; intros H r Hr; [apply Nat.eqb_eq | apply Nat.eqb_eq]; now apply H.
Qed.

(** X9. For a stops file in which the reader finds the records
    [header :: rows]: when some record has another number of fields than
    the header, [loadStops] returns the error of [ReadAll]. Otherwise, when
    the records have four fields or more, every data row is kept under its
    stop id, the stop found under an id is the one of the last row with that
    id, and an id no row carries is not in the table; when they have fewer
    than four fields, every data row is passed over and the table is empty.
    A file with no record at all makes [loadStops] panic. *)
Theorem loadStops_last_row_wins (header : list string) (rows : list (list string)) :
  (sameWidth (header :: rows) = false -> loadStops (ReadAll (header :: rows)) = Err)
  /\ (sameWidth (header :: rows) = true -> (4 <= length header)%nat ->
      exists stops,
        loadStops (ReadAll (header :: rows)) = Ok stops
        /\ forall k,
             stops !! k
             = last (List.filter (fun s => String.eqb (stop_StopID s) k) (map stopOf rows)))
  /\ (sameWidth (header :: rows) = true -> (length header < 4)%nat ->
      loadStops (ReadAll (header :: rows)) = Ok ∅)
  /\ loadStops (ReadAll []) = Panic
  /\ loadStops Unreadable = Err.
Proof.
  split; [|split; [|split; [|split; reflexivity]]].
  - intros H. unfold ReadAll. now rewrite H.
  - intros H Hlen. unfold ReadAll. rewrite H. apply sameWidth_rows in H.
    destruct (loadStops_loop_lookup rows ∅) as (stops & Hl & Hk).
    exists stops. split; [exact Hl|].
    intros k. rewrite Hk.
    assert (F : List.filter (fun r => negb (length r <? 4)%nat) rows = rows).
    { clear - H Hlen. induction H as [|r rows Hr _ IH]; cbn [List.filter]; [reflexivity|].
      destruct (length r <? 4)%nat eqn:E; [apply Nat.ltb_lt in E; lia|].
      cbn [negb]. now rewrite IH. }
    rewrite F. destruct (last _); [reflexivity | apply lookup_empty].
  - intros H Hlen. unfold ReadAll. rewrite H. apply sameWidth_rows in H.
    cbn [loadStops dataRows mbind outcome_bind]. apply loadStops_loop_short.
    eapply Forall_impl; [exact H|]. cbn. intros r Hr. lia.
Qed.

Lemma loadStops_last_row_wins_witness :
  exists stops,
    loadStops (ReadAll (stopsHeader :: [["A"; "Central"; "50.1"; "8.6"];
                                        ["A"; "Centre"; "50.1"; "8.6"]])) = Ok stops
    /\ forall k,
         stops !! k
         = last (List.filter (fun s => String.eqb (stop_StopID s) k)
                   (map stopOf [["A"; "Central"; "50.1"; "8.6"];
                                ["A"; "Centre"; "50.1"; "8.6"]])).
Proof.
  refine (proj1 (proj2 (loadStops_last_row_wins stopsHeader
                          [["A"; "Central"; "50.1"; "8.6"];
                           ["A"; "Centre"; "50.1"; "8.6"]])) _ _).
  - reflexivity.
  - simpl. lia.
Defined.

Lemma appendRows_outcome {A} (row : list string -> outcome A) (rowOf : list string -> A)
    (n : nat) :
  (forall r, (n <= length r)%nat -> row r = Ok (rowOf r)) ->
  (forall r, (length r < n)%nat -> row r = Panic) ->
  forall rows table,
    appendRows row rows table
    = if forallb (fun r => (n <=? length r)%nat) rows
      then Ok (table ++ map rowOf rows) else Panic.
Proof.
  intros Hok Hshort. induction rows as [|r rows IH]; intros table; cbn [appendRows forallb map].
  - now rewrite app_nil_r.
  - destruct (n <=? length r)%nat eqn:E.
    + apply Nat.leb_le in E. rewrite (Hok r E). cbn [mbind outcome_bind andb].
      rewrite IH. destruct (forallb _ rows); [now rewrite <- app_assoc | reflexivity].
    + apply Nat.leb_gt in E. now rewrite (Hshort r E).
Qed.

Lemma stopTimeRow_short r : (length r < 5)%nat -> stopTimeRow r = Panic.
Proof.
  intros H. destruct r as [|a [|b [|c [|d [|e r]]]]]; try reflexivity. simpl in H. lia.
Qed.

Lemma tripRow_outcome r :
  ((3 <= length r)%nat -> tripRow r = Ok (tripOf r))
  /\ ((length r < 3)%nat -> tripRow r = Panic).
Proof.
  destruct r as [|a [|b [|c r]]]; simpl; split; intros H; try reflexivity; lia.
Qed.

Lemma calendarRow_outcome r :
  ((10 <= length r)%nat -> calendarRow r = Ok (calendarOf r))
  /\ ((length r < 10)%nat -> calendarRow r = Panic).
Proof.
  destruct r as [|f0 [|f1 [|f2 [|f3 [|f4 [|f5 [|f6 [|f7 [|f8 [|f9 r]]]]]]]]]];
    simpl; split; intros H; try reflexivity; lia.
Qed.

Lemma readTable_sameWidth {A} (row : list string -> outcome A)
    (rowOf : list string -> A) (n : nat) header rows :
  (forall r, (n <= length r)%nat -> row r = Ok (rowOf r)) ->
  (forall r, (length r < n)%nat -> row r = Panic) ->
  sameWidth (header :: rows) = true ->
  readTable row (ReadAll (header :: rows))
  = if (n <=? length header)%nat then Ok (map rowOf rows)
    else match rows with
         | [] => Ok []
         | _ :: _ => Panic
         end.
Proof.
  intros Hok Hshort H. unfold ReadAll. rewrite H. apply sameWidth_rows in H.
  unfold readTable. cbn [dataRows mbind outcome_bind].
  rewrite (appendRows_outcome row rowOf n Hok Hshort). cbn [app].
  destruct (n <=? length header)%nat eqn:E.
  - replace (forallb (fun r => (n <=? length r)%nat) rows) with true; [reflexivity|].
    symmetry. apply forallb_forall. intros r Hr.
    rewrite List.Forall_forall in H. now rewrite (H r Hr).
  - destruct rows as [|r rows]; [reflexivity|].
    inversion H as [|? ? Hr _]; subst. cbn [forallb]. now rewrite Hr, E.
Qed.

Lemma readTable_ragged {A} (row : list string -> outcome A) raw :
  sameWidth raw = false -> readTable row (ReadAll raw) = Err.
Proof. intros H. unfold ReadAll. now rewrite H. Qed.

(** X10. For a file in which the reader finds the records
    [header :: rows], the loaders of the stop times, the trips and the
    calendar behave alike, with five, three and ten fields. When some
    record has another number of fields than the header, the loader returns
    the error of [ReadAll]. Otherwise, when the records have the fields the
    loader reads, the table has one row per data row in the order of the
    file; when they have fewer, the loader panics at the first data row,
    and returns an empty table when there is none. A file with no record at
    all makes the loaders panic. *)
Theorem loaders_rows_or_panic (header : list string) (rows : list (list string)) :
  (sameWidth (header :: rows) = false ->
   loadStopTimes (ReadAll (header :: rows)) = Err
   /\ loadTrips (ReadAll (header :: rows)) = Err
   /\ loadCalendar (ReadAll (header :: rows)) = Err)
  /\ (sameWidth (header :: rows) = true ->
      loadStopTimes (ReadAll (header :: rows))
      = (if (5 <=? length header)%nat then Ok (map stopTimeOf rows)
         else match rows with [] => Ok [] | _ :: _ => Panic end)
      /\ loadTrips (ReadAll (header :: rows))
         = (if (3 <=? length header)%nat then Ok (map tripOf rows)
            else match rows with [] => Ok [] | _ :: _ => Panic end)
      /\ loadCalendar (ReadAll (header :: rows))
         = (if (10 <=? length header)%nat then Ok (map calendarOf rows)
            else match rows with [] => Ok [] | _ :: _ => Panic end))
  /\ (loadStopTimes (ReadAll []) = Panic /\ loadTrips (ReadAll []) = Panic
      /\ loadCalendar (ReadAll []) = Panic)
  /\ (loadStopTimes Unreadable = Err /\ loadTrips Unreadable = Err
      /\ loadCalendar Unreadable = Err).
Proof.
  split; [|split; [|split; repeat split; reflexivity]].
  - intros H. repeat split; now apply readTable_ragged.
  - intros H. unfold loadStopTimes, loadTrips, loadCalendar. split; [|split].
    + apply (readTable_sameWidth stopTimeRow stopTimeOf 5);
        [apply stopTimeRow_ok | apply stopTimeRow_short | exact H].
    + apply (readTable_sameWidth tripRow tripOf 3);
        [intros r; apply tripRow_outcome | intros r; apply tripRow_outcome | exact H].
    + apply (readTable_sameWidth calendarRow calendarOf 10);
        [intros r; apply calendarRow_outcome | intros r; apply calendarRow_outcome | exact H].
Qed.

Lemma loaders_rows_or_panic_witness :
  loadTrips (ReadAll (tripsHeader :: [["R"; "WKDY"; "5"]; ["R"; "WKDY"; "6"]]))
  = Ok [mkTrip "5" "R" "WKDY"; mkTrip "6" "R" "WKDY"]
  /\ loadStopTimes (ReadAll (["trip_id"; "time"] :: [["5"; "08:00:00"]])) = Panic
  /\ loadCalendar (ReadAll (calendarHeader :: [["WKDY"; "1"]])) = Err.
Proof.
  split; [|split].
  - destruct (loaders_rows_or_panic tripsHeader [["R"; "WKDY"; "5"]; ["R"; "WKDY"; "6"]])
      as (_ & H & _).
    destruct (H ltac:(reflexivity)) as (_ & Ht & _). exact Ht.
  - destruct (loaders_rows_or_panic ["trip_id"; "time"] [["5"; "08:00:00"]])
      as (_ & H & _).
    destruct (H ltac:(reflexivity)) as (Hst & _). exact Hst.
  - destruct (loaders_rows_or_panic calendarHeader [["WKDY"; "1"]]) as (H & _).
    destruct (H ltac:(reflexivity)) as (_ & _ & Hc). exact Hc.
Defined.

(** ** What the handlers answer *)

(** X11. Either handler answers that the date is malformed, with the
    status 400, exactly when [Parse] refuses the date: it does so whatever
    the files hold, and for no other reason. *)
Theorem handlers_bad_date (mapRange : gmap string Stop -> list Stop) (fs : Files)
    (trainNumber departureStation arrivalStation date : string) :
  (handleGetTrainInfo fs trainNumber date
   = HttpError "Invalid date format. Use YYYY-MM-DD" StatusBadRequest
   <-> snd (time.Parse time.layoutDashed date) <> None)
  /\ (handleGetTrainList mapRange fs departureStation arrivalStation date
      = HttpError "Invalid date format. Use YYYY-MM-DD" StatusBadRequest
      <-> snd (time.Parse time.layoutDashed date) <> None).
Proof.
  unfold handleGetTrainInfo, handleGetTrainList.
  destruct (time.Parse time.layoutDashed date) as [parsedDate [e|]]; cbn [snd].
  - split; (split; [discriminate | reflexivity]).
  - split; (split; [|congruence]); intros H; exfalso.
    + destruct (loadStops (stops_txt fs)) as [stops| |];
        cbn [mbind Response_bind orServerError] in H; try discriminate H.
      destruct (loadStopTimes (stop_times_txt fs)) as [stopTimes| |];
        cbn [mbind Response_bind orServerError] in H; try discriminate H.
      destruct (loadTrips (trips_txt fs)) as [trips| |];
        cbn [mbind Response_bind orServerError] in H; try discriminate H.
      destruct (loadCalendar (calendar_txt fs)) as [calendars| |];
        cbn [mbind Response_bind orServerError] in H; try discriminate H.
      destruct (_ =? _)%nat; discriminate H.
    + destruct (loadStops (stops_txt fs)) as [stops| |];
        cbn [mbind Response_bind orServerError] in H; try discriminate H.
      destruct (loadStopTimes (stop_times_txt fs)) as [stopTimes| |];
        cbn [mbind Response_bind orServerError] in H; try discriminate H.
      destruct (loadTrips (trips_txt fs)) as [trips| |];
        cbn [mbind Response_bind orServerError] in H; try discriminate H.
      destruct (loadCalendar (calendar_txt fs)) as [calendars| |];
        cbn [mbind Response_bind orServerError] in H; try discriminate H.
      destruct (resolveStations _ _ _) as [departureID arrivalID].
      destruct (_ || _); [discriminate H|].
      destruct (_ =? _)%nat; discriminate H.
Qed.

Lemma shown_time_not_empty t :
  (if String.eqb t "" then "N/A" else AdjustTime t) <> "".
Proof.
  destruct (String.eqb t "") eqn:E; [discriminate|].
  rewrite <- AdjustTime_empty in E. now apply String.eqb_neq.
Qed.

(** X12. A body that [handleGetTrainInfo] sends carries the train number
    and the date as they were asked, and no stop of it has an empty arrival
    or departure time. *)
Theorem handleGetTrainInfo_body (fs : Files) (trainNumber date : string)
    (body : TrainInfoResponse) :
  handleGetTrainInfo fs trainNumber date = Json body ->
  tir_TrainNumber body = trainNumber
  /\ tir_Date body = date
  /\ forall stop, In stop (tir_Stops body) ->
       ts_ArrivalTime stop <> "" /\ ts_DepartureTime stop <> "".
Proof.
  unfold handleGetTrainInfo.
  destruct (time.Parse time.layoutDashed date) as [parsedDate [e|]]; [discriminate|].
  destruct (loadStops (stops_txt fs)) as [stops| |];
    cbn [mbind Response_bind orServerError]; try discriminate.
  destruct (loadStopTimes (stop_times_txt fs)) as [stopTimes| |];
    cbn [mbind Response_bind orServerError]; try discriminate.
  destruct (loadTrips (trips_txt fs)) as [trips| |];
    cbn [mbind Response_bind orServerError]; try discriminate.
  destruct (loadCalendar (calendar_txt fs)) as [calendars| |];
    cbn [mbind Response_bind orServerError]; try discriminate.
  destruct (_ =? _)%nat; [discriminate|].
  intros [= <-]. cbn [tir_TrainNumber tir_Date tir_Stops].
  split; [reflexivity|]. split; [reflexivity|].
  intros stop Hin. unfold stopsWithTimes in Hin. rewrite stopsWithTimes_from in Hin.
  cbn [app] in Hin. apply in_flat_map in Hin as (trip & _ & Hin).
  apply in_map_iff in Hin as (st & <- & _).
  destruct (trainStopOf_fields stops st) as (_ & -> & ->).
  split; apply shown_time_not_empty.
Qed.

Lemma handleGetTrainInfo_body_witness :
  tir_TrainNumber (mkTrainInfoResponse "5" "2024-06-10"
                     [mkTrainStop "Central" "N/A" "08:00:00";
                      mkTrainStop "North" "08:30:00" "08:31:00"]) = "5"
  /\ tir_Date (mkTrainInfoResponse "5" "2024-06-10"
                 [mkTrainStop "Central" "N/A" "08:00:00";
                  mkTrainStop "North" "08:30:00" "08:31:00"]) = "2024-06-10"
  /\ forall stop,
       In stop (tir_Stops (mkTrainInfoResponse "5" "2024-06-10"
                             [mkTrainStop "Central" "N/A" "08:00:00";
                              mkTrainStop "North" "08:30:00" "08:31:00"])) ->
       ts_ArrivalTime stop <> "" /\ ts_DepartureTime stop <> "".
Proof.
  apply (handleGetTrainInfo_body feed "5" "2024-06-10").
  vm_compute. reflexivity.
Defined.

(** X13. A body that [handleGetTrainList] sends carries the two station
    names and the date as they were asked, and at least one train; every
    train of it has a departure and an arrival time that are not empty. *)
Theorem handleGetTrainList_body (mapRange : gmap string Stop -> list Stop) (fs : Files)
    (departureStation arrivalStation date : string) (body : TrainListBody) :
  handleGetTrainList mapRange fs departureStation arrivalStation date = Json body ->
  tl_DepartureStation body = departureStation
  /\ tl_ArrivalStation body = arrivalStation
  /\ tl_Date body = date
  /\ tl_Trains body <> []
  /\ forall e, In e (tl_Trains body) ->
       ti_DepartureTime e <> "" /\ ti_ArrivalTime e <> "".
Proof.
  unfold handleGetTrainList.
  destruct (time.Parse time.layoutDashed date) as [parsedDate [e|]] eqn:EP; [discriminate|].
  destruct (loadStops (stops_txt fs)) as [stops| |];
    cbn [mbind Response_bind orServerError]; try discriminate.
  destruct (loadStopTimes (stop_times_txt fs)) as [stopTimes| |];
    cbn [mbind Response_bind orServerError]; try discriminate.
  destruct (loadTrips (trips_txt fs)) as [trips| |];
    cbn [mbind Response_bind orServerError]; try discriminate.
  destruct (loadCalendar (calendar_txt fs)) as [calendars| |];
    cbn [mbind Response_bind orServerError]; try discriminate.
  destruct (resolveStations _ _ _) as [departureID arrivalID].
  destruct (_ || _); [discriminate|].
  destruct (_ =? _)%nat eqn:El; [discriminate|].
  intros [= <-]. cbn [tl_DepartureStation tl_ArrivalStation tl_Date tl_Trains].
  split; [reflexivity|]. split; [reflexivity|].
  split; [now apply Parse_dashed_Format|].
  split.
  - intros Hnil. rewrite Hnil in El. discriminate.
  - intros e Hin. apply trainsWithStops_from in Hin.
    destruct Hin as [[] | (trip & _ & _ & _ & _ & Hd & Ha & _ & ->)].
    split; assumption.
Qed.

Lemma handleGetTrainList_body_witness :
  tl_Date (mkTrainListBody "Central" "North" "2024-06-10"
             [mkTrainInfo "5" "08:00:00" "08:30:00"]) = "2024-06-10"
  /\ tl_Trains (mkTrainListBody "Central" "North" "2024-06-10"
                  [mkTrainInfo "5" "08:00:00" "08:30:00"]) <> [].
Proof.
  destruct (handleGetTrainList_body mapOrder feed "Central" "North" "2024-06-10"
              (mkTrainListBody "Central" "North" "2024-06-10"
                 [mkTrainInfo "5" "08:00:00" "08:30:00"])) as (_ & _ & H1 & H2 & _).
  - vm_compute. reflexivity.
  - split; assumption.
Defined.

(** X14. Every train on the list of [handleGetTrainList] has the id of a
    row of the trips table that runs on the date: a trip that the
    evaluator refuses is never listed. *)
Theorem handleGetTrainList_lists_valid_trips
    (mapRange : gmap string Stop -> list Stop) (fs : Files)
    (departureStation arrivalStation date : string) (parsedDate : time.Time)
    (stops : gmap string Stop) (stopTimes : list StopTime)
    (trips : list Trip) (calendars : list Calendar)
    (body : TrainListBody) (e : TrainInfo) :
  time.Parse time.layoutDashed date = (parsedDate, None) ->
  loadStops (stops_txt fs) = Ok stops ->
  loadStopTimes (stop_times_txt fs) = Ok stopTimes ->
  loadTrips (trips_txt fs) = Ok trips ->
  loadCalendar (calendar_txt fs) = Ok calendars ->
  handleGetTrainList mapRange fs departureStation arrivalStation date = Json body ->
  In e (tl_Trains body) ->
  exists trip,
    In trip trips /\ trip_TripID trip = ti_TripID e
    /\ isValidTrip trip parsedDate calendars = true.
Proof.
  intros Hd Hs Hst Ht Hc Hjson Hin.
  rewrite (handleGetTrainList_loaded _ _ _ _ _ _ _ _ _ _ _ Hd Hs Hst Ht Hc Hjson) in Hin.
  apply trainsWithStops_from in Hin.
  destruct Hin as [[] | (trip & Htrip & Hvalid & _ & _ & _ & _ & _ & ->)].
  exists trip. auto.
Qed.

Lemma handleGetTrainList_lists_valid_trips_witness :
  exists trip,
    In trip [mkTrip "5" "R" "WKDY"]
    /\ trip_TripID trip = ti_TripID (mkTrainInfo "5" "09:00:00" "09:30:00")
    /\ isValidTrip trip (time.mkTime 2024 6 10) [calWKDY] = true.
Proof.
  refine (handleGetTrainList_lists_valid_trips mapOrder feedLoop "Central" "North"
            "2024-06-10" (time.mkTime 2024 6 10) stopsTable loopTable
            [mkTrip "5" "R" "WKDY"] [calWKDY]
            (mkTrainListBody "Central" "North" "2024-06-10"
               [mkTrainInfo "5" "09:00:00" "09:30:00"])
            (mkTrainInfo "5" "09:00:00" "09:30:00") _ _ _ _ _ _ _);
    try (vm_compute; reflexivity).
  left. reflexivity.
Defined.

Lemma resolveStations_same_from visited station id :
  let r := fold_left (fun ids stop =>
      let departureID :=
        if String.eqb (stop_StopName stop) station then stop_StopID stop else fst ids in
      let arrivalID :=
        if String.eqb (stop_StopName stop) station then stop_StopID stop else snd ids in
      (departureID, arrivalID)) visited (id, id) in
  fst r = snd r.
Proof.
  revert id. induction visited as [|stop visited IH]; intros id; cbn [fold_left fst snd].
  - reflexivity.
  - destruct (String.eqb (stop_StopName stop) station); apply IH.
Qed.

Lemma trainsWithStops_same parsedDate calendars stopTimes trips stationID acc :
  fold_left (tripStep parsedDate calendars stopTimes stationID stationID) trips acc = acc.
Proof.
  revert acc. induction trips as [|trip trips IH]; intros acc; cbn [fold_left]; [reflexivity|].
  rewrite IH. unfold tripStep.
  destruct (negb _); [reflexivity|].
  destruct (_ && _); [|reflexivity].
  now rewrite Z.ltb_irrefl.
Qed.

(** X15. Asked for the trains from a station to the same station,
    [handleGetTrainList] never sends a list: no trip has a position at a
    stop that is before itself. With the date read and the tables loaded
    the answer has the status 404. *)
Theorem handleGetTrainList_same_station (mapRange : gmap string Stop -> list Stop)
    (fs : Files) (station date : string) :
  (forall body, handleGetTrainList mapRange fs station station date <> Json body)
  /\ (forall parsedDate stops stopTimes trips calendars,
        time.Parse time.layoutDashed date = (parsedDate, None) ->
        loadStops (stops_txt fs) = Ok stops ->
        loadStopTimes (stop_times_txt fs) = Ok stopTimes ->
        loadTrips (trips_txt fs) = Ok trips ->
        loadCalendar (calendar_txt fs) = Ok calendars ->
        exists msg,
          handleGetTrainList mapRange fs station station date = HttpError msg StatusNotFound).
Proof.
  assert (G : forall parsedDate stops stopTimes trips calendars,
             exists msg,
               (let '(departureID, arrivalID) :=
                  resolveStations (mapRange stops) station station in
                if String.eqb departureID "" || String.eqb arrivalID "" then
                  HttpError "Departure or Arrival station not found" StatusNotFound
                else
                  let trains := trainsWithStops parsedDate calendars stopTimes trips
                                  departureID arrivalID in
                  if (length trains =? 0)%nat then
                    HttpError "No trains found containing both specified stations"
                      StatusNotFound
                  else
                    Json (mkTrainListBody station station (time.Format parsedDate) trains))
               = HttpError msg StatusNotFound).
  { intros parsedDate stops stopTimes trips calendars.
    pose proof (resolveStations_same_from (mapRange stops) station "") as E.
    cbv zeta in E. fold (resolveStations (mapRange stops) station station) in E.
    destruct (resolveStations (mapRange stops) station station) as [departureID arrivalID].
    cbn [fst snd] in E. subst arrivalID.
    destruct (_ || _); [eauto|].
    unfold trainsWithStops. rewrite trainsWithStops_same. cbn. eauto. }
  split.
  - intros body. unfold handleGetTrainList.
    destruct (time.Parse time.layoutDashed date) as [parsedDate [e|]]; [discriminate|].
    destruct (loadStops (stops_txt fs)) as [stops| |];
      cbn [mbind Response_bind orServerError]; try discriminate.
    destruct (loadStopTimes (stop_times_txt fs)) as [stopTimes| |];
      cbn [mbind Response_bind orServerError]; try discriminate.
    destruct (loadTrips (trips_txt fs)) as [trips| |];
      cbn [mbind Response_bind orServerError]; try discriminate.
    destruct (loadCalendar (calendar_txt fs)) as [calendars| |];
      cbn [mbind Response_bind orServerError]; try discriminate.
    destruct (G parsedDate stops stopTimes trips calendars) as [msg E]. intros H.
    assert (X : Json body = HttpError msg StatusNotFound) by (rewrite <- H; exact E).
    discriminate X.
  - intros parsedDate stops stopTimes trips calendars Hd Hs Hst Ht Hc.
    unfold handleGetTrainList. rewrite Hd, Hs, Hst, Ht, Hc.
    cbn [mbind Response_bind orServerError].
    exact (G parsedDate stops stopTimes trips calendars).
Qed.

Lemma handleGetTrainList_same_station_witness :
  exists msg,
    handleGetTrainList mapOrder feed "Central" "Central" "2024-06-10"
    = HttpError msg StatusNotFound.
Proof.
  refine (proj2 (handleGetTrainList_same_station mapOrder feed "Central" "2024-06-10")
            (time.mkTime 2024 6 10) stopsTable
            [mkStopTime "5" "A" "" "08:00:00" 1; mkStopTime "5" "B" "08:30:00" "08:31:00" 2]
            [mkTrip "5" "R" "WKDY"] [calWKDY] _ _ _ _ _);
    vm_compute; reflexivity.
Defined.

Section UnknownStation.

Variable mapRange : gmap string Stop -> list Stop.
Hypothesis mapRange_perm : forall m, mapRange m ≡ₚ (map_to_list m).*2.

(** X16. When no stop of the table has the name asked for as the
    departure station, or none has the name asked for as the arrival
    station, [handleGetTrainList] answers that the station is not found,
    with the status 404, in whatever order the stops are visited. *)
Theorem handleGetTrainList_unknown_station
    (fs : Files) (departureStation arrivalStation date : string) (parsedDate : time.Time)
    (stops : gmap string Stop) (stopTimes : list StopTime)
    (trips : list Trip) (calendars : list Calendar) :
  time.Parse time.layoutDashed date = (parsedDate, None) ->
  loadStops (stops_txt fs) = Ok stops ->
  loadStopTimes (stop_times_txt fs) = Ok stopTimes ->
  loadTrips (trips_txt fs) = Ok trips ->
  loadCalendar (calendar_txt fs) = Ok calendars ->
  (forall k stop, stops !! k = Some stop -> stop_StopName stop <> departureStation)
  \/ (forall k stop, stops !! k = Some stop -> stop_StopName stop <> arrivalStation) ->
  handleGetTrainList mapRange fs departureStation arrivalStation date
  = HttpError "Departure or Arrival station not found" StatusNotFound.
Proof.
  intros Hd Hs Hst Ht Hc Hno. unfold handleGetTrainList.
  rewrite Hd, Hs, Hst, Ht, Hc. cbn [mbind Response_bind orServerError].
  pose proof (resolveStations_in_table mapRange mapRange_perm stops
                departureStation arrivalStation) as R.
  cbv zeta in R.
  destruct (resolveStations (mapRange stops) departureStation arrivalStation)
    as [departureID arrivalID].
  cbn [fst snd] in R. destruct R as [Rd Ra].
  destruct (String.eqb departureID "") eqn:Ed; [reflexivity|].
  destruct (String.eqb arrivalID "") eqn:Ea; [reflexivity|].
  exfalso. apply String.eqb_neq in Ed, Ea.
  destruct (Rd Ed) as (k & stop & Hk & Hn & _).
  destruct (Ra Ea) as (k' & stop' & Hk' & Hn' & _).
  destruct Hno as [Hno | Hno]; [apply (Hno k stop Hk Hn) | apply (Hno k' stop' Hk' Hn')].
Qed.

End UnknownStation.

Lemma handleGetTrainList_unknown_station_witness :
  handleGetTrainList mapOrder feed "Central" "South" "2024-06-10"
  = HttpError "Departure or Arrival station not found" StatusNotFound.
Proof.
  refine (handleGetTrainList_unknown_station mapOrder _ feed "Central" "South" "2024-06-10"
            (time.mkTime 2024 6 10) stopsTable
            [mkStopTime "5" "A" "" "08:00:00" 1; mkStopTime "5" "B" "08:30:00" "08:31:00" 2]
            [mkTrip "5" "R" "WKDY"] [calWKDY] _ _ _ _ _ _);
    [intros m; reflexivity | try (vm_compute; reflexivity) ..].
  right. intros k stop Hk.
  unfold stopsTable in Hk. apply lookup_insert_Some in Hk as [[_ <-] | [_ Hk]];
    [discriminate|].
  apply lookup_insert_Some in Hk as [[_ <-] | [_ Hk]]; [discriminate|].
  rewrite lookup_empty in Hk. discriminate.
Defined.

(** ** Trips that are listed *)








(** ** [Atoi] on decimal numbers *)

Lemma isDigit_sub c :
  Bytes.isDigit c = true ->
  Bytes.sub c 48 = Bytes.code c - 48 /\ 0 <= Bytes.code c - 48 <= 9.
Proof.
  unfold Bytes.isDigit, Bytes.sub. intros H.
  apply andb_true_iff in H as [H1 H2]. apply Z.leb_le in H1, H2.
  rewrite Z.mod_small by lia. lia.
Qed.

Lemma isDigit_not_sign c :
  Bytes.isDigit c = true ->
  Ascii.eqb c "-" = false /\ Ascii.eqb c "+" = false /\ Ascii.eqb c Bytes.colon = false.
Proof.
  intros H. apply isDigit_inv in H as [Hk ->]. now apply digitChar_not_sign.
Qed.

Lemma decimalFrom_ge s n : allDigits s = true -> 0 <= n -> n <= decimalFrom s n.
Proof.
  revert n. induction s as [|c r IH]; intros n Hs Hn; cbn [decimalFrom]; [lia|].
  cbn [allDigits] in Hs. apply andb_true_iff in Hs as [Hc Hr].
  apply isDigit_sub in Hc as [_ Hc].
  specialize (IH (n * 10 + (Bytes.code c - 48)) Hr). lia.
Qed.

Lemma fastLoop_decimal s n :
  allDigits s = true -> strconv.fastLoop s n = Some (decimalFrom s n).
Proof.
  revert n. induction s as [|c r IH]; intros n Hs; cbn [strconv.fastLoop decimalFrom];
    [reflexivity|].
  cbn [allDigits] in Hs. apply andb_true_iff in Hs as [Hc Hr].
  apply isDigit_sub in Hc as [-> Hc].
  destruct (9 <? Bytes.code c - 48) eqn:E; [apply Z.ltb_lt in E; lia|].
  now apply IH.
Qed.

Lemma uintLoop_decimal s n :
  allDigits s = true -> 0 <= n <= strconv.maxUint64 ->
  strconv.uintLoop s n
  = if decimalFrom s n <=? strconv.maxUint64
    then (decimalFrom s n, None) else (strconv.maxUint64, Some strconv.ErrRange).
Proof.
  revert n. induction s as [|c r IH]; intros n Hs Hn; cbn [strconv.uintLoop decimalFrom].
  - destruct (n <=? strconv.maxUint64) eqn:E; [reflexivity | apply Z.leb_gt in E; lia].
  - cbn [allDigits] in Hs. apply andb_true_iff in Hs as [Hc Hr].
    rewrite Hc. cbn [negb]. apply isDigit_sub in Hc as [-> Hc].
    pose proof (decimalFrom_ge r (n * 10 + (Bytes.code c - 48)) Hr) as G.
    unfold strconv.maxUint64 in *.
    change (2 ^ 64 - 1) with 18446744073709551615 in *.
    change (18446744073709551615 / 10 + 1) with 1844674407370955162.
    change (2 ^ 64) with 18446744073709551616.
    destruct (1844674407370955162 <=? n) eqn:E1.
    { apply Z.leb_le in E1.
      destruct (_ <=? 18446744073709551615) eqn:E; [apply Z.leb_le in E; lia | reflexivity]. }
    apply Z.leb_gt in E1.
    destruct (Z.le_gt_cases (n * 10 + (Bytes.code c - 48)) 18446744073709551615) as [Hle | Hgt].
    + rewrite Z.mod_small by lia.
      destruct (n * 10 + (Bytes.code c - 48) <? n * 10) eqn:E2; [apply Z.ltb_lt in E2; lia|].
      destruct (18446744073709551615 <? n * 10 + (Bytes.code c - 48)) eqn:E3;
        [apply Z.ltb_lt in E3; lia|].
      cbn [orb]. apply IH; [assumption | lia].
    + assert (M : (n * 10 + (Bytes.code c - 48)) mod 18446744073709551616
                  = n * 10 + (Bytes.code c - 48) - 18446744073709551616).
      { symmetry. apply Z.mod_unique_pos with (q := 1); lia. }
      rewrite M.
      destruct (_ <? n * 10) eqn:E2; [|apply Z.ltb_ge in E2; lia].
      cbn [orb].
      destruct (_ <=? 18446744073709551615) eqn:E; [apply Z.leb_le in E; lia | reflexivity].
Qed.

Lemma allDigits_length_bound s :
  allDigits s = true -> 0 <= decimal s < 10 ^ Z.of_nat (String.length s).
Proof.
  intros H. pose proof (fastLoop_bound s 0 (decimal s)) as B.
  rewrite Z.add_0_l, Z.mul_1_l in B. apply B; [lia|]. now apply fastLoop_decimal.
Qed.

Lemma ParseInt_digits ds :
  ds <> EmptyString -> allDigits ds = true ->
  strconv.ParseInt ds
  = (if decimal ds <? 2 ^ 63 then (decimal ds, None)
     else (2 ^ 63 - 1, Some strconv.ErrRange))
  /\ strconv.ParseInt (String "+" ds)
     = (if decimal ds <? 2 ^ 63 then (decimal ds, None)
        else (2 ^ 63 - 1, Some strconv.ErrRange))
  /\ strconv.ParseInt (String "-" ds)
     = (if decimal ds <=? 2 ^ 63 then (- decimal ds, None)
        else (- 2 ^ 63, Some strconv.ErrRange)).
Proof.
  intros Hne Hds.
  assert (U : strconv.ParseUint ds
              = if decimal ds <=? strconv.maxUint64
                then (decimal ds, None) else (strconv.maxUint64, Some strconv.ErrRange)).
  { unfold strconv.ParseUint. destruct ds as [|c r]; [congruence|].
    apply uintLoop_decimal; [assumption | unfold strconv.maxUint64; lia]. }
  pose proof (decimalFrom_ge ds 0 Hds (Z.le_refl 0)) as D0. fold (decimal ds) in D0.
  assert (Hc : exists c r, ds = String c r /\ Bytes.isDigit c = true).
  { destruct ds as [|c r]; [congruence|]. cbn [allDigits] in Hds.
    apply andb_true_iff in Hds as [Hc _]. eauto. }
  destruct Hc as (c & r & Eds & Hc). destruct (isDigit_not_sign c Hc) as (Hm & Hp & _).
  unfold strconv.ParseInt. cbn [Ascii.eqb Bool.eqb]. rewrite Eds at 1. rewrite Hp, Hm.
  rewrite U. unfold strconv.IntSize, strconv.maxUint64.
  change (64 - 1) with 63. change (2 ^ 64 - 1) with 18446744073709551615.
  change (2 ^ 63) with 9223372036854775808.
  destruct (decimal ds <=? 18446744073709551615) eqn:E; cbn [negb andb].
  - apply Z.leb_le in E. repeat split.
    + destruct (9223372036854775808 <=? decimal ds) eqn:E1;
        destruct (decimal ds <? 9223372036854775808) eqn:E2; try reflexivity;
        [apply Z.leb_le in E1; apply Z.ltb_lt in E2 | apply Z.leb_gt in E1; apply Z.ltb_ge in E2];
        lia.
    + destruct (9223372036854775808 <=? decimal ds) eqn:E1;
        destruct (decimal ds <? 9223372036854775808) eqn:E2; try reflexivity;
        [apply Z.leb_le in E1; apply Z.ltb_lt in E2 | apply Z.leb_gt in E1; apply Z.ltb_ge in E2];
        lia.
    + destruct (9223372036854775808 <? decimal ds) eqn:E1;
        destruct (decimal ds <=? 9223372036854775808) eqn:E2; try reflexivity;
        [apply Z.ltb_lt in E1; apply Z.leb_le in E2 | apply Z.ltb_ge in E1; apply Z.leb_gt in E2];
        lia.
  - apply Z.leb_gt in E.
    destruct (decimal ds <? 9223372036854775808) eqn:E2; [apply Z.ltb_lt in E2; lia|].
    destruct (decimal ds <=? 9223372036854775808) eqn:E3; [apply Z.leb_le in E3; lia|].
    repeat split; reflexivity.
Qed.

Lemma Atoi_digits_signed ds :
  ds <> EmptyString -> allDigits ds = true ->
  strconv.Atoi ds
  = (if decimal ds <? 2 ^ 63 then (decimal ds, None)
     else (2 ^ 63 - 1, Some strconv.ErrRange))
  /\ strconv.Atoi (String "+" ds)
     = (if decimal ds <? 2 ^ 63 then (decimal ds, None)
        else (2 ^ 63 - 1, Some strconv.ErrRange))
  /\ strconv.Atoi (String "-" ds)
     = (if decimal ds <=? 2 ^ 63 then (- decimal ds, None)
        else (- 2 ^ 63, Some strconv.ErrRange)).
Proof.
  intros Hne Hds.
  destruct (ParseInt_digits ds Hne Hds) as (P0 & P1 & P2).
  pose proof (allDigits_length_bound ds Hds) as B.
  pose proof (fastLoop_decimal ds 0 Hds) as F. fold (decimal ds) in F.
  assert (Hc : exists c r, ds = String c r /\ Bytes.isDigit c = true).
  { destruct ds as [|c r]; [congruence|]. cbn [allDigits] in Hds.
    apply andb_true_iff in Hds as [Hc _]. eauto. }
  destruct Hc as (c & r & Eds & Hc). destruct (isDigit_not_sign c Hc) as (Hm & Hp & _).
  assert (Hlen : (1 <= String.length ds)%nat) by (rewrite Eds; simpl; lia).
  assert (Small : (String.length ds <= 18)%nat -> decimal ds < 2 ^ 63).
  { intros L. assert (10 ^ Z.of_nat (String.length ds) <= 10 ^ 18)
      by (apply Z.pow_le_mono_r; lia).
    change (10 ^ 18) with 1000000000000000000 in *.
    change (2 ^ 63) with 9223372036854775808. lia. }
  split; [|split].
  - unfold strconv.Atoi.
    destruct (_ && _) eqn:E; [|exact P0].
    apply andb_true_iff in E as [_ E]. apply Z.ltb_lt in E.
    rewrite Eds at 1 2. rewrite Hm, Hp. cbn [orb andb]. rewrite <- Eds, F.
    destruct (decimal ds <? 2 ^ 63) eqn:E2; [reflexivity|].
    apply Z.ltb_ge in E2. specialize (Small ltac:(lia)). lia.
  - unfold strconv.Atoi.
    destruct (_ && _) eqn:E; [|exact P1].
    apply andb_true_iff in E as [_ E]. apply Z.ltb_lt in E. cbn [String.length] in E.
    cbn [Ascii.eqb Bool.eqb orb].
    destruct (Z.of_nat (String.length ds) <? 1) eqn:E1; [apply Z.ltb_lt in E1; lia|].
    cbn [andb]. rewrite F.
    destruct (decimal ds <? 2 ^ 63) eqn:E2; [reflexivity|].
    apply Z.ltb_ge in E2. specialize (Small ltac:(lia)). lia.
  - unfold strconv.Atoi.
    destruct (_ && _) eqn:E; [|exact P2].
    apply andb_true_iff in E as [_ E]. apply Z.ltb_lt in E. cbn [String.length] in E.
    cbn [Ascii.eqb Bool.eqb orb].
    destruct (Z.of_nat (String.length ds) <? 1) eqn:E1; [apply Z.ltb_lt in E1; lia|].
    cbn [andb]. rewrite F.
    destruct (decimal ds <=? 2 ^ 63) eqn:E2; [reflexivity|].
    apply Z.leb_gt in E2. specialize (Small ltac:(lia)). lia.
Qed.

(** X18. [Atoi] reads a string of one or more decimal digits, with or
    without a sign before it, as the number it stands for when that number
    is a 64-bit [int]; when it is not, [Atoi] returns a range error with
    the nearest end of the 64-bit range. *)
Theorem Atoi_decimal (ds : string) :
  ds <> EmptyString -> allDigits ds = true ->
  strconv.Atoi ds
  = (if decimal ds <? 2 ^ 63 then (decimal ds, None)
     else (2 ^ 63 - 1, Some strconv.ErrRange))
  /\ strconv.Atoi (String "+" ds)
     = (if decimal ds <? 2 ^ 63 then (decimal ds, None)
        else (2 ^ 63 - 1, Some strconv.ErrRange))
  /\ strconv.Atoi (String "-" ds)
     = (if decimal ds <=? 2 ^ 63 then (- decimal ds, None)
        else (- 2 ^ 63, Some strconv.ErrRange)).
Proof. exact (Atoi_digits_signed ds). Qed.

Lemma Atoi_decimal_witness :
  strconv.Atoi "0042"
  = (if decimal "0042" <? 2 ^ 63 then (decimal "0042", None)
     else (2 ^ 63 - 1, Some strconv.ErrRange))
  /\ strconv.Atoi (String "+" "0042")
     = (if decimal "0042" <? 2 ^ 63 then (decimal "0042", None)
        else (2 ^ 63 - 1, Some strconv.ErrRange))
  /\ strconv.Atoi (String "-" "0042")
     = (if decimal "0042" <=? 2 ^ 63 then (- decimal "0042", None)
        else (- 2 ^ 63, Some strconv.ErrRange)).
Proof. apply Atoi_decimal; [discriminate | reflexivity]. Defined.

(** ** Normalising a time twice *)

Lemma zeros_no_colon k buf : Count (fmt.zeros k buf) Bytes.colon = Count buf Bytes.colon.
Proof. revert buf. induction k as [|k IH]; intros buf; simpl; [reflexivity | now rewrite IH]. Qed.

Lemma d02_no_colon h : Count (fmt.d02 h) Bytes.colon = 0%nat.
Proof.
  unfold fmt.d02, fmt.fmtInteger. destruct (h <? 0) eqn:E.
  - apply Z.ltb_lt in E. cbn [Count]. rewrite zeros_no_colon, digits_no_colon by lia.
    reflexivity.
  - apply Z.ltb_ge in E. rewrite zeros_no_colon, digits_no_colon by lia. reflexivity.
Qed.

Lemma digits_allDigits f u buf :
  0 <= u -> allDigits (fmt.digits f u buf) = allDigits buf.
Proof.
  revert u buf. induction f as [|f IH]; intros u buf Hu; simpl; [reflexivity|].
  destruct (10 <=? u) eqn:E.
  - rewrite IH by (apply Z.div_pos; lia). simpl.
    now rewrite isDigit_digitChar by (apply last_digit; lia).
  - apply Z.leb_gt in E. simpl. now rewrite isDigit_digitChar by lia.
Qed.

Lemma Atoi_d02_negative h : - 2 ^ 63 <= h < 0 -> strconv.Atoi (fmt.d02 h) = (h, None).
Proof.
  intros H. unfold fmt.d02, fmt.fmtInteger.
  destruct (h <? 0) eqn:E; [|apply Z.ltb_ge in E; lia].
  destruct (digits_length 19 (- h) EmptyString) as (_ & _ & L). cbn [String.length] in L.
  change (Nat.pred 2) with 1%nat.
  replace (1 - String.length (fmt.digits 20 (- h) EmptyString))%nat with 0%nat by lia.
  cbn [fmt.zeros].
  assert (H20 : 0 <= - h < 10 ^ Z.of_nat 20)
    by (change (10 ^ Z.of_nat 20) with (10 ^ 20); lia).
  assert (Hds : allDigits (fmt.digits 20 (- h) EmptyString) = true)
    by (rewrite digits_allDigits by lia; reflexivity).
  assert (Hne : fmt.digits 20 (- h) EmptyString <> EmptyString).
  { intros E0. rewrite E0 in L. simpl in L. lia. }
  assert (Hdec : decimal (fmt.digits 20 (- h) EmptyString) = - h).
  { pose proof (fastLoop_decimal _ 0 Hds) as F.
    rewrite digits_fastLoop in F by assumption. cbn [strconv.fastLoop] in F.
    unfold decimal. congruence. }
  destruct (Atoi_digits_signed _ Hne Hds) as (_ & _ & ->). rewrite Hdec.
  destruct (- h <=? 2 ^ 63) eqn:E2; [f_equal; lia | apply Z.leb_gt in E2; lia].
Qed.

(** X19. Normalising a time a second time changes nothing, as long as
    the hour of the time, when it has one that [Atoi] reads, is less than
    48: the hour that [AdjustTime] writes is read back by [Atoi] as the same
    number, and it is less than 24. *)
Theorem AdjustTime_idempotent (t : string) :
  (forall p0 p1 p2 h,
      Split t Bytes.colon = [p0; p1; p2] -> strconv.Atoi p0 = (h, None) -> h < 48) ->
  AdjustTime (AdjustTime t) = AdjustTime t.
Proof.
  intros Hlt.
  destruct (Split t Bytes.colon) as [|p0 [|p1 [|p2 [|p3 l]]]] eqn:ES;
    try (assert (E : AdjustTime t = t) by (unfold AdjustTime; rewrite ES; reflexivity);
         now rewrite !E).
  destruct (strconv.Atoi p0) as [h [e|]] eqn:EA.
  { assert (E : AdjustTime t = t) by (unfold AdjustTime; rewrite ES, EA; reflexivity).
    now rewrite !E. }
  specialize (Hlt p0 p1 p2 h eq_refl EA).
  pose proof (Atoi_range _ _ EA) as R.
  pose proof (Split_pieces_free t Bytes.colon) as F. rewrite ES in F.
  inversion F as [|? ? F0 F']; subst. inversion F' as [|? ? F1 F'']; subst.
  inversion F'' as [|? ? F2 _]; subst.
  set (h' := if 24 <=? h then h - 24 else h).
  assert (Hh' : - 2 ^ 63 <= h' < 24).
  { subst h'. destruct (24 <=? h) eqn:E24; [apply Z.leb_le in E24 | apply Z.leb_gt in E24];
      lia. }
  assert (E : AdjustTime t = clock (fmt.d02 h') p1 p2)
    by (unfold AdjustTime; rewrite ES, EA; reflexivity).
  rewrite E. unfold clock.
  rewrite AdjustTime_three; [|apply d02_no_colon | assumption | assumption].
  assert (Eh : strconv.Atoi (fmt.d02 h') = (h', None)).
  { destruct (Z.lt_ge_cases h' 0); [apply Atoi_d02_negative | apply Atoi_d02];
      change (2 ^ 63) with 9223372036854775808 in *; lia. }
  rewrite Eh.
  destruct (24 <=? h') eqn:E24; [apply Z.leb_le in E24; lia | reflexivity].
Qed.

Lemma AdjustTime_idempotent_witness :
  AdjustTime (AdjustTime "47:59:00") = AdjustTime "47:59:00".
Proof.
  apply AdjustTime_idempotent.
  intros p0 p1 p2 h ES EA. vm_compute in ES. injection ES as <- <- <-.
  vm_compute in EA. injection EA as <-. lia.
Defined.

(** ** The order of the list and a row that is too short *)

Lemma trainsWithStops_ids parsedDate calendars stopTimes departureID arrivalID trips acc :
  exists listed,
    ti_TripID <$> fold_left (tripStep parsedDate calendars stopTimes departureID arrivalID)
                    trips acc
    = (ti_TripID <$> acc) ++ listed
    /\ sublist listed (trip_TripID <$> trips).
Proof.
  revert acc. induction trips as [|trip trips IH]; intros acc; cbn [fold_left].
  - exists []. split; [now rewrite app_nil_r | constructor].
  - destruct (IH (tripStep parsedDate calendars stopTimes departureID arrivalID acc trip))
      as (listed & E & Hsub).
    assert (Hstep :
              tripStep parsedDate calendars stopTimes departureID arrivalID acc trip = acc
              \/ exists d a,
                   tripStep parsedDate calendars stopTimes departureID arrivalID acc trip
                   = acc ++ [mkTrainInfo (trip_TripID trip) d a]).
    { unfold tripStep. destruct (negb _); [now left|].
      destruct (_ && _); [|now left].
      destruct (_ <? _); [right; eauto | now left]. }
    destruct Hstep as [Hstep | (d & a & Hstep)]; rewrite Hstep in E |- *.
    + exists listed. split; [exact E|]. rewrite fmap_cons. now apply sublist_cons.
    + exists (trip_TripID trip :: listed). split.
      * rewrite E, fmap_app, <- app_assoc. reflexivity.
      * rewrite fmap_cons. now apply sublist_skip.
Qed.

(** X20. The trip ids of the trains on the list are the trip ids of
    some rows of the trips table in the order of the table: a row of the
    trips table gives at most one train, and the list is not sorted
    again. *)
Theorem handleGetTrainList_in_trips_order
    (mapRange : gmap string Stop -> list Stop) (fs : Files)
    (departureStation arrivalStation date : string) (parsedDate : time.Time)
    (stops : gmap string Stop) (stopTimes : list StopTime)
    (trips : list Trip) (calendars : list Calendar) (body : TrainListBody) :
  time.Parse time.layoutDashed date = (parsedDate, None) ->
  loadStops (stops_txt fs) = Ok stops ->
  loadStopTimes (stop_times_txt fs) = Ok stopTimes ->
  loadTrips (trips_txt fs) = Ok trips ->
  loadCalendar (calendar_txt fs) = Ok calendars ->
  handleGetTrainList mapRange fs departureStation arrivalStation date = Json body ->
  sublist (ti_TripID <$> tl_Trains body) (trip_TripID <$> trips).
Proof.
  intros Hd Hs Hst Ht Hc Hjson.
  rewrite (handleGetTrainList_loaded _ _ _ _ _ _ _ _ _ _ _ Hd Hs Hst Ht Hc Hjson).
  unfold trainsWithStops.
  destruct (trainsWithStops_ids parsedDate calendars stopTimes
              (fst (resolveStations (mapRange stops) departureStation arrivalStation))
              (snd (resolveStations (mapRange stops) departureStation arrivalStation))
              trips []) as (listed & -> & Hsub).
  exact Hsub.
Qed.

Lemma handleGetTrainList_in_trips_order_witness :
  sublist (ti_TripID <$> tl_Trains (mkTrainListBody "Central" "North" "2024-06-10"
                                       [mkTrainInfo "5" "09:00:00" "09:30:00"]))
    (trip_TripID <$> [mkTrip "5" "R" "WKDY"]).
Proof.
  refine (handleGetTrainList_in_trips_order mapOrder feedLoop "Central" "North"
            "2024-06-10" (time.mkTime 2024 6 10) stopsTable loopTable
            [mkTrip "5" "R" "WKDY"] [calWKDY]
            (mkTrainListBody "Central" "North" "2024-06-10"
               [mkTrainInfo "5" "09:00:00" "09:30:00"]) _ _ _ _ _ _);
    vm_compute; reflexivity.
Defined.

(** X21. With the date read and the stops loaded, what either handler
    does with a stop-times file in which the reader finds the records
    [header :: rows], whatever the request asks for: when the records have
    one number of fields, fewer than five, and there is a data row, the
    loader panics and the handler sends no answer; when some record has
    another number of fields than the header, the handler answers that the
    stop times could not be loaded, with the status 500. *)
Theorem handlers_short_stop_time_rows (mapRange : gmap string Stop -> list Stop)
    (fs : Files) (trainNumber departureStation arrivalStation date : string)
    (parsedDate : time.Time) (stops : gmap string Stop)
    (header : list string) (rows : list (list string)) :
  time.Parse time.layoutDashed date = (parsedDate, None) ->
  loadStops (stops_txt fs) = Ok stops ->
  stop_times_txt fs = ReadAll (header :: rows) ->
  (sameWidth (header :: rows) = true -> (length header < 5)%nat -> rows <> [] ->
   handleGetTrainInfo fs trainNumber date = Aborted
   /\ handleGetTrainList mapRange fs departureStation arrivalStation date = Aborted)
  /\ (sameWidth (header :: rows) = false ->
      handleGetTrainInfo fs trainNumber date
      = HttpError "Error loading stop times" StatusInternalServerError
      /\ handleGetTrainList mapRange fs departureStation arrivalStation date
         = HttpError "Error loading stop times" StatusInternalServerError).
Proof.
  intros Hd Hs Hf. split.
  - intros H Hshort Hrows.
    assert (P : loadStopTimes (stop_times_txt fs) = Panic).
    { rewrite Hf. unfold loadStopTimes.
      rewrite (readTable_sameWidth stopTimeRow stopTimeOf 5 header rows
                 stopTimeRow_ok stopTimeRow_short H).
      destruct (5 <=? length header)%nat eqn:E; [apply Nat.leb_le in E; lia|].
      destruct rows; [congruence | reflexivity]. }
    unfold handleGetTrainInfo, handleGetTrainList. rewrite Hd, Hs, P. split; reflexivity.
  - intros H.
    assert (P : loadStopTimes (stop_times_txt fs) = Err)
      by (rewrite Hf; now apply readTable_ragged).
    unfold handleGetTrainInfo, handleGetTrainList. rewrite Hd, Hs, P. split; reflexivity.
Qed.

Lemma handlers_short_stop_time_rows_witness :
  (handleGetTrainInfo
     (mkFiles stopsFile
        (ReadAll (["trip_id"; "arrival_time"; "departure_time"; "stop_id"]
                  :: [["5"; ""; "08:00:00"; "A"]]))
        (Records [tripsHeader; ["R"; "WKDY"; "5"]]) calendarFile)
     "5" "2024-06-10" = Aborted
   /\ handleGetTrainList mapOrder
        (mkFiles stopsFile
           (ReadAll (["trip_id"; "arrival_time"; "departure_time"; "stop_id"]
                     :: [["5"; ""; "08:00:00"; "A"]]))
           (Records [tripsHeader; ["R"; "WKDY"; "5"]]) calendarFile)
        "Central" "North" "2024-06-10" = Aborted)
  /\ (handleGetTrainInfo
        (mkFiles stopsFile
           (ReadAll (stopTimesHeader :: [["5"; ""; "08:00:00"; "A"; "1"]; ["6"; "09:00:00"]]))
           (Records [tripsHeader; ["R"; "WKDY"; "5"]]) calendarFile)
        "5" "2024-06-10"
      = HttpError "Error loading stop times" StatusInternalServerError
      /\ handleGetTrainList mapOrder
           (mkFiles stopsFile
              (ReadAll (stopTimesHeader
                        :: [["5"; ""; "08:00:00"; "A"; "1"]; ["6"; "09:00:00"]]))
              (Records [tripsHeader; ["R"; "WKDY"; "5"]]) calendarFile)
           "Central" "North" "2024-06-10"
         = HttpError "Error loading stop times" StatusInternalServerError).
Proof.
  split.
  - refine (proj1 (handlers_short_stop_time_rows mapOrder _ "5" "Central" "North"
                     "2024-06-10" (time.mkTime 2024 6 10) stopsTable
                     ["trip_id"; "arrival_time"; "departure_time"; "stop_id"]
                     [["5"; ""; "08:00:00"; "A"]] _ _ _) _ _ _);
      try (vm_compute; reflexivity).
    discriminate.
  - refine (proj2 (handlers_short_stop_time_rows mapOrder _ "5" "Central" "North"
                     "2024-06-10" (time.mkTime 2024 6 10) stopsTable
                     stopTimesHeader
                     [["5"; ""; "08:00:00"; "A"; "1"]; ["6"; "09:00:00"]] _ _ _) _);
      vm_compute; reflexivity.
Defined.

(** ** The normaliser and the sign of the hour *)

Lemma d02_negative h : h < 0 -> fmt.d02 h = String "-" (fmt.digits 20 (- h) EmptyString).
Proof.
  intros H. unfold fmt.d02, fmt.fmtInteger.
  destruct (h <? 0) eqn:E; [|apply Z.ltb_ge in E; lia].
  destruct (digits_length 19 (- h) EmptyString) as (_ & _ & L). cbn [String.length] in L.
  change (Nat.pred 2) with 1%nat.
  replace (1 - String.length (fmt.digits 20 (- h) EmptyString))%nat with 0%nat by lia.
  reflexivity.
Qed.

Lemma d02_negative_one_digit h :
  -10 < h < 0 -> fmt.d02 h = String "-" (String (Bytes.digitChar (- h)) EmptyString).
Proof.
  intros H. rewrite d02_negative by lia. cbn [fmt.digits].
  destruct (10 <=? - h) eqn:E; [apply Z.leb_le in E; lia | reflexivity].
Qed.

(** C6, as the specification states it, fails: [Atoi] reads the hour of
    ["-05:00:00"] as -5, and [%02d] writes it back as a sign and one digit,
    which is not an hour padded with zeros to two digits. *)
Lemma AdjustTime_negative_hour_unpadded :
  strconv.Atoi "-05" = (-5, None)
  /\ AdjustTime "-05:00:00" = "-5:00:00"
  /\ Split (AdjustTime "-05:00:00") Bytes.colon = ["-5"; "00"; "00"]
  /\ allDigits "-5" = false.
Proof. repeat split; reflexivity. Qed.

(** C6, amended. [AdjustTime] returns its input as it is when the input
    does not have exactly three pieces between colons, and when the first
    piece is refused by [Atoi]. When the first piece is read as the number
    [hours], the result is the hour, less 24 when it is 24 or more, written
    with [%02d], followed by the two other pieces unchanged. [%02d] pads an
    hour that is not negative with zeros to two digits: a number below 10 is
    written as a zero and its digit, a number from 10 to 99 as its two
    digits, and any such number as at least two bytes. A negative hour is
    written as a minus sign and its digits with no zero before them: a sign
    and one digit for -9 to -1. In either case [Atoi] reads what is written
    back as the same number. The three examples of the specification hold.
    [AdjustTime] is a function defined on every string: it has no failing
    case. *)
Theorem AdjustTime_spec :
  (forall t, Count t Bytes.colon <> 2%nat -> AdjustTime t = t)
  /\ (forall p0 p1 p2 v e,
        Count p0 Bytes.colon = 0%nat -> Count p1 Bytes.colon = 0%nat ->
        Count p2 Bytes.colon = 0%nat ->
        strconv.Atoi p0 = (v, Some e) ->
        AdjustTime (clock p0 p1 p2) = clock p0 p1 p2)
  /\ (forall p0 p1 p2 hours,
        Count p0 Bytes.colon = 0%nat -> Count p1 Bytes.colon = 0%nat ->
        Count p2 Bytes.colon = 0%nat ->
        strconv.Atoi p0 = (hours, None) ->
        AdjustTime (clock p0 p1 p2)
        = clock (fmt.d02 (if 24 <=? hours then hours - 24 else hours)) p1 p2)
  /\ (forall h, 0 <= h < 10 ->
        fmt.d02 h = String "0" (String (Bytes.digitChar h) EmptyString))
  /\ (forall h, 10 <= h < 100 ->
        fmt.d02 h = String (Bytes.digitChar (h / 10))
                      (String (Bytes.digitChar (h - h / 10 * 10)) EmptyString))
  /\ (forall h, 0 <= h < 2 ^ 63 ->
        (2 <= String.length (fmt.d02 h))%nat /\ strconv.Atoi (fmt.d02 h) = (h, None))
  /\ (forall h, -10 < h < 0 ->
        fmt.d02 h = String "-" (String (Bytes.digitChar (- h)) EmptyString))
  /\ (forall h, - 2 ^ 63 <= h < 0 ->
        fmt.d02 h = String "-" (fmt.digits 20 (- h) EmptyString)
        /\ strconv.Atoi (fmt.d02 h) = (h, None))
  /\ AdjustTime "25:10:00" = "01:10:00"
  /\ AdjustTime "09:05:00" = "09:05:00"
  /\ AdjustTime "bad" = "bad".
Proof.
  split; [exact AdjustTime_other_shape|].
  split.
  { intros p0 p1 p2 v e H0 H1 H2 HA. unfold clock.
    rewrite AdjustTime_three by assumption. now rewrite HA. }
  split.
  { intros p0 p1 p2 hours H0 H1 H2 HA. unfold clock.
    rewrite AdjustTime_three by assumption. now rewrite HA. }
  split; [exact d02_one_digit|].
  split; [exact d02_two_digits|].
  split.
  { intros h H. split; [apply d02_length; lia | now apply Atoi_d02]. }
  split; [exact d02_negative_one_digit|].
  split.
  { intros h H. split; [apply d02_negative; lia | now apply Atoi_d02_negative]. }
  repeat split; reflexivity.
Qed.

Lemma AdjustTime_spec_witness :
  AdjustTime "7" = "7"
  /\ AdjustTime (clock "x7" "15" "00") = clock "x7" "15" "00"
  /\ AdjustTime (clock "31" "15" "00") = clock "07" "15" "00"
  /\ fmt.d02 7 = "07" /\ fmt.d02 23 = "23"
  /\ strconv.Atoi (fmt.d02 123) = (123, None)
  /\ fmt.d02 (-5) = "-5"
  /\ strconv.Atoi (fmt.d02 (-12)) = (-12, None).
Proof.
  destruct AdjustTime_spec as (H1 & H2 & H3 & H4 & H5 & H6 & H7 & H8 & _).
  split; [apply (H1 "7"); vm_compute; lia|].
  split; [apply (H2 "x7" "15" "00" 0 strconv.ErrSyntax); reflexivity|].
  split; [apply (H3 "31" "15" "00" 31); reflexivity|].
  split; [apply (H4 7); lia|].
  split; [apply (H5 23); lia|].
  split; [apply (H6 123); lia|].
  split; [apply (H7 (-5)); lia|].
  apply (H8 (-12)); lia.
Defined.
